(** * Octomind to Allure converter: pagination and record translation

    A shallow embedding of [src/converter.ts] (class
    [OctomindToAllureConverter]) together with the properties its design
    document states about it.

    Conventions of the embedding.
    - JavaScript numbers are modelled by what the code holds in them.
      Time values ([Date.now()], [new Date(s).getTime()]) and the count
      read by [parseInt] are whole numbers or [NaN]: [Js.number].  Step
      durations are read from a JSON body and added to a time value with
      [+]: they are IEEE-754 doubles, [Double.t], with fractions and
      infinities, and [Double.add] rounds every sum to the nearest double,
      ties to even, as the source's [+] does.
    - Strings are byte strings (the UTF-8 encoding of the source string).
    - An optional field [f?: T] is an [option T]; JavaScript truthiness of
      such a field is written out by [Js.truthy_str] and [Double.truthy].
    - [randomUUID()] and [Date.now()] are read from an explicit
      environment; [new Date(s).getTime()] is a function of the
      environment as well, since its result on strings outside the ISO
      format depends on the engine.
    - The HTTP collaborator is a state machine that answers each request
      with an outcome (transport failure, status outside 2xx, unparseable
      body, or a decoded body). *)

From Stdlib Require Import ZArith List Ascii String Lia.
From Stdlib Require SpecFloat.
From stdpp Require Import base gmap sets list strings.

(** ** JavaScript values *)

Module Js.

(** A time value or a count: a whole number, or [NaN] (what
    [new Date(s).getTime()] yields on an unparseable string and [parseInt]
    on a string without digits).  The code does no arithmetic at this
    type; where it adds, the value is a [Double.t]. *)
Inductive number : Type :=
| NaN
| Num (z : Z).

Definition is_finite (a : number) : bool :=
  match a with Num _ => true | NaN => false end.

Definition truthy_str (o : option string) : bool :=
  match o with
  | Some EmptyString => false
  | Some (String _ _) => true
  | None => false
  end.

(** [a || b] where [a] is an optional string and [b] the fallback. *)
Definition str_or (o : option string) (fallback : option string) : option string :=
  if truthy_str o then o else fallback.

End Js.

(** ** Double-precision numbers

    The values of the source type [number] where the code computes with
    them: IEEE-754 binary64.  Every finite double is a whole multiple of
    2^-1074, the least positive one, and a finite value is kept as that
    multiple: [Fin k] is [k * 2^-1074].  A double has 53 significant bits,
    so [k] stands for one exactly when the bits of [|k|] below its 53
    leading ones are all zero and [|k| < 2^2098], that is, the value is
    below 2^1024.  The two zeros are one value: the converter never tells
    them apart ([-0 || 0] is [0], and [JSON.stringify] writes both as
    [0]). *)

Module Double.
Local Open Scope Z_scope.

Inductive t : Type :=
| NaN
| Inf (negative : bool)
| Fin (k : Z).

(** 2^1024 in units of 2^-1074: the least magnitude that is out of range. *)
Definition top : Z := 2 ^ 2098.

(** The number of low bits of [k] that a double has no room for. *)
Definition shift_of (k : Z) : Z := Z.max 0 (Z.log2 (Z.abs k) - 52).

Definition representable (k : Z) : bool :=
  (Z.abs k mod 2 ^ shift_of k =? 0) && (Z.abs k <? top).

(** Quotient [q] and remainder [r] by [unit] rounded to the nearest
    quotient, a tie going to the even one. *)
Definition nearest (q r unit : Z) : Z :=
  if 2 * r <? unit then q
  else if unit <? 2 * r then q + 1
  else if Z.even q then q else q + 1.

(** Round to nearest, ties to even; a magnitude that rounds to 2^1024 or
    more is an infinity. *)
Definition round (k : Z) : t :=
  let a := Z.abs k in
  let unit := 2 ^ shift_of k in
  let m := nearest (a / unit) (a mod unit) unit * unit in
  if top <=? m then Inf (k <? 0) else Fin (Z.sgn k * m).

(** [x + y] *)
Definition add (x y : t) : t :=
  match x, y with
  | NaN, _ | _, NaN => NaN
  | Inf a, Inf b => if Bool.eqb a b then Inf a else NaN
  | Inf a, Fin _ => Inf a
  | Fin _, Inf b => Inf b
  | Fin a, Fin b => round (a + b)
  end.

(** [x <= y]: false as soon as one side is [NaN]. *)
Definition le (x y : t) : Prop :=
  match x, y with
  | NaN, _ | _, NaN => False
  | Inf true, _ => True
  | _, Inf false => True
  | Inf false, _ => False
  | Fin _, Inf true => False
  | Fin a, Fin b => a <= b
  end.

Definition is_finite (x : t) : bool :=
  match x with Fin _ => true | _ => false end.

(** Truthiness of a number: every one but [0] and [NaN]. *)
Definition truthy (x : t) : bool :=
  match x with
  | NaN => false
  | Inf _ => true
  | Fin k => negb (k =? 0)
  end.

(** [n || 0] for an optional number. *)
Definition or_zero (o : option t) : t :=
  match o with
  | Some x => if truthy x then x else Fin 0
  | None => Fin 0
  end.

(** The double nearest to [m * 2^e], for [e] from -1074 upwards; every
    double is [make m e] for some [m] and [e]. *)
Definition make (m e : Z) : t := round (m * 2 ^ (e + 1074)).

Definition of_Z (z : Z) : t := make z 0.

(** A time value or a count as the double it is. *)
Definition of_number (n : Js.number) : t :=
  match n with
  | Js.NaN => NaN
  | Js.Num z => of_Z z
  end.

(** A double other than [NaN] and negative infinity, in a representation
    that stands for one. *)
Definition advancing (x : t) : Prop :=
  match x with
  | NaN | Inf true => False
  | Inf false => True
  | Fin k => representable k = true
  end.

(** The same value in the standard library's specification of IEEE-754
    arithmetic; binary64 has precision 53 and exponents below 1024. *)
Definition to_spec (x : t) : SpecFloat.spec_float :=
  match x with
  | NaN => SpecFloat.S754_nan
  | Inf s => SpecFloat.S754_infinity s
  | Fin k => SpecFloat.binary_normalize 53 1024 k (-1074) false
  end.

Definition spec_add (x y : t) : SpecFloat.spec_float :=
  SpecFloat.SFadd 53 1024 (to_spec x) (to_spec y).

End Double.

(** ** Source entities (Octomind API types) *)

Module OctomindTestStep.
Record t : Type := mk {
  name : string;
  status : string;
  duration : option Double.t;
  error : option string
}.
End OctomindTestStep.

Module OctomindTestResult.
Record t : Type := mk {
  id : string;
  testTargetId : string;
  testCaseId : string;
  status : string;
  traceUrl : option string;
  error : option string;
  stackTrace : option string;
  duration : option Double.t;
  createdAt : option string;
  updatedAt : option string;
  steps : option (list OctomindTestStep.t)
}.
End OctomindTestResult.

Module OctomindTestReport.
Record t : Type := mk {
  id : string;
  testTargetId : string;
  status : string;
  executionUrl : string;
  createdAt : option string;
  startedAt : option string;
  finishedAt : option string;
  breakpoint : option string;
  browserType : option string;
  testResults : list OctomindTestResult.t
}.
End OctomindTestReport.

Module OctomindTestCaseTag.
Record t : Type := mk {
  id : string;
  type : string;
  value : string;
  environmentId : string;
  testTargetId : string
}.
End OctomindTestCaseTag.

Module OctomindTestCase.
Record t : Type := mk {
  id : string;
  name : string;
  description : option string;
  tags : option (list OctomindTestCaseTag.t);
  externalId : option string
}.
End OctomindTestCase.

Module OctomindEnvironment.
Record t : Type := mk {
  id : string;
  type : string;
  discoveryUrl : string;
  email : option string
}.
End OctomindEnvironment.

Module OctomindTestTarget.
Record t : Type := mk {
  id : string;
  app : string;
  tags : option (list OctomindTestCaseTag.t);
  environments : option (list OctomindEnvironment.t)
}.
End OctomindTestTarget.

(** [key] holds the [createdAt] of the page key; [None] when the response
    carries no key (the source reads it as [page.key?.createdAt]). *)
Module OctomindTestReportsPage.
Record t : Type := mk {
  data : list OctomindTestReport.t;
  key : option string;
  hasNextPage : bool
}.
End OctomindTestReportsPage.

(** ** Target entities (Allure types) *)

Inductive AllureStatus : Type :=
| passed | failed | broken | skipped | unknown.

Inductive AllureStage : Type :=
| scheduled | running | finished | pending | interrupted.

Module AllureLink.
Record t : Type := mk { type : string; name : string; url : string }.
End AllureLink.

Module AllureLabel.
Record t : Type := mk { name : string; value : string }.
End AllureLabel.

Module AllureStatusDetails.
Record t : Type := mk {
  known : option bool;
  muted : option bool;
  flaky : option bool;
  message : option string;
  trace : option string
}.
End AllureStatusDetails.

Module AllureAttachment.
Record t : Type := mk { name : string; source : string; type : string }.
End AllureAttachment.

Module AllureParameter.
Record t : Type := mk {
  name : string;
  value : string;
  excluded : option bool;
  mode : option string
}.
End AllureParameter.

(** The source type is recursive ([steps?: AllureStep[]]); [convertStep]
    never sets the nested list, so a step of the model has no children. *)
Module AllureStep.
Record t : Type := mk {
  name : string;
  status : AllureStatus;
  statusDetails : option AllureStatusDetails.t;
  stage : AllureStage;
  start : Double.t;
  stop : Double.t;
  attachments : option (list AllureAttachment.t);
  parameters : option (list AllureParameter.t)
}.
End AllureStep.

Module AllureTestResult.
Record t : Type := mk {
  uuid : string;
  historyId : string;
  testCaseId : option string;
  fullName : string;
  name : string;
  description : option string;
  links : list AllureLink.t;
  labels : list AllureLabel.t;
  status : AllureStatus;
  statusDetails : option AllureStatusDetails.t;
  stage : AllureStage;
  start : Js.number;
  stop : Js.number;
  steps : option (list AllureStep.t);
  attachments : option (list AllureAttachment.t);
  parameters : option (list AllureParameter.t)
}.
End AllureTestResult.

Module AllureContainer.
Record t : Type := mk {
  uuid : string;
  name : string;
  start : Js.number;
  stop : Js.number;
  children : list string
}.
End AllureContainer.

(** ** Status mapper *)

Definition convertStatus (status : string) : AllureStatus :=
  if String.eqb status "PASSED" then passed
  else if String.eqb status "FAILED" then failed
  else if String.eqb status "BROKEN" then broken
  else if String.eqb status "SKIPPED" then skipped
  else unknown.

(** ** Identity deriver: MD5 (RFC 1321), as [crypto.createHash('md5')]

    Words are 32-bit integers kept in [Z], every addition reduced modulo
    2^32; bytes are integers in [0, 256). *)

Module MD5.
Local Open Scope Z_scope.

Definition modulus : Z := 4294967296.

Definition add32 (x y : Z) : Z := (x + y) mod modulus.

Definition not32 (x : Z) : Z := Z.lxor x (modulus - 1).

Definition rotl32 (x c : Z) : Z :=
  Z.lor (Z.shiftl x c mod modulus) (Z.shiftr x (32 - c)).

Definition F (b c d : Z) : Z := Z.lor (Z.land b c) (Z.land (not32 b) d).
Definition G (b c d : Z) : Z := Z.lor (Z.land b d) (Z.land c (not32 d)).
Definition H (b c d : Z) : Z := Z.lxor (Z.lxor b c) d.
Definition I (b c d : Z) : Z := Z.lxor c (Z.lor b (not32 d)).

Definition shifts : list Z :=
  [ 7; 12; 17; 22; 7; 12; 17; 22; 7; 12; 17; 22; 7; 12; 17; 22;
    5; 9; 14; 20; 5; 9; 14; 20; 5; 9; 14; 20; 5; 9; 14; 20;
    4; 11; 16; 23; 4; 11; 16; 23; 4; 11; 16; 23; 4; 11; 16; 23;
    6; 10; 15; 21; 6; 10; 15; 21; 6; 10; 15; 21; 6; 10; 15; 21 ].

(** [floor (2^32 * abs (sin (i + 1)))] for [i] from 0 to 63. *)
Definition sines : list Z :=
  [ 3614090360; 3905402710; 606105819; 3250441966;
    4118548399; 1200080426; 2821735955; 4249261313;
    1770035416; 2336552879; 4294925233; 2304563134;
    1804603682; 4254626195; 2792965006; 1236535329;
    4129170786; 3225465664; 643717713; 3921069994;
    3593408605; 38016083; 3634488961; 3889429448;
    568446438; 3275163606; 4107603335; 1163531501;
    2850285829; 4243563512; 1735328473; 2368359562;
    4294588738; 2272392833; 1839030562; 4259657740;
    2763975236; 1272893353; 4139469664; 3200236656;
    681279174; 3936430074; 3572445317; 76029189;
    3654602809; 3873151461; 530742520; 3299628645;
    4096336452; 1126891415; 2878612391; 4237533241;
    1700485571; 2399980690; 4293915773; 2240044497;
    1873313359; 4264355552; 2734768916; 1309151649;
    4149444226; 3174756917; 718787259; 3951481745 ].

Record state : Type := State { wa : Z; wb : Z; wc : Z; wd : Z }.

Definition initial : state :=
  State 1732584193 4023233417 2562383102 271733878.

Definition operation (M : list Z) (st : state) (i : nat) : state :=
  let iz := Z.of_nat i in
  let (a, b, c, d) := st in
  let fg :=
    if iz <? 16 then (F b c d, iz)
    else if iz <? 32 then (G b c d, (5 * iz + 1) mod 16)
    else if iz <? 48 then (H b c d, (3 * iz + 5) mod 16)
    else (I b c d, (7 * iz) mod 16) in
  let f := add32 (add32 (add32 (fst fg) a) (nth i sines 0))
                 (nth (Z.to_nat (snd fg)) M 0) in
  State d (add32 b (rotl32 f (nth i shifts 0))) b c.

(** Sixteen little-endian words of a 64-byte block. *)
Fixpoint words (bytes : list Z) : list Z :=
  match bytes with
  | b0 :: b1 :: b2 :: b3 :: rest =>
      (b0 + 256 * b1 + 65536 * b2 + 16777216 * b3) :: words rest
  | _ => []
  end.

Definition compress (st : state) (block : list Z) : state :=
  let st' := fold_left (operation (words block)) (seq 0 64) st in
  State (add32 (wa st) (wa st')) (add32 (wb st) (wb st'))
        (add32 (wc st) (wc st')) (add32 (wd st) (wd st')).

Fixpoint le_bytes (n : nat) (x : Z) : list Z :=
  match n with
  | O => []
  | S n' => x mod 256 :: le_bytes n' (x / 256)
  end.

Definition pad (msg : list Z) : list Z :=
  let len := Z.of_nat (length msg) in
  msg ++ [128] ++ repeat 0 (Z.to_nat ((55 - len) mod 64))
      ++ le_bytes 8 ((8 * len) mod 18446744073709551616).

Fixpoint blocks (fuel : nat) (bytes : list Z) : list (list Z) :=
  match fuel, bytes with
  | S fuel', _ :: _ => take 64 bytes :: blocks fuel' (drop 64 bytes)
  | _, _ => []
  end.

Definition digest (msg : list Z) : state :=
  let padded := pad msg in
  fold_left compress (blocks (length padded) padded) initial.

Definition state_bytes (st : state) : list Z :=
  le_bytes 4 (wa st) ++ le_bytes 4 (wb st)
    ++ le_bytes 4 (wc st) ++ le_bytes 4 (wd st).

Definition hex_digits : list ascii :=
  list_ascii_of_string "0123456789abcdef".

Definition hex_digit (n : Z) : ascii :=
  nth (Z.to_nat (n mod 16)) hex_digits "0"%char.

Definition hex_byte (b : Z) : list ascii :=
  [hex_digit (b / 16); hex_digit b].

Definition hex (bytes : list Z) : string :=
  string_of_list_ascii (flat_map hex_byte bytes).

Definition bytes_of_string (s : string) : list Z :=
  map (fun c => Z.of_N (N_of_ascii c)) (list_ascii_of_string s).

(** [createHash('md5').update(s).digest('hex')]. *)
Definition hexdigest (s : string) : string :=
  hex (state_bytes (digest (bytes_of_string s))).

Definition is_hex_digit (c : ascii) : bool :=
  existsb (Ascii.eqb c) hex_digits.

End MD5.

(** [generateHistoryId] *)
Definition generateHistoryId (testTargetId testCaseId : string) : string :=
  MD5.hexdigest (testTargetId +:+ ":" +:+ testCaseId).

(** ** Step translator and record translator *)

(** What the translation reads from its surroundings: the identifier
    [randomUUID()] hands out, the clock [Date.now()] and the engine's
    [new Date(s).getTime()]. *)
Record Env : Type := {
  randomUUID : string;
  Date_now : Z;
  Date_getTime : string -> Js.number
}.

Definition message_only (msg : option string) : AllureStatusDetails.t :=
  {| AllureStatusDetails.known := None;
     AllureStatusDetails.muted := None;
     AllureStatusDetails.flaky := None;
     AllureStatusDetails.message := msg;
     AllureStatusDetails.trace := None |}.

Definition convertStep (step : OctomindTestStep.t) (startTime : Double.t)
  : AllureStep.t :=
  let stepStart := startTime in
  let stepStop :=
    Double.add startTime (Double.or_zero (OctomindTestStep.duration step)) in
  {| AllureStep.name := OctomindTestStep.name step;
     AllureStep.status := convertStatus (OctomindTestStep.status step);
     AllureStep.statusDetails :=
       if Js.truthy_str (OctomindTestStep.error step)
       then Some (message_only (OctomindTestStep.error step))
       else None;
     AllureStep.stage := finished;
     AllureStep.start := stepStart;
     AllureStep.stop := stepStop;
     AllureStep.attachments := None;
     AllureStep.parameters := None |}.

(** One turn of the [forEach] over the steps of a result: push the
    translated step, advance [currentTime]. *)
Definition push_step (acc : list AllureStep.t * Double.t)
    (step : OctomindTestStep.t) : list AllureStep.t * Double.t :=
  (acc.1 ++ [convertStep step acc.2],
   Double.add acc.2 (Double.or_zero (OctomindTestStep.duration step))).

Definition convertSteps (steps : option (list OctomindTestStep.t))
    (start : Double.t) : list AllureStep.t :=
  match steps with
  | Some l => (fold_left push_step l ([], start)).1
  | None => []
  end.

(** [testCase.description || testCase.name || testResult.testCaseId] *)
Definition testName_of (testCase : OctomindTestCase.t)
    (testResult : OctomindTestResult.t) : string :=
  match OctomindTestCase.description testCase with
  | Some (String a d) => String a d
  | _ =>
      match OctomindTestCase.name testCase with
      | String a n => String a n
      | EmptyString => OctomindTestResult.testCaseId testResult
      end
  end.

Definition start_of (env : Env) (testResult : OctomindTestResult.t) : Js.number :=
  match OctomindTestResult.createdAt testResult with
  | Some (String a s) => Date_getTime env (String a s)
  | _ => Js.Num (Date_now env)
  end.

Definition stop_of (env : Env) (testResult : OctomindTestResult.t) : Js.number :=
  match OctomindTestResult.updatedAt testResult with
  | Some (String a s) => Date_getTime env (String a s)
  | _ => start_of env testResult
  end.

Definition links_of (testResult : OctomindTestResult.t)
    (testReport : OctomindTestReport.t) (testCase : OctomindTestCase.t)
  : list AllureLink.t :=
  [ {| AllureLink.type := "link";
       AllureLink.name := "View in Octomind";
       AllureLink.url :=
         "https://app.octomind.dev/testtargets/"
           +:+ OctomindTestResult.testTargetId testResult
           +:+ "/testreports/" +:+ OctomindTestReport.id testReport |} ]
  ++ match OctomindTestResult.traceUrl testResult with
     | Some (String a u) =>
         [ {| AllureLink.type := "link";
              AllureLink.name := "Playwright Trace";
              AllureLink.url := String a u |} ]
     | _ => []
     end
  ++ match OctomindTestCase.externalId testCase with
     | Some (String a e) =>
         [ {| AllureLink.type := "tms";
              AllureLink.name := String a e;
              AllureLink.url := "#" +:+ String a e |} ]
     | _ => []
     end.

Definition label (name value : string) : AllureLabel.t :=
  {| AllureLabel.name := name; AllureLabel.value := value |}.

Definition tag_labels (tags : option (list OctomindTestCaseTag.t))
  : list AllureLabel.t :=
  match tags with
  | Some l =>
      flat_map
        (fun tag =>
           if String.eqb (OctomindTestCaseTag.type tag) "TEXT"
           then [label "tag" (OctomindTestCaseTag.value tag)]
           else [])
        l
  | None => []
  end.

Definition labels_of (testResult : OctomindTestResult.t)
    (testReport : OctomindTestReport.t) (testCase : OctomindTestCase.t)
    (testTarget : OctomindTestTarget.t) (testName : string)
  : list AllureLabel.t :=
  [ label "host" "octomind";
    label "language" "typescript";
    label "framework" "playwright";
    label "testClass" (OctomindTestTarget.app testTarget);
    label "testMethod" (OctomindTestResult.testCaseId testResult);
    label "suite" testName;
    label "package" (OctomindTestTarget.app testTarget) ]
  ++ match OctomindTestReport.breakpoint testReport with
     | Some (String a b) => [label "breakpoint" (String a b)]
     | _ => []
     end
  ++ match OctomindTestReport.browserType testReport with
     | Some (String a b) => [label "browser" (String a b)]
     | _ => []
     end
  ++ tag_labels (OctomindTestCase.tags testCase).

Definition statusDetails_of (testResult : OctomindTestResult.t)
  : option AllureStatusDetails.t :=
  if Js.truthy_str (OctomindTestResult.error testResult)
     || Js.truthy_str (OctomindTestResult.stackTrace testResult)
  then Some {| AllureStatusDetails.known := None;
               AllureStatusDetails.muted := None;
               AllureStatusDetails.flaky := None;
               AllureStatusDetails.message := OctomindTestResult.error testResult;
               AllureStatusDetails.trace := OctomindTestResult.stackTrace testResult |}
  else None.

Definition convertTestResult (env : Env)
    (testResult : OctomindTestResult.t) (testReport : OctomindTestReport.t)
    (testCase : OctomindTestCase.t) (testTarget : OctomindTestTarget.t)
  : AllureTestResult.t :=
  let uuid := randomUUID env in
  let historyId :=
    generateHistoryId (OctomindTestResult.testTargetId testResult)
                      (OctomindTestResult.testCaseId testResult) in
  let testName := testName_of testCase testResult in
  let testFullName := OctomindTestTarget.app testTarget +:+ "." +:+ testName in
  let start := start_of env testResult in
  let stop := stop_of env testResult in
  let steps :=
    convertSteps (OctomindTestResult.steps testResult) (Double.of_number start) in
  {| AllureTestResult.uuid := uuid;
     AllureTestResult.historyId := historyId;
     AllureTestResult.testCaseId := Some (OctomindTestResult.testCaseId testResult);
     AllureTestResult.fullName := testFullName;
     AllureTestResult.name := testName;
     AllureTestResult.description := OctomindTestCase.description testCase;
     AllureTestResult.links := links_of testResult testReport testCase;
     AllureTestResult.labels :=
       labels_of testResult testReport testCase testTarget testName;
     AllureTestResult.status := convertStatus (OctomindTestResult.status testResult);
     AllureTestResult.statusDetails := statusDetails_of testResult;
     AllureTestResult.stage := finished;
     AllureTestResult.start := start;
     AllureTestResult.stop := stop;
     AllureTestResult.steps := Some steps;
     AllureTestResult.attachments := None;
     AllureTestResult.parameters := None |}.

Definition convertToContainer (env : Env) (testReport : OctomindTestReport.t)
    (testResultUuids : list string) : AllureContainer.t :=
  let now := Js.Num (Date_now env) in
  {| AllureContainer.uuid := randomUUID env;
     AllureContainer.name := "Test Report " +:+ OctomindTestReport.id testReport;
     AllureContainer.start :=
       match OctomindTestReport.startedAt testReport with
       | Some (String a s) => Date_getTime env (String a s)
       | _ => now
       end;
     AllureContainer.stop :=
       match OctomindTestReport.finishedAt testReport with
       | Some (String a s) => Date_getTime env (String a s)
       | _ => now
       end;
     AllureContainer.children := testResultUuids |}.

(** ** The remote service and the converter state *)

Module TestReportFilter.
Record t : Type := mk { key : string; operator : string; value : string }.
End TestReportFilter.

(** A GET request: the URL up to the query string, the [X-API-Key] header
    and the two query parameters of the paginated endpoint ([key] is the
    [createdAt] of the cursor, [filters] is empty when none is sent). *)
Record Request : Type := {
  url : string;
  apiKeyHeader : string;
  key : option string;
  filters : list TestReportFilter.t
}.

(** What [await fetch(...)] followed by [response.json()] can come to.  A
    body that parses is taken to have the shape the source casts it to. *)
Inductive Response (A : Type) : Type :=
| NetworkError
| NotOk (status : Z) (statusText : string)
| BadJson
| Json (a : A).
Arguments NetworkError {A}.
Arguments NotOk {A} status statusText.
Arguments BadJson {A}.
Arguments Json {A} a.

(** The service as a state machine over its own state [W]. *)
Record Remote (W : Type) : Type := {
  getTestCase : W -> Request -> W * Response OctomindTestCase.t;
  getTestReports : W -> Request -> W * Response OctomindTestReportsPage.t
}.
Arguments getTestCase {W} _ _ _.
Arguments getTestReports {W} _ _ _.

(** The converter object ([apiKey], [apiBaseUrl], [testCaseCache]) with the
    surroundings its methods act on: the state of the service, the
    requests sent so far and the lines written by [console.warn]. *)
Record Converter (W : Type) : Type := {
  apiKey : string;
  apiBaseUrl : string;
  testCaseCache : gmap string OctomindTestCase.t;
  net : W;
  requests : list Request;
  warnings : list string
}.
Arguments apiKey {W} _.
Arguments apiBaseUrl {W} _.
Arguments testCaseCache {W} _.
Arguments net {W} _.
Arguments requests {W} _.
Arguments warnings {W} _.

Definition new_Converter {W : Type} (key base : string) (w : W) : Converter W :=
  {| apiKey := key; apiBaseUrl := base; testCaseCache := ∅;
     net := w; requests := []; warnings := [] |}.

Inductive Error : Type :=
| FetchRejected
| JsonRejected
| HttpError (what : string) (status : Z) (statusText : string).

Inductive result (A : Type) : Type :=
| Threw (e : Error)
| Returned (a : A).
Arguments Threw {A} e.
Arguments Returned {A} a.

(** Methods of the converter: state in, state and outcome out. *)
Definition M (W A : Type) : Type := Converter W -> Converter W * result A.

Definition ret {W A : Type} (a : A) : M W A := fun c => (c, Returned a).

Definition throw {W A : Type} (e : Error) : M W A := fun c => (c, Threw e).

Definition bind {W A B : Type} (m : M W A) (k : A -> M W B) : M W B :=
  fun c =>
    match m c with
    | (c', Returned a) => k a c'
    | (c', Threw e) => (c', Threw e)
    end.

Notation "'let*' x ':=' m 'in' k" := (bind m (fun x => k))
  (at level 10, x binder, m at level 100, k at level 200).

(** The state once [line] has gone to [console.warn]. *)
Definition with_warning {W : Type} (c : Converter W) (line : string)
  : Converter W :=
  {| apiKey := apiKey c; apiBaseUrl := apiBaseUrl c;
     testCaseCache := testCaseCache c; net := net c;
     requests := requests c; warnings := warnings c ++ [line] |}.

(** The state once [req] has been sent and the service has moved to [w']. *)
Definition with_request {W : Type} (c : Converter W) (req : Request) (w' : W)
  : Converter W :=
  {| apiKey := apiKey c; apiBaseUrl := apiBaseUrl c;
     testCaseCache := testCaseCache c; net := w';
     requests := requests c ++ [req]; warnings := warnings c |}.

Definition warn {W : Type} (line : string) : M W unit :=
  fun c => (with_warning c line, Returned tt).

Definition cache_set {W : Type} (k : string) (v : OctomindTestCase.t) : M W unit :=
  fun c =>
    ({| apiKey := apiKey c; apiBaseUrl := apiBaseUrl c;
        testCaseCache := <[k := v]> (testCaseCache c); net := net c;
        requests := requests c; warnings := warnings c |},
     Returned tt).

(** [await fetch(url, headers)] against one endpoint of the service: the
    request is recorded and the service moves on; a transport failure
    rejects. *)
Definition fetch {W A : Type} (endpoint : W -> Request -> W * Response A)
    (req : Request) : M W (Response A) :=
  fun c =>
    let (w', resp) := endpoint (net c) req in
    let c' := with_request c req w' in
    match resp with
    | NetworkError => (c', Threw FetchRejected)
    | _ => (c', Returned resp)
    end.

(** ** Case cache *)

Definition synthetic_case (testCaseId : string) : OctomindTestCase.t :=
  {| OctomindTestCase.id := testCaseId;
     OctomindTestCase.name := testCaseId;
     OctomindTestCase.description := None;
     OctomindTestCase.tags := Some [];
     OctomindTestCase.externalId := None |}.

Definition cacheKey_of (testTargetId testCaseId : string) : string :=
  testTargetId +:+ ":" +:+ testCaseId.

Definition testCase_request {W : Type} (c : Converter W)
    (testTargetId testCaseId : string) : Request :=
  {| url := apiBaseUrl c +:+ "/apiKey/v2/test-targets/" +:+ testTargetId
              +:+ "/test-cases/" +:+ testCaseId;
     apiKeyHeader := apiKey c; key := None; filters := [] |}.

Definition fetchTestCase {W : Type} (remote : Remote W)
    (testTargetId testCaseId : string) : M W OctomindTestCase.t :=
  fun c =>
    let cacheKey := cacheKey_of testTargetId testCaseId in
    match testCaseCache c !! cacheKey with
    | Some cached => (c, Returned cached)
    | None =>
        (let* response :=
           fetch (getTestCase remote) (testCase_request c testTargetId testCaseId) in
         let* testCase :=
           match response with
           | Json body => ret body
           | BadJson => throw JsonRejected
           | NotOk _ _ => ret (synthetic_case testCaseId)
           | NetworkError => throw FetchRejected
           end in
         let* _ := cache_set cacheKey testCase in
         ret testCase) c
    end.

(** ** Pagination engine *)

Record ReportsOptions : Type := {
  opt_keyCreatedAt : option string;
  opt_filters : option (list TestReportFilter.t);
  opt_debug : bool
}.

Definition testReports_request {W : Type} (c : Converter W)
    (testTargetId : string) (options : ReportsOptions) : Request :=
  {| url := apiBaseUrl c +:+ "/apiKey/v2/test-targets/" +:+ testTargetId
              +:+ "/test-reports?";
     apiKeyHeader := apiKey c;
     key := if Js.truthy_str (opt_keyCreatedAt options)
            then opt_keyCreatedAt options else None;
     filters := default [] (opt_filters options) |}.

Definition fetchTestReports {W : Type} (remote : Remote W)
    (testTargetId : string) (options : ReportsOptions)
  : M W OctomindTestReportsPage.t :=
  fun c =>
    (let* response :=
       fetch (getTestReports remote) (testReports_request c testTargetId options) in
     match response with
     | Json page => ret page
     | BadJson => throw JsonRejected
     | NotOk status statusText =>
         throw (HttpError "Failed to fetch test reports" status statusText)
     | NetworkError => throw FetchRejected
     end) c.

Record AllOptions : Type := {
  maxReports : option Js.number;
  all_filters : option (list TestReportFilter.t);
  all_debug : bool
}.

(** [options?.maxReports || Infinity] *)
Inductive bound : Type :=
| Infinity
| Finite (z : Z).

Definition maxReports_of (options : option AllOptions) : bound :=
  match options ≫= maxReports with
  | Some (Js.Num z) => if (z =? 0)%Z then Infinity else Finite z
  | _ => Infinity
  end.

(** [n < max], [n >= max] and [n > max] for a length [n]. *)
Definition below (n : nat) (max : bound) : bool :=
  match max with
  | Infinity => true
  | Finite z => (Z.of_nat n <? z)%Z
  end.

Definition reached (n : nat) (max : bound) : bool :=
  match max with
  | Infinity => false
  | Finite z => (z <=? Z.of_nat n)%Z
  end.

Definition exceeds (n : nat) (max : bound) : bool :=
  match max with
  | Infinity => false
  | Finite z => (z <? Z.of_nat n)%Z
  end.

(** [l.slice(0, e)] for an integer [e]: a negative end counts from the
    back of the array. *)
Definition slice0 {A : Type} (l : list A) (e : Z) : list A :=
  if (e <? 0)%Z
  then take (Z.to_nat (Z.max 0 (Z.of_nat (length l) + e))) l
  else take (Z.to_nat e) l.

(** The variables of [fetchAllTestReports] that the loop updates. *)
Record Vars : Type := {
  allReports : list OctomindTestReport.t;
  hasNextPage : bool;
  keyCreatedAt : option string;
  seenIds : gset string
}.

Definition initial_vars : Vars :=
  {| allReports := []; hasNextPage := true; keyCreatedAt := None; seenIds := ∅ |}.

Definition loop_condition (max : bound) (v : Vars) : bool :=
  hasNextPage v && below (length (allReports v)) max.

(** [page.data.filter(report => !seenIds.has(report.id))] *)
Definition newReports_of (seen : gset string)
    (data : list OctomindTestReport.t) : list OctomindTestReport.t :=
  filter (fun report => OctomindTestReport.id report ∉ seen) data.

(** One turn of [newReports.forEach]: record the id, push the report. *)
Definition add_report (acc : gset string * list OctomindTestReport.t)
    (report : OctomindTestReport.t) : gset string * list OctomindTestReport.t :=
  ({[ OctomindTestReport.id report ]} ∪ acc.1, acc.2 ++ [report]).

Definition duplicates_warning : string :=
  "  Warning: Received duplicate reports, stopping pagination".

Definition no_progress_warning : string :=
  "  Warning: No new reports but hasNextPage=true, stopping to prevent infinite loop".

(** The options [fetchAllTestReports] passes to [fetchTestReports]. *)
Definition page_options (options : option AllOptions) (v : Vars)
  : ReportsOptions :=
  {| opt_keyCreatedAt := keyCreatedAt v;
     opt_filters := options ≫= all_filters;
     opt_debug := default false (all_debug <$> options) |}.

Inductive flow : Type :=
| Break
| Next.

(** The body of the [while] loop. *)
Definition iteration {W : Type} (remote : Remote W) (testTargetId : string)
    (options : option AllOptions) (v : Vars) : M W (flow * Vars) :=
  let max := maxReports_of options in
  let* page :=
    fetchTestReports remote testTargetId (page_options options v) in
  let data := OctomindTestReportsPage.data page in
  let newReports := newReports_of (seenIds v) data in
  if (length newReports =? 0) && (0 <? length data)
  then
    let* _ := warn duplicates_warning in
    ret (Break, v)
  else
    let added := fold_left add_report newReports (seenIds v, allReports v) in
    let next := OctomindTestReportsPage.hasNextPage page in
    let v' :=
      {| allReports := added.2;
         hasNextPage := next;
         keyCreatedAt :=
           if next && Js.truthy_str (OctomindTestReportsPage.key page)
           then OctomindTestReportsPage.key page
           else keyCreatedAt v;
         seenIds := added.1 |} in
    if reached (length (allReports v')) max
    then ret (Break, v')
    else if (length newReports =? 0) && next
    then
      let* _ := warn no_progress_warning in
      ret (Break, v')
    else ret (Next, v').

(** The [while] loop; [None] when [fuel] turns of the loop were not
    enough to leave it. *)
Fixpoint pagination {W : Type} (fuel : nat) (remote : Remote W)
    (testTargetId : string) (options : option AllOptions) (v : Vars)
    (c : Converter W) : option (Converter W * result Vars) :=
  if loop_condition (maxReports_of options) v
  then
    match fuel with
    | O => None
    | S fuel' =>
        match iteration remote testTargetId options v c with
        | (c', Returned (Next, v')) =>
            pagination fuel' remote testTargetId options v' c'
        | (c', Returned (Break, v')) => Some (c', Returned v')
        | (c', Threw e) => Some (c', Threw e)
        end
    end
  else Some (c, Returned v).

(** The statements after the loop. *)
Definition trim (max : bound) (reports : list OctomindTestReport.t)
  : list OctomindTestReport.t :=
  if exceeds (length reports) max
  then match max with
       | Finite z => slice0 reports z
       | Infinity => reports
       end
  else reports.

(** [fetchAllTestReports] once the loop variables are [v]. *)
Definition fetchAllTestReports_from {W : Type} (fuel : nat) (remote : Remote W)
    (testTargetId : string) (options : option AllOptions) (v : Vars)
    (c : Converter W) : option (Converter W * result (list OctomindTestReport.t)) :=
  match pagination fuel remote testTargetId options v c with
  | Some (c', Returned v') =>
      Some (c', Returned (trim (maxReports_of options) (allReports v')))
  | Some (c', Threw e) => Some (c', Threw e)
  | None => None
  end.

Definition fetchAllTestReports {W : Type} (fuel : nat) (remote : Remote W)
    (testTargetId : string) (options : option AllOptions)
    (c : Converter W) : option (Converter W * result (list OctomindTestReport.t)) :=
  fetchAllTestReports_from fuel remote testTargetId options initial_vars c.

(** The loop variables once a page has been taken in: its new reports
    appended, their ids recorded, flag and cursor taken from the page. *)
Definition absorbed (v : Vars) (page : OctomindTestReportsPage.t) : Vars :=
  let newReports := newReports_of (seenIds v) (OctomindTestReportsPage.data page) in
  {| allReports := allReports v ++ newReports;
     hasNextPage := OctomindTestReportsPage.hasNextPage page;
     keyCreatedAt :=
       if OctomindTestReportsPage.hasNextPage page
          && Js.truthy_str (OctomindTestReportsPage.key page)
       then OctomindTestReportsPage.key page
       else keyCreatedAt v;
     seenIds :=
       list_to_set (map OctomindTestReport.id newReports) ∪ seenIds v |}.

(** The request for the next page, as the loop variables [v] make it. *)
Definition page_request {W : Type} (c : Converter W) (testTargetId : string)
    (options : option AllOptions) (v : Vars) : Request :=
  testReports_request c testTargetId (page_options options v).

(** The service only ever serves reports whose ids are among [universe]. *)
Definition serves_only {W : Type} (remote : Remote W) (universe : list string)
  : Prop :=
  forall w req w' page,
    getTestReports remote w req = (w', Json page) ->
    forall r, r ∈ OctomindTestReportsPage.data page ->
              OctomindTestReport.id r ∈ universe.

(** No page the service ever serves carries the same id twice. *)
Definition serves_distinct {W : Type} (remote : Remote W) : Prop :=
  forall w req w' page,
    getTestReports remote w req = (w', Json page) ->
    NoDup (map OctomindTestReport.id (OctomindTestReportsPage.data page)).

(** The loop variables keep track of the reports gathered: no id occurs
    twice among them and every one of their ids is recorded as seen. *)
Definition tracked (v : Vars) : Prop :=
  NoDup (map OctomindTestReport.id (allReports v))
  /\ forall r, r ∈ allReports v -> OctomindTestReport.id r ∈ seenIds v.

(** The steps of a list translated one after the other from time [t]:
    the recursion that the [forEach] of [convertSteps] unfolds to. *)
Fixpoint steps_from (l : list OctomindTestStep.t) (t : Double.t)
  : list AllureStep.t :=
  match l with
  | [] => []
  | step :: rest =>
      convertStep step t
        :: steps_from rest
             (Double.add t (Double.or_zero (OctomindTestStep.duration step)))
  end.

(** ** Properties of step lists, as the design document words them *)

(** The duration that step [i] contributes: [step.duration || 0]. *)
Definition durations (l : list OctomindTestStep.t) : list Double.t :=
  map (fun step => Double.or_zero (OctomindTestStep.duration step)) l.

(** Contiguity: the first start is the result's start, every later start
    is the previous stop, every stop is its start plus the duration, the
    sum being the one [+] computes. *)
Definition contiguous (start : Double.t) (ds : list Double.t)
    (out : list AllureStep.t) : Prop :=
  length out = length ds
  /\ (forall s, out !! 0%nat = Some s -> AllureStep.start s = start)
  /\ (forall i s s', out !! i = Some s -> out !! S i = Some s' ->
        AllureStep.start s' = AllureStep.stop s)
  /\ (forall i s d, out !! i = Some s -> ds !! i = Some d ->
        AllureStep.stop s = Double.add (AllureStep.start s) d).

(** Monotonicity: no step stops before it starts, no step starts before
    the one in front of it. *)
Definition nondecreasing (out : list AllureStep.t) : Prop :=
  (forall i s, out !! i = Some s ->
        Double.le (AllureStep.start s) (AllureStep.stop s))
  /\ (forall i s s', out !! i = Some s -> out !! S i = Some s' ->
        Double.le (AllureStep.start s) (AllureStep.start s')).

(** [0 <= d] *)
Definition nonnegative (d : Double.t) : Prop :=
  Double.le (Double.Fin 0) d.

(** ** Sample data *)

Module Sample.

Definition report (i : string) : OctomindTestReport.t :=
  {| OctomindTestReport.id := i;
     OctomindTestReport.testTargetId := "target-1";
     OctomindTestReport.status := "PASSED";
     OctomindTestReport.executionUrl := "https://example.test/run";
     OctomindTestReport.createdAt := None;
     OctomindTestReport.startedAt := None;
     OctomindTestReport.finishedAt := None;
     OctomindTestReport.breakpoint := None;
     OctomindTestReport.browserType := None;
     OctomindTestReport.testResults := [] |}.

Definition page (ids : list string) (cursor : option string) (more : bool)
  : OctomindTestReportsPage.t :=
  {| OctomindTestReportsPage.data := map report ids;
     OctomindTestReportsPage.key := cursor;
     OctomindTestReportsPage.hasNextPage := more |}.

(** A service that plays a script: request number [n] is answered with
    the [n]-th entry, and with an empty last page once the script is
    over.  Test cases are unknown to it. *)
Definition scripted (script : list (Response OctomindTestReportsPage.t))
  : Remote nat :=
  {| getTestCase := fun n _ => (n, NotOk 404 "Not Found");
     getTestReports :=
       fun n _ => (S n, nth n script (Json (page [] None false))) |}.

(** A service that answers every page request alike, continuation flag
    set, and fails every test-case request as [answer] says. *)
Definition stubborn (ids : list string)
    (answer : Response OctomindTestCase.t) : Remote unit :=
  {| getTestCase := fun w _ => (w, answer);
     getTestReports := fun w _ => (w, Json (page ids (Some "2024-01-01T00:00:00Z") true)) |}.

Definition converter {W : Type} (w : W) : Converter W :=
  new_Converter "secret" "https://app.octomind.dev/api" w.

Definition capped (z : Z) : option AllOptions :=
  Some {| maxReports := Some (Js.Num z); all_filters := None; all_debug := false |}.

(** The ids of the reports a run has returned. *)
Definition returned_ids {W : Type}
    (run : option (Converter W * result (list OctomindTestReport.t)))
  : option (list string) :=
  match run with
  | Some (_, Returned reports) => Some (map OctomindTestReport.id reports)
  | _ => None
  end.

Definition twenty (prefix : string) : list string :=
  map (fun n => prefix +:+ String (ascii_of_nat (97 + n)) EmptyString) (seq 0 20).

(** The engine's date parser on the strings used below. *)
Definition getTime (s : string) : Js.number :=
  if String.eqb s "2024-01-01T00:00:00Z" then Js.Num 1704067200000
  else if String.eqb s "2024-01-01T00:00:05Z" then Js.Num 1704067205000
  else Js.NaN.

Definition env : Env :=
  {| randomUUID := "0b0f9f0c-2f0e-4a53-9d56-0d2f1c6a7e11";
     Date_now := 1700000000000;
     Date_getTime := getTime |}.

Definition step (d : option Double.t) : OctomindTestStep.t :=
  {| OctomindTestStep.name := "click";
     OctomindTestStep.status := "PASSED";
     OctomindTestStep.duration := d;
     OctomindTestStep.error := None |}.

Definition test_result (created updated : option string)
    (steps : option (list OctomindTestStep.t)) : OctomindTestResult.t :=
  {| OctomindTestResult.id := "result-1";
     OctomindTestResult.testTargetId := "target-1";
     OctomindTestResult.testCaseId := "case-1";
     OctomindTestResult.status := "PASSED";
     OctomindTestResult.traceUrl := None;
     OctomindTestResult.error := None;
     OctomindTestResult.stackTrace := None;
     OctomindTestResult.duration := None;
     OctomindTestResult.createdAt := created;
     OctomindTestResult.updatedAt := updated;
     OctomindTestResult.steps := steps |}.

Definition test_case : OctomindTestCase.t :=
  {| OctomindTestCase.id := "case-1";
     OctomindTestCase.name := "login";
     OctomindTestCase.description := Some "Login flow";
     OctomindTestCase.tags := None;
     OctomindTestCase.externalId := None |}.

Definition test_target : OctomindTestTarget.t :=
  {| OctomindTestTarget.id := "target-1";
     OctomindTestTarget.app := "MyApp";
     OctomindTestTarget.tags := None;
     OctomindTestTarget.environments := None |}.

End Sample.

(** ** Further notions for the properties of the translation, the cache
    and the engine *)

(** The time reached once the steps of [l] have run from [t]: the
    durations added to [t] one after the other, in the order of the
    steps, each sum rounded as [+] rounds it. *)
Definition elapsed (l : list OctomindTestStep.t) (t : Double.t) : Double.t :=
  fold_left Double.add (durations l) t.

(** No [:] occurs in [s]. *)
Fixpoint colon_free (s : string) : bool :=
  match s with
  | EmptyString => true
  | String a rest => negb (Ascii.eqb a ":") && colon_free rest
  end.

(** Every report the service ever serves satisfies [P]. *)
Definition serves_where {W : Type} (remote : Remote W)
    (P : OctomindTestReport.t -> Prop) : Prop :=
  forall w req w' page,
    getTestReports remote w req = (w', Json page) ->
    forall r, r ∈ OctomindTestReportsPage.data page -> P r.

(** The seven labels every output result starts with. *)
Definition fixed_labels (testResult : OctomindTestResult.t)
    (testTarget : OctomindTestTarget.t) (testName : string)
  : list AllureLabel.t :=
  [ label "host" "octomind";
    label "language" "typescript";
    label "framework" "playwright";
    label "testClass" (OctomindTestTarget.app testTarget);
    label "testMethod" (OctomindTestResult.testCaseId testResult);
    label "suite" testName;
    label "package" (OctomindTestTarget.app testTarget) ].

(** The navigation link every output result starts with. *)
Definition navigation_link (testResult : OctomindTestResult.t)
    (testReport : OctomindTestReport.t) : AllureLink.t :=
  {| AllureLink.type := "link";
     AllureLink.name := "View in Octomind";
     AllureLink.url :=
       "https://app.octomind.dev/testtargets/"
         +:+ OctomindTestResult.testTargetId testResult
         +:+ "/testreports/" +:+ OctomindTestReport.id testReport |}.

(** The converter after a series of lookups, whatever came of each. *)
Definition after_lookups {W : Type} (remote : Remote W)
    (pairs : list (string * string)) (c : Converter W) : Converter W :=
  fold_left (fun c0 pair => (fetchTestCase remote pair.1 pair.2 c0).1) pairs c.

(** ** Single-report conversion: the remaining requests, the files *)

(** The service with its two remaining endpoints. *)
Record Service (W : Type) : Type := {
  remote_of : Remote W;
  getTestTarget : W -> Request -> W * Response OctomindTestTarget.t;
  getTestReport : W -> Request -> W * Response OctomindTestReport.t
}.
Arguments remote_of {W} _.
Arguments getTestTarget {W} _ _ _.
Arguments getTestReport {W} _ _ _.

Definition fetchTestReport {W : Type} (service : Service W)
    (testTargetId testReportId : string) : M W OctomindTestReport.t :=
  fun c =>
    (let* response :=
       fetch (getTestReport service)
         {| url := apiBaseUrl c +:+ "/apiKey/v2/test-targets/" +:+ testTargetId
                     +:+ "/test-reports/" +:+ testReportId;
            apiKeyHeader := apiKey c; key := None; filters := [] |} in
     match response with
     | Json report => ret report
     | BadJson => throw JsonRejected
     | NotOk status statusText =>
         throw (HttpError "Failed to fetch test report" status statusText)
     | NetworkError => throw FetchRejected
     end) c.

Definition fetchTestTarget {W : Type} (service : Service W)
    (testTargetId : string) : M W OctomindTestTarget.t :=
  fun c =>
    (let* response :=
       fetch (getTestTarget service)
         {| url := apiBaseUrl c +:+ "/apiKey/v2/test-targets/" +:+ testTargetId;
            apiKeyHeader := apiKey c; key := None; filters := [] |} in
     match response with
     | Json target => ret target
     | BadJson => throw JsonRejected
     | NotOk status statusText =>
         throw (HttpError "Failed to fetch test target" status statusText)
     | NetworkError => throw FetchRejected
     end) c.

(** The requests [fetchTestTarget] and [fetchTestReport] send. *)
Definition target_request {W : Type} (c : Converter W)
    (testTargetId : string) : Request :=
  {| url := apiBaseUrl c +:+ "/apiKey/v2/test-targets/" +:+ testTargetId;
     apiKeyHeader := apiKey c; key := None; filters := [] |}.

Definition report_request {W : Type} (c : Converter W)
    (testTargetId testReportId : string) : Request :=
  {| url := apiBaseUrl c +:+ "/apiKey/v2/test-targets/" +:+ testTargetId
              +:+ "/test-reports/" +:+ testReportId;
     apiKeyHeader := apiKey c; key := None; filters := [] |}.

(** What a run reads from the machine it runs on: the [n]-th identifier
    [randomUUID()] hands out, the [n]-th reading of the clock and the
    engine's date parser. *)
Record Host : Type := {
  uuid_at : nat -> string;
  now_at : nat -> Z;
  getTime_of : string -> Js.number
}.

(** A file as written by [JSON.stringify]: the record it holds. *)
Inductive Artifact : Type :=
| ResultFile (r : AllureTestResult.t)
| ContainerFile (k : AllureContainer.t).

(** The converter with the disk and the counters of identifiers drawn
    and clock readings made.  A file is known by its directory and its
    name, the two arguments of [path.join]; a directory is there once
    [mkdirSync] has made it. *)
Record Session (W : Type) : Type := {
  this : Converter W;
  dirs : gset string;
  files : gmap (string * string) Artifact;
  uuids_drawn : nat;
  clock_reads : nat
}.
Arguments this {W} _.
Arguments dirs {W} _.
Arguments files {W} _.
Arguments uuids_drawn {W} _.
Arguments clock_reads {W} _.

Inductive Failure : Type :=
| RemoteFailure (e : Error)
| NoSuchDirectory (dir : string).

Inductive outcome (A : Type) : Type :=
| Failed (f : Failure)
| Done (a : A).
Arguments Failed {A} f.
Arguments Done {A} a.

Definition Run (W A : Type) : Type := Session W -> Session W * outcome A.

Definition done {W A : Type} (a : A) : Run W A := fun s => (s, Done a).

Definition and_then {W A B : Type} (m : Run W A) (k : A -> Run W B) : Run W B :=
  fun s =>
    match m s with
    | (s', Done a) => k a s'
    | (s', Failed f) => (s', Failed f)
    end.

Notation "'run*' x ':=' m 'in' k" := (and_then m (fun x => k))
  (at level 10, x binder, m at level 100, k at level 200).

(** A method of the converter, run within a session. *)
Definition lift {W A : Type} (m : M W A) : Run W A :=
  fun s =>
    let (c', r) := m (this s) in
    let s' := {| this := c'; dirs := dirs s; files := files s;
                 uuids_drawn := uuids_drawn s; clock_reads := clock_reads s |} in
    match r with
    | Returned a => (s', Done a)
    | Threw e => (s', Failed (RemoteFailure e))
    end.

(** [fs.writeFileSync(path.join(dir, name), JSON.stringify(artifact))]:
    it raises when the directory is not there and writes the file, over
    any file of that name, when it is; other failures of the disk are
    left out of the model. *)
Definition writeFile {W : Type} (dir name : string) (artifact : Artifact)
  : Run W unit :=
  fun s =>
    if decide (dir ∈ dirs s)
    then ({| this := this s; dirs := dirs s;
             files := <[(dir, name) := artifact]> (files s);
             uuids_drawn := uuids_drawn s; clock_reads := clock_reads s |},
          Done tt)
    else (s, Failed (NoSuchDirectory dir)).

(** [if (!fs.existsSync(dir)) fs.mkdirSync(dir, { recursive: true })] *)
Definition ensureDir {W : Type} (dir : string) : Run W unit :=
  fun s =>
    ({| this := this s; dirs := {[dir]} ∪ dirs s; files := files s;
        uuids_drawn := uuids_drawn s; clock_reads := clock_reads s |},
     Done tt).

(** [convertTestResult] on the host: one identifier drawn, the clock read
    when the result has no usable [createdAt]. *)
Definition convertTestResult_on {W : Type} (host : Host)
    (testResult : OctomindTestResult.t) (testReport : OctomindTestReport.t)
    (testCase : OctomindTestCase.t) (testTarget : OctomindTestTarget.t)
  : Run W AllureTestResult.t :=
  fun s =>
    let env := {| randomUUID := uuid_at host (uuids_drawn s);
                  Date_now := now_at host (clock_reads s);
                  Date_getTime := getTime_of host |} in
    ({| this := this s; dirs := dirs s; files := files s;
        uuids_drawn := S (uuids_drawn s);
        clock_reads :=
          if Js.truthy_str (OctomindTestResult.createdAt testResult)
          then clock_reads s else S (clock_reads s) |},
     Done (convertTestResult env testResult testReport testCase testTarget)).

(** [convertToContainer] on the host: one identifier, one clock reading. *)
Definition convertToContainer_on {W : Type} (host : Host)
    (testReport : OctomindTestReport.t) (testResultUuids : list string)
  : Run W AllureContainer.t :=
  fun s =>
    let env := {| randomUUID := uuid_at host (uuids_drawn s);
                  Date_now := now_at host (clock_reads s);
                  Date_getTime := getTime_of host |} in
    ({| this := this s; dirs := dirs s; files := files s;
        uuids_drawn := S (uuids_drawn s);
        clock_reads := S (clock_reads s) |},
     Done (convertToContainer env testReport testResultUuids)).

(** The loop of [convertTestReportToAllure] over the results still to
    convert, [testResultUuids] holding the identifiers pushed so far. *)
Fixpoint convert_results {W : Type} (host : Host) (remote : Remote W)
    (testReport : OctomindTestReport.t) (testTarget : OctomindTestTarget.t)
    (outputDir : string) (results : list OctomindTestResult.t)
    (testResultUuids : list string) : Run W (list string) :=
  match results with
  | [] => done testResultUuids
  | testResult :: rest =>
      run* testCase :=
        lift (fetchTestCase remote
                (OctomindTestReport.testTargetId testReport)
                (OctomindTestResult.testCaseId testResult)) in
      run* allureResult :=
        convertTestResult_on host testResult testReport testCase testTarget in
      run* _ :=
        writeFile outputDir
          (AllureTestResult.uuid allureResult +:+ "-result.json")
          (ResultFile allureResult) in
      convert_results host remote testReport testTarget outputDir rest
        (testResultUuids ++ [AllureTestResult.uuid allureResult])
  end.

Definition convertTestReportToAllure {W : Type} (host : Host)
    (remote : Remote W) (testReport : OctomindTestReport.t)
    (testTarget : OctomindTestTarget.t) (outputDir : string)
  : Run W (list string) :=
  convert_results host remote testReport testTarget outputDir
    (OctomindTestReport.testResults testReport) [].

Definition convertAndWrite {W : Type} (host : Host) (service : Service W)
    (testTargetId testReportId outputDir : string) : Run W unit :=
  run* testTarget := lift (fetchTestTarget service testTargetId) in
  run* testReport := lift (fetchTestReport service testTargetId testReportId) in
  run* _ := ensureDir outputDir in
  run* testResultUuids :=
    convertTestReportToAllure host (remote_of service) testReport testTarget
      outputDir in
  run* container := convertToContainer_on host testReport testResultUuids in
  writeFile outputDir (AllureContainer.uuid container +:+ "-container.json")
    (ContainerFile container).

(** The identifiers drawn for [n] results from the [k]-th draw on. *)
Definition draws (host : Host) (k n : nat) : list string :=
  map (uuid_at host) (seq k n).

(** A file of the output directory that holds a result is named after
    the identifier of that result. *)
Definition named_after_uuid (outputDir name : string)
    (disk : gmap (string * string) Artifact) : Prop :=
  exists r, disk !! (outputDir, name) = Some (ResultFile r)
            /\ name = AllureTestResult.uuid r +:+ "-result.json".

(** ** A sample machine and service for single-report runs *)

Module Desk.

Definition host : Host :=
  {| uuid_at := fun n => "uuid-" +:+ String (ascii_of_nat (97 + n)) EmptyString;
     now_at := fun n => (1700000000000 + Z.of_nat n)%Z;
     getTime_of := Sample.getTime |}.

Definition report_with (results : list OctomindTestResult.t)
  : OctomindTestReport.t :=
  {| OctomindTestReport.id := "report-1";
     OctomindTestReport.testTargetId := "target-1";
     OctomindTestReport.status := "PASSED";
     OctomindTestReport.executionUrl := "https://example.test/run";
     OctomindTestReport.createdAt := None;
     OctomindTestReport.startedAt := Some "2024-01-01T00:00:00Z";
     OctomindTestReport.finishedAt := Some "2024-01-01T00:00:05Z";
     OctomindTestReport.breakpoint := None;
     OctomindTestReport.browserType := None;
     OctomindTestReport.testResults := results |}.

Definition two_results : OctomindTestReport.t :=
  report_with [Sample.test_result None None None;
               Sample.test_result (Some "2024-01-01T00:00:00Z") None None].

(** A service that answers every request of a kind alike. *)
Definition service (target : Response OctomindTestTarget.t)
    (report : Response OctomindTestReport.t)
    (case : Response OctomindTestCase.t) : Service unit :=
  {| remote_of := Sample.stubborn [] case;
     getTestTarget := fun w _ => (w, target);
     getTestReport := fun w _ => (w, report) |}.

Definition session : Session unit :=
  {| this := Sample.converter tt; dirs := ∅; files := ∅;
     uuids_drawn := 0; clock_reads := 0 |}.

Definition session_with_dir (dir : string) : Session unit :=
  {| this := Sample.converter tt; dirs := {[dir]}; files := ∅;
     uuids_drawn := 0; clock_reads := 0 |}.

End Desk.

(** ** Command line: the part of [main] before the conversion starts *)

Module Cli.

(** The variables the argument loop assigns.  A string variable is
    [None] once it was assigned [args[++i]] past the end of the
    arguments ([undefined]). *)
Record t : Type := mk {
  apiKey : option string;
  testTargetId : option string;
  testReportId : option string;
  outputDir : option string;
  batchMode : bool;
  maxReports : option Js.number;
  environmentId : option string;
  debug : bool
}.

Definition start : t :=
  {| apiKey := Some EmptyString;
     testTargetId := Some EmptyString;
     testReportId := Some EmptyString;
     outputDir := Some "./allure-results";
     batchMode := false;
     maxReports := None;
     environmentId := None;
     debug := false |}.

(** The cases of the [switch]. *)
Inductive flag : Type :=
| ApiKey | TestTargetId | TestReportId | OutputDir
| Batch | MaxReports | EnvironmentId | Debug | Help.

Definition flag_of (arg : string) : option flag :=
  if String.eqb arg "--api-key" || String.eqb arg "-k" then Some ApiKey
  else if String.eqb arg "--test-target-id" || String.eqb arg "-t" then Some TestTargetId
  else if String.eqb arg "--test-report-id" || String.eqb arg "-r" then Some TestReportId
  else if String.eqb arg "--output-dir" || String.eqb arg "-o" then Some OutputDir
  else if String.eqb arg "--batch" || String.eqb arg "-b" then Some Batch
  else if String.eqb arg "--max-reports" || String.eqb arg "-m" then Some MaxReports
  else if String.eqb arg "--environment-id" || String.eqb arg "-e" then Some EnvironmentId
  else if String.eqb arg "--debug" || String.eqb arg "-d" then Some Debug
  else if String.eqb arg "--help" || String.eqb arg "-h" then Some Help
  else None.

(** The assignment of a case that reads [args[++i]]; [parseInt] stands
    for [parseInt(_, 10)] of the engine. *)
Definition assign (parseInt : option string -> Js.number) (f : flag)
    (value : option string) (o : t) : t :=
  match f with
  | ApiKey =>
      {| apiKey := value; testTargetId := testTargetId o;
         testReportId := testReportId o; outputDir := outputDir o;
         batchMode := batchMode o; maxReports := maxReports o;
         environmentId := environmentId o; debug := debug o |}
  | TestTargetId =>
      {| apiKey := apiKey o; testTargetId := value;
         testReportId := testReportId o; outputDir := outputDir o;
         batchMode := batchMode o; maxReports := maxReports o;
         environmentId := environmentId o; debug := debug o |}
  | TestReportId =>
      {| apiKey := apiKey o; testTargetId := testTargetId o;
         testReportId := value; outputDir := outputDir o;
         batchMode := batchMode o; maxReports := maxReports o;
         environmentId := environmentId o; debug := debug o |}
  | OutputDir =>
      {| apiKey := apiKey o; testTargetId := testTargetId o;
         testReportId := testReportId o; outputDir := value;
         batchMode := batchMode o; maxReports := maxReports o;
         environmentId := environmentId o; debug := debug o |}
  | MaxReports =>
      {| apiKey := apiKey o; testTargetId := testTargetId o;
         testReportId := testReportId o; outputDir := outputDir o;
         batchMode := batchMode o; maxReports := Some (parseInt value);
         environmentId := environmentId o; debug := debug o |}
  | EnvironmentId =>
      {| apiKey := apiKey o; testTargetId := testTargetId o;
         testReportId := testReportId o; outputDir := outputDir o;
         batchMode := batchMode o; maxReports := maxReports o;
         environmentId := value; debug := debug o |}
  | Batch =>
      {| apiKey := apiKey o; testTargetId := testTargetId o;
         testReportId := testReportId o; outputDir := outputDir o;
         batchMode := true; maxReports := maxReports o;
         environmentId := environmentId o; debug := debug o |}
  | Debug =>
      {| apiKey := apiKey o; testTargetId := testTargetId o;
         testReportId := testReportId o; outputDir := outputDir o;
         batchMode := batchMode o; maxReports := maxReports o;
         environmentId := environmentId o; debug := true |}
  | Help => o
  end.

Inductive parsed : Type :=
| HelpShown
| Parsed (o : t).

(** The [for] loop over the arguments: a case that reads a value also
    skips it; [--help] prints the help and leaves at once. *)
Fixpoint parse (parseInt : option string -> Js.number) (args : list string)
    (o : t) : parsed :=
  match args with
  | [] => Parsed o
  | arg :: rest =>
      match flag_of arg with
      | None => parse parseInt rest o
      | Some Help => HelpShown
      | Some Batch => parse parseInt rest (assign parseInt Batch None o)
      | Some Debug => parse parseInt rest (assign parseInt Debug None o)
      | Some f =>
          match rest with
          | [] => Parsed (assign parseInt f None o)
          | value :: rest' =>
              parse parseInt rest' (assign parseInt f (Some value) o)
          end
      end
  end.

Definition nl : string := String (ascii_of_nat 10) EmptyString.

(** How the part of [main] before the conversion ends: it leaves with
    status 0 after the help, leaves with status 1 after the lines given
    to [console.error], or starts one of the two conversions. *)
Inductive launch : Type :=
| ExitHelp
| ExitUsage (errors : list string)
| LaunchBatch (key base target : string) (dir : option string)
    (max : option Js.number) (environment : option string) (verbose : bool)
| LaunchSingle (key base target report : string) (dir : option string).

Definition main_arguments (parseInt : option string -> Js.number)
    (OCTOMIND_API_URL : option string) (args : list string) : launch :=
  match parse parseInt args start with
  | HelpShown => ExitHelp
  | Parsed o =>
      if negb (Js.truthy_str (apiKey o)) || negb (Js.truthy_str (testTargetId o))
      then ExitUsage
             ([ "Error: Missing required arguments" +:+ nl;
                "Required:";
                "  --api-key <key>";
                "  --test-target-id <id>" ]
              ++ (if batchMode o then []
                  else ["  --test-report-id <id> (for single report mode)"])
              ++ [ nl +:+ "Run with --help for more information" ])
      else if batchMode o && Js.truthy_str (testReportId o)
      then ExitUsage
             [ "Error: Cannot specify both --batch and --test-report-id";
               "Use --batch for multiple reports OR --test-report-id for a single report" ]
      else if negb (batchMode o) && negb (Js.truthy_str (testReportId o))
      then ExitUsage
             [ "Error: --test-report-id is required in single report mode";
               "Use --batch flag to convert multiple reports" ]
      else
        let key := default EmptyString (apiKey o) in
        let base := default "https://app.octomind.dev/api" OCTOMIND_API_URL in
        let target := default EmptyString (testTargetId o) in
        if batchMode o
        then LaunchBatch key base target (outputDir o) (maxReports o)
               (environmentId o) (debug o)
        else LaunchSingle key base target
               (default EmptyString (testReportId o)) (outputDir o)
  end.

(** Some argument is read as the flag [f]. *)
Definition given (f : flag) (args : list string) : Prop :=
  exists arg, arg ∈ args /\ flag_of arg = Some f.

(** Between [o] and [o'] a variable has changed only if its flag is
    among [args]. *)
Definition kept (args : list string) (o o' : t) : Prop :=
  (apiKey o' = apiKey o \/ given ApiKey args)
  /\ (testTargetId o' = testTargetId o \/ given TestTargetId args)
  /\ (testReportId o' = testReportId o \/ given TestReportId args)
  /\ (outputDir o' = outputDir o \/ given OutputDir args)
  /\ (batchMode o' = batchMode o \/ given Batch args)
  /\ (maxReports o' = maxReports o \/ given MaxReports args)
  /\ (environmentId o' = environmentId o \/ given EnvironmentId args)
  /\ (debug o' = debug o \/ given Debug args).

End Cli.

(** * Properties *)

(** ** Status mapper *)

(** C7: the status mapper is total: [PASSED], [FAILED], [BROKEN] and
    [SKIPPED] map to their lower-case counterparts and every other token,
    the report-only [RUNNING] among them, maps to [unknown]. *)
Theorem convertStatus_total :
  convertStatus "PASSED" = passed
  /\ convertStatus "FAILED" = failed
  /\ convertStatus "BROKEN" = broken
  /\ convertStatus "SKIPPED" = skipped
  /\ convertStatus "RUNNING" = unknown
  /\ (forall token : string,
        token <> "PASSED" -> token <> "FAILED" ->
        token <> "BROKEN" -> token <> "SKIPPED" ->
        convertStatus token = unknown)
  /\ (forall token : string,
        exists out, convertStatus token = out
          /\ (out = unknown <->
               token <> "PASSED" /\ token <> "FAILED"
               /\ token <> "BROKEN" /\ token <> "SKIPPED")).
Proof.
  assert (Hother : forall token : string,
            token <> "PASSED" -> token <> "FAILED" ->
            token <> "BROKEN" -> token <> "SKIPPED" ->
            convertStatus token = unknown).
  { intros token H1 H2 H3 H4. unfold convertStatus.
    apply String.eqb_neq in H1, H2, H3, H4.
    rewrite H1, H2, H3, H4. reflexivity. }
  repeat split; try reflexivity; try exact Hother.
  intros token. exists (convertStatus token). split; [reflexivity|].
  split.
  - unfold convertStatus.
    destruct (String.eqb_spec token "PASSED"); [discriminate|].
    destruct (String.eqb_spec token "FAILED"); [discriminate|].
    destruct (String.eqb_spec token "BROKEN"); [discriminate|].
    destruct (String.eqb_spec token "SKIPPED"); [discriminate|].
    intros _. repeat split; assumption.
  - intros (H1 & H2 & H3 & H4). apply Hother; assumption.
Qed.

(** ** Identity deriver *)

Module MD5_facts.
Import MD5.

Lemma le_bytes_length (n : nat) (x : Z) : length (le_bytes n x) = n.
Proof.
  revert x. induction n as [|n IH]; intros x; simpl; [reflexivity|].
  now rewrite IH.
Qed.

Lemma state_bytes_length (st : state) : length (state_bytes st) = 16%nat.
Proof.
  unfold state_bytes. rewrite !length_app, !le_bytes_length. reflexivity.
Qed.

Lemma string_of_list_ascii_length (l : list ascii) :
  String.length (string_of_list_ascii l) = length l.
Proof. induction l as [|a l IH]; simpl; congruence. Qed.

Lemma hex_body_length (bytes : list Z) :
  length (flat_map hex_byte bytes) = (2 * length bytes)%nat.
Proof. induction bytes as [|b l IH]; simpl; [reflexivity|]. rewrite IH. lia. Qed.

Lemma hex_length (bytes : list Z) :
  String.length (hex bytes) = (2 * length bytes)%nat.
Proof. unfold hex. now rewrite string_of_list_ascii_length, hex_body_length. Qed.

Lemma hex_digit_is_hex (n : Z) : is_hex_digit (hex_digit n) = true.
Proof.
  unfold hex_digit.
  assert (Hlt : (Z.to_nat (n mod 16) < 16)%nat).
  { pose proof (Z.mod_pos_bound n 16 ltac:(lia)). lia. }
  revert Hlt. generalize (Z.to_nat (n mod 16)). intros k Hk.
  do 16 (destruct k as [|k]; [reflexivity|]). lia.
Qed.

Lemma hex_chars (bytes : list Z) :
  Forall (fun c => is_hex_digit c = true) (list_ascii_of_string (hex bytes)).
Proof.
  unfold hex. rewrite list_ascii_of_string_of_list_ascii.
  induction bytes as [|b l IH]; simpl; [constructor|].
  repeat constructor; auto using hex_digit_is_hex.
Qed.

Lemma hexdigest_length (s : string) : String.length (hexdigest s) = 32%nat.
Proof. unfold hexdigest. now rewrite hex_length, state_bytes_length. Qed.

End MD5_facts.

Example md5_empty :
  MD5.hexdigest EmptyString = "d41d8cd98f00b204e9800998ecf8427e".
Proof. vm_compute. reflexivity. Qed.

Example md5_abc : MD5.hexdigest "abc" = "900150983cd24fb0d6963f7d28e17f72".
Proof. vm_compute. reflexivity. Qed.

Example md5_message_digest :
  MD5.hexdigest "message digest" = "f96b697d7cb7938d525a2f31aaf161d0".
Proof. vm_compute. reflexivity. Qed.

(** 56 bytes: the padding spills into a second block. *)
Example md5_two_blocks :
  MD5.hexdigest "aaaaaaaaaaaaaaaaaaaaaaaaaaaaaaaaaaaaaaaaaaaaaaaaaaaaaaaa"
  = "3b0c8ac703f828b04c6c197006d17218".
Proof. vm_compute. reflexivity. Qed.

(** 64 bytes: a whole block, then a block of padding only. *)
Example md5_block_and_padding :
  MD5.hexdigest
    "aaaaaaaaaaaaaaaaaaaaaaaaaaaaaaaaaaaaaaaaaaaaaaaaaaaaaaaaaaaaaaaa"
  = "014842d480b571495a4a0363793f7367".
Proof. vm_compute. reflexivity. Qed.

Example generateHistoryId_uuids :
  generateHistoryId "e6bfc622-acb2-4305-8b4a-c6a079b292d6"
                    "9ae238fd-b4d3-4a8d-920e-93b0d26fc7cb"
  = "40c6405015b60629c30c94cefb947635".
Proof. vm_compute. reflexivity. Qed.

(** C6: the history identifier of an output result is the hex-encoded MD5
    digest of [target:case] built from the result's own [testTargetId] and
    [testCaseId]: 32 hexadecimal characters, the same for any two
    translations whose results agree on that pair, whatever the report,
    the case, the target, the clock and the generated identifier are. *)
Theorem historyId_pure (env : Env) (testResult : OctomindTestResult.t)
    (testReport : OctomindTestReport.t) (testCase : OctomindTestCase.t)
    (testTarget : OctomindTestTarget.t) :
  let out := convertTestResult env testResult testReport testCase testTarget in
  AllureTestResult.historyId out
    = MD5.hexdigest (OctomindTestResult.testTargetId testResult +:+ ":"
                       +:+ OctomindTestResult.testCaseId testResult)
  /\ AllureTestResult.historyId out
     = generateHistoryId (OctomindTestResult.testTargetId testResult)
                         (OctomindTestResult.testCaseId testResult)
  /\ String.length (AllureTestResult.historyId out) = 32%nat
  /\ Forall (fun c => MD5.is_hex_digit c = true)
       (list_ascii_of_string (AllureTestResult.historyId out))
  /\ (forall env' testResult' testReport' testCase' testTarget',
        OctomindTestResult.testTargetId testResult'
          = OctomindTestResult.testTargetId testResult ->
        OctomindTestResult.testCaseId testResult'
          = OctomindTestResult.testCaseId testResult ->
        AllureTestResult.historyId
          (convertTestResult env' testResult' testReport' testCase' testTarget')
        = AllureTestResult.historyId out).
Proof.
  cbv zeta. cbn [convertTestResult AllureTestResult.historyId].
  unfold generateHistoryId.
  split; [reflexivity|]. split; [reflexivity|].
  split; [apply MD5_facts.hexdigest_length|].
  split; [apply MD5_facts.hex_chars|].
  intros env' r' rep' c' t' Ht Hc. now rewrite Ht, Hc.
Qed.

(** ** Double-precision addition

    [Double.round] gives a double and no double is nearer
    ([round_nearest]); a double that is at most a sum is at most the
    rounded sum ([round_ge]), which is what keeps step times in order;
    and [Double.add] agrees with the standard library's specification of
    IEEE-754 addition on the sums worked out at the end. *)

Module Double_facts.
Import Double.
Local Open Scope Z_scope.

Lemma shift_of_nonneg (k : Z) : 0 <= shift_of k.
Proof. unfold shift_of. lia. Qed.

Lemma shift_of_abs (k : Z) : shift_of (Z.abs k) = shift_of k.
Proof. unfold shift_of. now rewrite Z.abs_idemp. Qed.

Lemma unit_pos (k : Z) : 0 < 2 ^ shift_of k.
Proof. apply Z.pow_pos_nonneg; [lia | apply shift_of_nonneg]. Qed.

Lemma nearest_bounds (q r u : Z) :
  q <= nearest q r u <= q + 1 /\ (0 < u -> r = 0 -> nearest q r u = q).
Proof.
  unfold nearest. split.
  - destruct (2 * r <? u); [lia|]. destruct (u <? 2 * r); [lia|].
    destruct (Z.even q); lia.
  - intros Hu ->. destruct (2 * 0 <? u) eqn:E; [reflexivity|].
    apply Z.ltb_ge in E. lia.
Qed.

Lemma nearest_cases (q r u : Z) :
  (nearest q r u = q /\ 2 * r <= u) \/ (nearest q r u = q + 1 /\ u <= 2 * r).
Proof.
  unfold nearest.
  destruct (Z.ltb_spec (2 * r) u); [left; lia|].
  destruct (Z.ltb_spec u (2 * r)); [right; lia|].
  destruct (Z.even q); [left | right]; lia.
Qed.

(** At most 53 bits are left above the ones [shift_of] cuts off. *)
Lemma below_unit (a : Z) : 0 <= a -> a < 2 ^ 53 * 2 ^ shift_of a.
Proof.
  intros Ha. rewrite <- Z.pow_add_r by (pose proof (shift_of_nonneg a); lia).
  destruct (Z.eq_dec a 0) as [->|Hne].
  - apply Z.pow_pos_nonneg; [lia|]. pose proof (shift_of_nonneg 0). lia.
  - assert (Hpos : 0 < a) by lia.
    destruct (Z.log2_spec a Hpos) as [_ Hlt].
    eapply Z.lt_le_trans; [exact Hlt|].
    apply Z.pow_le_mono_r; [lia|].
    unfold shift_of. rewrite (Z.abs_eq a) by lia. lia.
Qed.

Lemma pow2_multiple (c s t : Z) : 0 <= t <= s -> (c * 2 ^ s) mod 2 ^ t = 0.
Proof.
  intros H. replace s with ((s - t) + t) by lia.
  rewrite Z.pow_add_r by lia. rewrite Z.mul_assoc.
  apply Z_mod_mult.
Qed.

(** A significand of at most 53 bits (or 2^53 itself) times a power of
    two is a double, unless out of range. *)
Lemma multiple_representable (n sh : Z) :
  0 <= n <= 2 ^ 53 -> 0 <= sh -> n * 2 ^ sh < top ->
  representable (n * 2 ^ sh) = true.
Proof.
  intros Hn Hsh Htop.
  assert (Hu : 0 < 2 ^ sh) by (apply Z.pow_pos_nonneg; lia).
  assert (Hm : 0 <= n * 2 ^ sh) by nia.
  unfold representable. rewrite (Z.abs_eq _ Hm).
  apply andb_true_intro. split; [|now apply Z.ltb_lt].
  apply Z.eqb_eq.
  destruct (Z.eq_dec n 0) as [->|Hn0].
  - rewrite Z.mul_0_l. apply Z.mod_0_l.
    pose proof (unit_pos 0). lia.
  - assert (Hpos : 0 < n) by lia.
    assert (Hlog : Z.log2 (n * 2 ^ sh) = sh + Z.log2 n)
      by (apply Z.log2_mul_pow2; lia).
    unfold shift_of. rewrite (Z.abs_eq _ Hm), Hlog.
    destruct (Z.eq_dec n (2 ^ 53)) as [->|Hne].
    + rewrite <- Z.pow_add_r by lia.
      rewrite Z.log2_pow2 by lia.
      replace (2 ^ (53 + sh)) with (1 * 2 ^ (53 + sh)) by lia.
      apply pow2_multiple. lia.
    + assert (Z.log2 n < 53) by (apply Z.log2_lt_pow2; lia).
      apply pow2_multiple. lia.
Qed.

Lemma representable_opp (k : Z) : representable (- k) = representable k.
Proof. unfold representable, shift_of. now rewrite Z.abs_opp. Qed.

Lemma round_cases (s : Z) :
  let u := 2 ^ shift_of s in
  let n := nearest (Z.abs s / u) (Z.abs s mod u) u in
  (round s = Inf (s <? 0) /\ top <= n * u)
  \/ (round s = Fin (Z.sgn s * (n * u)) /\ n * u < top).
Proof.
  intros u n. unfold round. fold u. fold n.
  destruct (top <=? n * u) eqn:E; [left | right]; split; try reflexivity.
  - now apply Z.leb_le.
  - now apply Z.leb_gt.
Qed.

Lemma round_representable (s k : Z) : round s = Fin k -> representable k = true.
Proof.
  intros H.
  pose proof (unit_pos s) as Hu.
  pose proof (Z.abs_nonneg s) as Habs.
  pose proof (below_unit (Z.abs s) Habs) as Hbelow.
  rewrite shift_of_abs in Hbelow.
  pose proof (nearest_bounds (Z.abs s / 2 ^ shift_of s)
                (Z.abs s mod 2 ^ shift_of s) (2 ^ shift_of s)) as [Hn _].
  assert (Hq : 0 <= Z.abs s / 2 ^ shift_of s < 2 ^ 53).
  { split; [apply Z.div_pos; lia|].
    apply Z.div_lt_upper_bound; lia. }
  destruct (round_cases s) as [[E _]|[E Hlt]]; rewrite E in H; [discriminate|].
  injection H as <-.
  set (n := nearest _ _ _) in *.
  assert (Hrep : representable (n * 2 ^ shift_of s) = true)
    by (apply multiple_representable; [lia | apply shift_of_nonneg | exact Hlt]).
  destruct (Z.sgn_spec s) as [[_ ->]|[[Hs ->]|[_ ->]]].
  - now rewrite Z.mul_1_l.
  - subst s. rewrite Z.mul_0_l. reflexivity.
  - replace (-1 * (n * 2 ^ shift_of s)) with (- (n * 2 ^ shift_of s)) by lia.
    now rewrite representable_opp.
Qed.

Lemma representable_multiple (a : Z) :
  representable a = true -> Z.abs a mod 2 ^ shift_of a = 0 /\ Z.abs a < top.
Proof.
  unfold representable. intros H. apply andb_prop in H as [H1 H2].
  split; [now apply Z.eqb_eq | now apply Z.ltb_lt].
Qed.

Lemma shift_of_eq (a s : Z) :
  0 < a -> 0 < s -> Z.log2 a = Z.log2 s -> shift_of a = shift_of s.
Proof.
  intros Ha Hs H. unfold shift_of. rewrite !Z.abs_eq by lia. now rewrite H.
Qed.

(** Cutting the low bits of [s] off does not go below a double that is
    at most [s]. *)
Lemma floor_ge (a s : Z) :
  0 <= a -> representable a = true -> a <= s ->
  a <= s / 2 ^ shift_of s * 2 ^ shift_of s.
Proof.
  intros Ha Hrep Hle.
  pose proof (unit_pos s) as Hu.
  destruct (Z.eq_dec a 0) as [->|Hne].
  { assert (0 <= s / 2 ^ shift_of s) by (apply Z.div_pos; lia). nia. }
  assert (Hapos : 0 < a) by lia. assert (Hspos : 0 < s) by lia.
  pose proof (Z.log2_le_mono a s Hle) as Hlog.
  destruct (Z.log2_spec a Hapos) as [_ Hahi].
  destruct (Z.log2_spec s Hspos) as [Hslo _].
  destruct (Z.eq_dec (Z.log2 a) (Z.log2 s)) as [Heq|Hneq].
  - apply representable_multiple in Hrep as [Hmod _].
    rewrite (Z.abs_eq a) in Hmod by lia.
    rewrite (shift_of_eq a s Hapos Hspos Heq) in Hmod.
    apply Z.mod_divide in Hmod; [|lia]. destruct Hmod as [c ->].
    apply Z.mul_le_mono_nonneg_r; [lia|].
    apply Z.div_le_lower_bound; lia.
  - assert (Hlt : a < 2 ^ Z.log2 s).
    { eapply Z.lt_le_trans; [exact Hahi|]. apply Z.pow_le_mono_r; lia. }
    assert (Hsh : 0 <= shift_of s <= Z.log2 s).
    { unfold shift_of. rewrite Z.abs_eq by lia.
      pose proof (Z.log2_nonneg s). lia. }
    assert (Hsplit : 2 ^ Z.log2 s = 2 ^ (Z.log2 s - shift_of s) * 2 ^ shift_of s).
    { rewrite <- Z.pow_add_r by lia. f_equal. lia. }
    assert (Hq : 2 ^ (Z.log2 s - shift_of s) <= s / 2 ^ shift_of s).
    { apply Z.div_le_lower_bound; lia. }
    nia.
Qed.

(** The next multiple of the unit above [s] does not go above a double
    that is at least [s]. *)
Lemma ceil_step (a s : Z) :
  0 <= s <= a -> representable a = true -> s mod 2 ^ shift_of s <> 0 ->
  (s / 2 ^ shift_of s + 1) * 2 ^ shift_of s <= a.
Proof.
  intros [Hs Hle] Hrep Hrne.
  pose proof (unit_pos s) as Hu.
  set (u := 2 ^ shift_of s) in *.
  pose proof (Z.div_mod s u ltac:(lia)) as Hdm.
  pose proof (Z.mod_pos_bound s u Hu) as Hr.
  assert (Hspos : 0 < s).
  { destruct (Z.eq_dec s 0) as [->|]; [|lia]. rewrite Z.mod_0_l in Hrne; lia. }
  assert (Hapos : 0 < a) by lia.
  pose proof (Z.log2_le_mono s a Hle) as Hlog.
  destruct (Z.log2_spec a Hapos) as [Halo _].
  destruct (Z.eq_dec (Z.log2 s) (Z.log2 a)) as [Heq|Hneq].
  - apply representable_multiple in Hrep as [Hmod _].
    rewrite (Z.abs_eq a) in Hmod by lia.
    rewrite <- (shift_of_eq s a Hspos Hapos Heq) in Hmod. fold u in Hmod.
    apply Z.mod_divide in Hmod; [|lia]. destruct Hmod as [c ->].
    apply Z.mul_le_mono_nonneg_r; [lia|].
    assert (s / u < c); [|lia].
    apply Z.div_lt_upper_bound; [lia|].
    destruct (Z.eq_dec s (c * u)) as [Hs'|]; [|lia].
    exfalso. apply Hrne. rewrite Hs'. apply Z_mod_mult.
  - pose proof (below_unit s Hs) as Hbelow. fold u in Hbelow.
    assert (Hq : s / u < 2 ^ 53) by (apply Z.div_lt_upper_bound; lia).
    assert (Hsh : 53 + shift_of s <= Z.log2 a).
    { unfold shift_of. rewrite Z.abs_eq by lia.
      assert (Hs52 : 52 <= Z.log2 s).
      { destruct (Z_lt_le_dec (Z.log2 s) 52) as [Hsmall|]; [|lia].
        exfalso. apply Hrne. unfold u, shift_of.
        rewrite Z.abs_eq by lia.
        replace (Z.max 0 (Z.log2 s - 52)) with 0 by lia.
        apply Z.mod_1_r. }
      lia. }
    assert (Hpow : 2 ^ 53 * u <= 2 ^ Z.log2 a).
    { unfold u. rewrite <- Z.pow_add_r by (pose proof (shift_of_nonneg s); lia).
      apply Z.pow_le_mono_r; lia. }
    nia.
Qed.

Lemma ceil_le (a s : Z) :
  0 <= s <= a -> representable a = true ->
  nearest (s / 2 ^ shift_of s) (s mod 2 ^ shift_of s) (2 ^ shift_of s)
    * 2 ^ shift_of s <= a.
Proof.
  intros Hs Hrep.
  pose proof (unit_pos s) as Hu.
  pose proof (nearest_bounds (s / 2 ^ shift_of s) (s mod 2 ^ shift_of s)
                (2 ^ shift_of s)) as [Hn Hexact].
  pose proof (Z.div_mod s (2 ^ shift_of s) ltac:(lia)) as Hdm.
  destruct (Z.eq_dec (s mod 2 ^ shift_of s) 0) as [Hr0|Hrne].
  - rewrite (Hexact Hu Hr0). rewrite Hr0 in Hdm. lia.
  - pose proof (ceil_step a s Hs Hrep Hrne). nia.
Qed.

(** Rounding is monotone against doubles: from [a <= s] with [a] a
    double, [a <= round s]. *)
Lemma round_ge (a s : Z) :
  representable a = true -> a <= s -> le (Fin a) (round s).
Proof.
  intros Hrep Hle.
  pose proof (unit_pos s) as Hu.
  pose proof (Z.abs_nonneg s) as Habs.
  pose proof (nearest_bounds (Z.abs s / 2 ^ shift_of s)
                (Z.abs s mod 2 ^ shift_of s) (2 ^ shift_of s)) as [Hn _].
  assert (Hq : 0 <= Z.abs s / 2 ^ shift_of s) by (apply Z.div_pos; lia).
  destruct (Z_lt_le_dec s 0) as [Hneg|Hpos].
  - assert (Hrep' : representable (Z.abs a) = true).
    { unfold representable in *. now rewrite shift_of_abs, Z.abs_idemp. }
    pose proof (ceil_le (Z.abs a) (Z.abs s) ltac:(lia) Hrep') as Hceil.
    rewrite shift_of_abs in Hceil.
    apply representable_multiple in Hrep as [_ Htop].
    destruct (round_cases s) as [[E Hover]|[E _]]; rewrite E; [lia|].
    simpl. rewrite Z.sgn_neg by lia. lia.
  - destruct (round_cases s) as [[E _]|[E _]]; rewrite E.
    + replace (s <? 0) with false by (symmetry; apply Z.ltb_ge; lia).
      exact I.
    + simpl. destruct (Z_le_gt_dec a 0) as [Ha|Ha].
      * assert (0 <= Z.sgn s) by (apply Z.sgn_nonneg; lia). nia.
      * rewrite Z.sgn_pos by lia.
        pose proof (floor_ge a s ltac:(lia) Hrep Hle) as Hfloor.
        rewrite (Z.abs_eq s) in * by lia. nia.
Qed.

(** Adding a duration that is not negative to a time never gives an
    earlier time, whatever the rounding. *)
Lemma add_advancing (x d : t) :
  advancing x -> le (Fin 0) d -> advancing (add x d) /\ le x (add x d).
Proof.
  destruct x as [|[|]|a]; simpl; try contradiction;
    destruct d as [|[|]|b]; simpl; try contradiction; intros Hx Hd; auto.
  pose proof (round_ge a (a + b) Hx ltac:(lia)) as Hle.
  split; [|exact Hle].
  destruct (round (a + b)) as [|[|]|k] eqn:E; simpl in *; auto.
  now apply round_representable in E.
Qed.

(** What [round] gives is a double, and no double is nearer. *)
Lemma magnitude_nearest (a r : Z) :
  0 <= a -> representable r = true ->
  let u := 2 ^ shift_of a in
  Z.abs (a - nearest (a / u) (a mod u) u * u) <= Z.abs (a - r).
Proof.
  intros Ha Hrep u. subst u.
  pose proof (unit_pos a) as Hu.
  set (u := 2 ^ shift_of a) in *.
  pose proof (Z.div_mod a u ltac:(lia)) as Hdm.
  pose proof (Z.mod_pos_bound a u Hu) as Hr.
  assert (Hq : 0 <= a / u) by (apply Z.div_pos; lia).
  pose proof (nearest_bounds (a / u) (a mod u) u) as [_ Hexact].
  destruct (Z.eq_dec (a mod u) 0) as [Hr0|Hrne].
  { rewrite (Hexact Hu Hr0). rewrite Hr0 in Hdm. lia. }
  assert (Hfloor : r <= a -> r <= a / u * u).
  { intros Hle. destruct (Z_le_gt_dec 0 r) as [Hr'|Hr']; [|nia].
    exact (floor_ge r a Hr' Hrep Hle). }
  assert (Hceil : a <= r -> (a / u + 1) * u <= r).
  { intros Hle. apply (ceil_step r a); [lia | exact Hrep | exact Hrne]. }
  destruct (nearest_cases (a / u) (a mod u) u) as [[-> H2]|[-> H2]];
    destruct (Z_le_gt_dec r a) as [Hle|Hgt];
    try specialize (Hfloor Hle); try specialize (Hceil ltac:(lia)); nia.
Qed.

Lemma round_nearest (k m r : Z) :
  round k = Fin m -> representable r = true ->
  representable m = true /\ Z.abs (k - m) <= Z.abs (k - r).
Proof.
  intros Hround Hrep. split; [exact (round_representable _ _ Hround)|].
  destruct (round_cases k) as [[E _]|[E _]]; rewrite E in Hround;
    [discriminate|]. injection Hround as <-.
  pose proof (magnitude_nearest (Z.abs k) r (Z.abs_nonneg k) Hrep) as Hpos.
  pose proof (magnitude_nearest (Z.abs k) (- r) (Z.abs_nonneg k)
                ltac:(now rewrite representable_opp)) as Hneg.
  cbv zeta in Hpos, Hneg. rewrite shift_of_abs in Hpos, Hneg.
  set (M := nearest _ _ _ * _) in *.
  destruct (Z.sgn_spec k) as [[Hk ->]|[[Hk ->]|[Hk ->]]].
  - rewrite (Z.abs_eq k) in Hpos by lia. lia.
  - lia.
  - rewrite (Z.abs_neq k) in Hneg by lia. lia.
Qed.

(** A value that a double holds is not changed by rounding. *)
Lemma round_exact (k : Z) : representable k = true -> round k = Fin k.
Proof.
  intros Hrep. pose proof (unit_pos k) as Hu.
  apply representable_multiple in Hrep as [Hmod Htop].
  pose proof (nearest_bounds (Z.abs k / 2 ^ shift_of k)
                (Z.abs k mod 2 ^ shift_of k) (2 ^ shift_of k)) as [_ Hexact].
  pose proof (Z.div_mod (Z.abs k) (2 ^ shift_of k) ltac:(lia)) as Hdm.
  unfold round. rewrite (Hexact Hu Hmod).
  replace (Z.abs k / 2 ^ shift_of k * 2 ^ shift_of k) with (Z.abs k) by lia.
  replace (top <=? Z.abs k) with false by (symmetry; apply Z.leb_gt; lia).
  f_equal. rewrite Z.mul_comm. apply Z.abs_sgn.
Qed.

(** Whole numbers up to 2^53 in magnitude, every time value among them,
    are doubles as they stand. *)
Lemma of_Z_exact (z : Z) :
  Z.abs z <= 2 ^ 53 -> of_Z z = Fin (z * 2 ^ 1074).
Proof.
  intros Hz. unfold of_Z, make. simpl (0 + 1074).
  apply round_exact.
  assert (Hrep : representable (Z.abs z * 2 ^ 1074) = true).
  { apply multiple_representable; [lia | lia |].
    apply Z.le_lt_trans with (2 ^ 53 * 2 ^ 1074).
    - apply Z.mul_le_mono_nonneg_r; [apply Z.pow_nonneg; lia | exact Hz].
    - reflexivity. }
  destruct (Z.abs_spec z) as [[_ E]|[_ E]]; rewrite E in Hrep; [exact Hrep|].
  rewrite <- representable_opp.
  now replace (- (z * 2 ^ 1074)) with (- z * 2 ^ 1074) by lia.
Qed.

(** The sums below are the ones the standard library's specification of
    IEEE-754 addition gives at binary64: a sum that loses its last bit
    (1 + 2^53), a tie that goes up to the even neighbour (3 + 2^53),
    fractions (0.1 + 0.2), an overflow, the least doubles, and a sum of
    opposite signs. *)
Example add_one_to_2_53 :
  add (of_Z 1) (of_Z (2 ^ 53)) = of_Z (2 ^ 53)
  /\ to_spec (add (of_Z 1) (of_Z (2 ^ 53))) = spec_add (of_Z 1) (of_Z (2 ^ 53)).
Proof. split; vm_compute; reflexivity. Qed.

Example add_three_to_2_53 :
  add (of_Z 3) (of_Z (2 ^ 53)) = of_Z (2 ^ 53 + 4)
  /\ to_spec (add (of_Z 3) (of_Z (2 ^ 53))) = spec_add (of_Z 3) (of_Z (2 ^ 53)).
Proof. split; vm_compute; reflexivity. Qed.

Example add_tenth_to_fifth :
  let tenth := make 3602879701896397 (-55) in
  let fifth := make 3602879701896397 (-54) in
  add tenth fifth = make 5404319552844596 (-54)
  /\ add tenth fifth <> make 5404319552844595 (-54)
  /\ to_spec (add tenth fifth) = spec_add tenth fifth.
Proof.
  intros tenth fifth. split; [vm_compute; reflexivity|].
  split; [vm_compute; discriminate | vm_compute; reflexivity].
Qed.

Example add_overflows :
  let largest := make (2 ^ 53 - 1) 971 in
  add largest largest = Inf false
  /\ to_spec (add largest largest) = spec_add largest largest.
Proof. intros largest. split; vm_compute; reflexivity. Qed.

Example add_least :
  let least := make 1 (-1074) in
  add least least = make 1 (-1073)
  /\ to_spec (add least least) = spec_add least least.
Proof. intros least. split; vm_compute; reflexivity. Qed.

Example add_opposite_signs :
  add (of_Z 1700000000000) (of_Z (-5)) = of_Z 1699999999995
  /\ to_spec (add (of_Z 1700000000000) (of_Z (-5)))
     = spec_add (of_Z 1700000000000) (of_Z (-5)).
Proof. split; vm_compute; reflexivity. Qed.

End Double_facts.

(** ** Step translator *)

Lemma fold_push_step (l : list OctomindTestStep.t)
    (acc : list AllureStep.t) (t : Double.t) :
  (fold_left push_step l (acc, t)).1 = acc ++ steps_from l t.
Proof.
  revert acc t. induction l as [|step rest IH]; intros acc t; simpl.
  - now rewrite app_nil_r.
  - unfold push_step at 2. simpl. rewrite IH, <- app_assoc. reflexivity.
Qed.

Lemma convertSteps_steps_from (l : list OctomindTestStep.t) (t : Double.t) :
  convertSteps (Some l) t = steps_from l t.
Proof. unfold convertSteps. now rewrite fold_push_step. Qed.

Lemma steps_from_length (l : list OctomindTestStep.t) (t : Double.t) :
  length (steps_from l t) = length (durations l).
Proof.
  revert t. induction l as [|step rest IH]; intros t; simpl; [reflexivity|].
  now rewrite IH.
Qed.

Lemma steps_from_head (l : list OctomindTestStep.t) (t : Double.t)
    (s : AllureStep.t) :
  steps_from l t !! 0%nat = Some s -> AllureStep.start s = t.
Proof.
  destruct l as [|step rest]; simpl; [discriminate|].
  intros [= <-]. reflexivity.
Qed.

Lemma steps_from_stop (l : list OctomindTestStep.t) (t : Double.t)
    (i : nat) (s : AllureStep.t) (d : Double.t) :
  steps_from l t !! i = Some s -> durations l !! i = Some d ->
  AllureStep.stop s = Double.add (AllureStep.start s) d.
Proof.
  revert t i. induction l as [|step rest IH]; intros t i; [discriminate|].
  destruct i as [|i]; simpl.
  - intros [= <-] [= <-]. reflexivity.
  - apply IH.
Qed.

Lemma steps_from_next (l : list OctomindTestStep.t) (t : Double.t)
    (i : nat) (s s' : AllureStep.t) :
  steps_from l t !! i = Some s -> steps_from l t !! S i = Some s' ->
  AllureStep.start s' = AllureStep.stop s.
Proof.
  revert t i. induction l as [|step rest IH]; intros t i; [discriminate|].
  destruct i as [|i]; simpl.
  - intros [= <-] Hnext. apply steps_from_head in Hnext. exact Hnext.
  - apply IH.
Qed.

Lemma steps_from_contiguous (l : list OctomindTestStep.t) (t : Double.t) :
  contiguous t (durations l) (steps_from l t).
Proof.
  split; [apply steps_from_length|].
  split; [intros s; apply steps_from_head|].
  split; [intros i s s'; apply steps_from_next|].
  intros i s d; apply steps_from_stop.
Qed.

(** From a time that is a number and not negative infinity, durations
    that are not negative lead upwards, rounding included. *)
Lemma steps_from_nondecreasing (l : list OctomindTestStep.t) (t : Double.t) :
  Double.advancing t ->
  Forall nonnegative (durations l) ->
  nondecreasing (steps_from l t).
Proof.
  revert t. induction l as [|step rest IH]; intros t Ht Hnn.
  - split; intros i; intros; discriminate.
  - change (durations (step :: rest))
      with (Double.or_zero (OctomindTestStep.duration step) :: durations rest)
      in Hnn.
    apply Forall_cons in Hnn as [Hd Hrest].
    destruct (Double_facts.add_advancing t _ Ht Hd) as [Hnext Hle].
    specialize (IH _ Hnext Hrest) as [IH1 IH2].
    split.
    + intros [|i] s.
      * intros [= <-]. exact Hle.
      * apply IH1.
    + intros [|i] s s'.
      * intros [= <-] Hs'. apply steps_from_head in Hs'.
        rewrite Hs'. exact Hle.
      * apply IH2.
Qed.

(** The duration a step contributes is its own when present, a number
    and not zero, and zero otherwise. *)
Lemma or_zero_spec :
  Double.or_zero None = Double.Fin 0
  /\ Double.or_zero (Some Double.NaN) = Double.Fin 0
  /\ (forall x, Double.truthy x = true -> Double.or_zero (Some x) = x).
Proof.
  split; [reflexivity|]. split; [reflexivity|].
  intros x Hx. unfold Double.or_zero. now rewrite Hx.
Qed.

(** The design document's example: durations 100, 0 and 50. *)
Example steps_100_0_50 :
  let T := 1704067200000%Z in
  map (fun s => (AllureStep.start s, AllureStep.stop s))
      (convertSteps
         (Some [Sample.step (Some (Double.of_Z 100));
                Sample.step (Some (Double.of_Z 0));
                Sample.step (Some (Double.of_Z 50))])
         (Double.of_Z T))
  = [ (Double.of_Z T, Double.of_Z (T + 100));
      (Double.of_Z (T + 100), Double.of_Z (T + 100));
      (Double.of_Z (T + 100), Double.of_Z (T + 150)) ].
Proof. vm_compute. reflexivity. Qed.

(** Ten steps of 0.3 ms: the last stop is the time the ten sums reach,
    1704067200003.00048828125, and not the start plus 3. *)
Example steps_ten_fractions :
  let start := Double.of_Z 1704067200000 in
  let l := repeat (Sample.step (Some (Double.make 5404319552844595 (-54)))) 10 in
  AllureStep.stop <$> last (convertSteps (Some l) start)
  = Some (Double.make 3489929625606145 (-11))
  /\ Double.make 3489929625606145 (-11) <> Double.of_Z 1704067200003.
Proof. split; [vm_compute; reflexivity | vm_compute; discriminate]. Qed.

(** C5, as the code has it: for every result with a step list the output
    steps are contiguous (the first start is the result's start, every
    later start is the previous stop, every stop is its start plus the
    step's duration, zero when absent, the sum rounded to a double as [+]
    rounds it); they are monotonically non-decreasing as soon as the
    result's start is a finite number and no step has a negative
    duration. *)
Theorem steps_contiguous (env : Env) (testResult : OctomindTestResult.t)
    (testReport : OctomindTestReport.t) (testCase : OctomindTestCase.t)
    (testTarget : OctomindTestTarget.t) (l : list OctomindTestStep.t) :
  OctomindTestResult.steps testResult = Some l ->
  let out := convertTestResult env testResult testReport testCase testTarget in
  exists steps,
    AllureTestResult.steps out = Some steps
    /\ contiguous (Double.of_number (AllureTestResult.start out))
                  (durations l) steps
    /\ (Double.is_finite (Double.of_number (AllureTestResult.start out)) = true ->
        Forall nonnegative (durations l) ->
        nondecreasing steps).
Proof.
  intros Hsteps out. subst out.
  cbn [convertTestResult AllureTestResult.steps AllureTestResult.start].
  rewrite Hsteps, convertSteps_steps_from.
  eexists. split; [reflexivity|]. split.
  - apply steps_from_contiguous.
  - intros Hfinite. apply steps_from_nondecreasing.
    destruct (start_of env testResult) as [|z]; [discriminate|].
    cbn [Double.of_number] in *.
    destruct (Double.of_Z z) as [| |k] eqn:E; try discriminate.
    exact (Double_facts.round_representable _ _ E).
Qed.

Lemma steps_contiguous_witness :
  let r := Sample.test_result (Some "2024-01-01T00:00:00Z") None
             (Some [Sample.step (Some (Double.of_Z 100)); Sample.step None;
                    Sample.step (Some (Double.make 3 (-1)))]) in
  exists steps,
    AllureTestResult.steps
      (convertTestResult Sample.env r (Sample.report "report-1")
         Sample.test_case Sample.test_target) = Some steps
    /\ map (fun s => (AllureStep.start s, AllureStep.stop s)) steps
       = [ (Double.of_Z 1704067200000, Double.of_Z 1704067200100);
           (Double.of_Z 1704067200100, Double.of_Z 1704067200100);
           (Double.of_Z 1704067200100, Double.make 3408134400203 (-1)) ]
    /\ nondecreasing steps.
Proof.
  intros r.
  destruct (steps_contiguous Sample.env r (Sample.report "report-1")
              Sample.test_case Sample.test_target _ eq_refl)
    as (steps & Hsteps & _ & Hmono).
  exists steps. split; [exact Hsteps|]. split.
  - vm_compute in Hsteps. injection Hsteps as <-. vm_compute. reflexivity.
  - apply Hmono; [reflexivity|].
    repeat (apply Forall_cons; split; [vm_compute; discriminate|]).
    apply Forall_nil_2.
Defined.

(** C5 as stated fails: a step with a negative duration stops before it
    starts. *)
Lemma steps_negative_duration_counterexample :
  let r := Sample.test_result None None
             (Some [Sample.step (Some (Double.of_Z (-5)))]) in
  let out := convertTestResult Sample.env r (Sample.report "report-1")
               Sample.test_case Sample.test_target in
  exists s,
    AllureTestResult.steps out = Some [s]
    /\ AllureStep.start s = Double.of_Z 1700000000000
    /\ AllureStep.stop s = Double.of_Z 1699999999995
    /\ ~ nondecreasing [s].
Proof.
  intros r out. eexists. split; [reflexivity|].
  split; [reflexivity|]. split; [vm_compute; reflexivity|].
  intros [Hle _]. specialize (Hle 0%nat _ eq_refl).
  vm_compute in Hle. apply Hle. reflexivity.
Qed.

(** ** Record translator *)

(** The design document's example: [createdAt] given, no [updatedAt],
    case description [Login flow], application [MyApp]. *)
Example convertTestResult_login_flow :
  let out := convertTestResult Sample.env
               (Sample.test_result (Some "2024-01-01T00:00:00Z") None None)
               (Sample.report "report-1") Sample.test_case Sample.test_target in
  AllureTestResult.fullName out = "MyApp.Login flow"
  /\ AllureTestResult.start out = Js.Num 1704067200000
  /\ AllureTestResult.stop out = Js.Num 1704067200000
  /\ AllureTestResult.status out = passed.
Proof. repeat split. Qed.

(** C10: the output result always carries a list of steps; with no steps
    on the source result the list is empty, not left out. *)
Theorem steps_always_present (env : Env) (testResult : OctomindTestResult.t)
    (testReport : OctomindTestReport.t) (testCase : OctomindTestCase.t)
    (testTarget : OctomindTestTarget.t) :
  exists steps,
    AllureTestResult.steps
      (convertTestResult env testResult testReport testCase testTarget)
    = Some steps
    /\ length steps = length (default [] (OctomindTestResult.steps testResult))
    /\ (OctomindTestResult.steps testResult = None -> steps = []).
Proof.
  cbn [convertTestResult AllureTestResult.steps].
  eexists. split; [reflexivity|]. split.
  - destruct (OctomindTestResult.steps testResult) as [l|]; [|reflexivity].
    rewrite convertSteps_steps_from, steps_from_length.
    unfold durations. now rewrite length_map.
  - intros ->. reflexivity.
Qed.

(** C8, as the code has it: an absent or empty [createdAt] makes the start
    the current time and an absent or empty [updatedAt] makes the stop
    equal to the start; a [createdAt] or [updatedAt] that is present and
    not empty is handed to the engine's date parser and the value it
    yields is kept as it is.  The translation is a total function (no
    error is surfaced), and start and stop are time values whenever the
    parser yields time values on the strings handed to it. *)
Theorem timestamps_defaulting (env : Env) (testResult : OctomindTestResult.t)
    (testReport : OctomindTestReport.t) (testCase : OctomindTestCase.t)
    (testTarget : OctomindTestTarget.t) :
  let out := convertTestResult env testResult testReport testCase testTarget in
  (Js.truthy_str (OctomindTestResult.createdAt testResult) = false ->
   AllureTestResult.start out = Js.Num (Date_now env))
  /\ (Js.truthy_str (OctomindTestResult.updatedAt testResult) = false ->
      AllureTestResult.stop out = AllureTestResult.start out)
  /\ (forall s, OctomindTestResult.createdAt testResult = Some s ->
        s <> EmptyString -> AllureTestResult.start out = Date_getTime env s)
  /\ (forall s, OctomindTestResult.updatedAt testResult = Some s ->
        s <> EmptyString -> AllureTestResult.stop out = Date_getTime env s)
  /\ ((forall s, OctomindTestResult.createdAt testResult = Some s ->
         s <> EmptyString -> Js.is_finite (Date_getTime env s) = true) ->
      (forall s, OctomindTestResult.updatedAt testResult = Some s ->
         s <> EmptyString -> Js.is_finite (Date_getTime env s) = true) ->
      Js.is_finite (AllureTestResult.start out) = true
      /\ Js.is_finite (AllureTestResult.stop out) = true).
Proof.
  cbv zeta. cbn [convertTestResult AllureTestResult.start AllureTestResult.stop].
  unfold stop_of, start_of.
  destruct (OctomindTestResult.createdAt testResult) as [[|a s]|];
    destruct (OctomindTestResult.updatedAt testResult) as [[|a' s']|];
    simpl;
    (split; [try discriminate; try reflexivity|]);
    (split; [try discriminate; try reflexivity|]);
    (split; [try discriminate; try (intros ? [= <-] ?; congruence)|]);
    (split; [try discriminate; try (intros ? [= <-] ?; congruence)|]);
    intros Hc Hu; split; try reflexivity;
    try (apply Hc; [reflexivity|discriminate]);
    try (apply Hu; [reflexivity|discriminate]).
Qed.

(** C8 as stated fails: an unparseable [createdAt] is not replaced by the
    current time; start and stop are [NaN]. *)
Lemma malformed_createdAt_counterexample :
  let r := Sample.test_result (Some "not-a-date") None None in
  let out := convertTestResult Sample.env r (Sample.report "report-1")
               Sample.test_case Sample.test_target in
  Date_getTime Sample.env "not-a-date" = Js.NaN
  /\ AllureTestResult.start out = Js.NaN
  /\ AllureTestResult.start out <> Js.Num (Date_now Sample.env)
  /\ AllureTestResult.stop out = Js.NaN
  /\ Js.is_finite (AllureTestResult.start out) = false.
Proof. repeat split. discriminate. Qed.

(** ** Case cache *)

Section CaseCache.
Context {W : Type} (remote : Remote W).

Lemma fetchTestCase_hit (testTargetId testCaseId : string) (c : Converter W)
    (cached : OctomindTestCase.t) :
  testCaseCache c !! cacheKey_of testTargetId testCaseId = Some cached ->
  fetchTestCase remote testTargetId testCaseId c = (c, Returned cached).
Proof. intros Hhit. unfold fetchTestCase. now rewrite Hhit. Qed.

(** A lookup that misses the cache and returns has sent one request and
    left the case in the cache. *)
Lemma fetchTestCase_miss_returned (testTargetId testCaseId : string)
    (c c' : Converter W) (testCase : OctomindTestCase.t) :
  testCaseCache c !! cacheKey_of testTargetId testCaseId = None ->
  fetchTestCase remote testTargetId testCaseId c = (c', Returned testCase) ->
  requests c' = requests c ++ [testCase_request c testTargetId testCaseId]
  /\ testCaseCache c'
     = <[cacheKey_of testTargetId testCaseId := testCase]> (testCaseCache c).
Proof.
  intros Hmiss. unfold fetchTestCase. rewrite Hmiss.
  unfold bind, fetch, cache_set, ret, throw.
  destruct (getTestCase remote (net c) _) as [w' [| status text | | body]];
    simpl; intros [= <- <-]; simpl; split; reflexivity.
Qed.

Lemma fetchTestCase_not_ok (testTargetId testCaseId : string)
    (c : Converter W) (w' : W) (status : Z) (statusText : string) :
  testCaseCache c !! cacheKey_of testTargetId testCaseId = None ->
  getTestCase remote (net c) (testCase_request c testTargetId testCaseId)
    = (w', NotOk status statusText) ->
  exists c',
    fetchTestCase remote testTargetId testCaseId c
      = (c', Returned (synthetic_case testCaseId))
    /\ net c' = w' /\ warnings c' = warnings c.
Proof.
  intros Hmiss Hresp. unfold fetchTestCase. rewrite Hmiss.
  unfold bind, fetch, cache_set, ret. rewrite Hresp. simpl.
  eexists. split; [reflexivity|]. split; reflexivity.
Qed.

(** C9, as the code has it: when the pair is not cached and the service
    answers the test-case request with a status outside 2xx,
    [fetchTestCase] raises nothing, stores in the cache and returns the
    synthetic case (id and name the requested case id, no tags); and
    whenever a first lookup of an uncached pair returns, it has sent
    exactly one request and a second lookup of the pair returns the same
    case without sending another. *)
Theorem fetchTestCase_fallback (testTargetId testCaseId : string)
    (c : Converter W) :
  testCaseCache c !! cacheKey_of testTargetId testCaseId = None ->
  (forall w' status statusText,
      getTestCase remote (net c) (testCase_request c testTargetId testCaseId)
        = (w', NotOk status statusText) ->
      exists c',
        fetchTestCase remote testTargetId testCaseId c
          = (c', Returned (synthetic_case testCaseId))
        /\ testCaseCache c' !! cacheKey_of testTargetId testCaseId
           = Some (synthetic_case testCaseId))
  /\ (OctomindTestCase.id (synthetic_case testCaseId) = testCaseId
      /\ OctomindTestCase.name (synthetic_case testCaseId) = testCaseId
      /\ OctomindTestCase.tags (synthetic_case testCaseId) = Some [])
  /\ (forall c' testCase,
        fetchTestCase remote testTargetId testCaseId c = (c', Returned testCase) ->
        length (requests c') = S (length (requests c))
        /\ fetchTestCase remote testTargetId testCaseId c' = (c', Returned testCase)).
Proof.
  intros Hmiss. split; [|split; [repeat split|]].
  - intros w' status statusText Hresp.
    destruct (fetchTestCase_not_ok _ _ _ _ _ _ Hmiss Hresp) as (c' & Hrun & _).
    exists c'. split; [exact Hrun|].
    destruct (fetchTestCase_miss_returned _ _ _ _ _ Hmiss Hrun) as [_ ->].
    apply lookup_insert_eq.
  - intros c' testCase Hrun.
    destruct (fetchTestCase_miss_returned _ _ _ _ _ Hmiss Hrun) as [Hreq Hcache].
    split.
    + rewrite Hreq, length_app. simpl. lia.
    + apply fetchTestCase_hit. rewrite Hcache. apply lookup_insert_eq.
Qed.

End CaseCache.

Lemma fetchTestCase_fallback_witness :
  let remote := Sample.stubborn [] (NotOk 404 "Not Found") in
  let c := Sample.converter tt in
  exists c',
    fetchTestCase remote "target-1" "case-1" c
      = (c', Returned (synthetic_case "case-1"))
    /\ length (requests c') = 1%nat
    /\ fetchTestCase remote "target-1" "case-1" c'
       = (c', Returned (synthetic_case "case-1")).
Proof.
  intros remote c.
  destruct (fetchTestCase_fallback remote "target-1" "case-1" c
              (lookup_empty _)) as (Hnotok & _ & Htwice).
  destruct (Hnotok tt 404%Z "Not Found" eq_refl) as (c' & Hrun & _).
  exists c'. split; [exact Hrun|]. exact (Htwice c' _ Hrun).
Defined.

(** C9 as stated fails: a transport failure and an unparseable body of a
    2xx response both propagate, and nothing is cached. *)
Lemma fetchTestCase_failure_counterexample :
  let c := Sample.converter tt in
  let lost := fetchTestCase (Sample.stubborn [] NetworkError)
                "target-1" "case-1" c in
  let garbled := fetchTestCase (Sample.stubborn [] BadJson)
                   "target-1" "case-1" c in
  lost.2 = Threw FetchRejected
  /\ testCaseCache lost.1 !! cacheKey_of "target-1" "case-1" = None
  /\ garbled.2 = Threw JsonRejected
  /\ testCaseCache garbled.1 !! cacheKey_of "target-1" "case-1" = None
  /\ lost.2 <> Returned (synthetic_case "case-1")
  /\ garbled.2 <> Returned (synthetic_case "case-1").
Proof.
  intros c lost garbled.
  assert (Hlost : lost.2 = Threw FetchRejected) by reflexivity.
  assert (Hgarbled : garbled.2 = Threw JsonRejected) by reflexivity.
  repeat split; try assumption; try reflexivity.
  - rewrite Hlost. discriminate.
  - rewrite Hgarbled. discriminate.
Qed.

(** ** Pagination engine *)

Lemma fold_add_report (l : list OctomindTestReport.t) (seen : gset string)
    (all : list OctomindTestReport.t) :
  fold_left add_report l (seen, all)
  = (list_to_set (map OctomindTestReport.id l) ∪ seen, all ++ l).
Proof.
  revert seen all. induction l as [|r l IH]; intros seen all; simpl.
  - now rewrite union_empty_l_L, app_nil_r.
  - change (add_report (seen, all) r)
      with ({[OctomindTestReport.id r]} ∪ seen, all ++ [r]).
    rewrite IH. f_equal.
    + simpl. rewrite (comm_L (∪) {[_]} (list_to_set _)).
      now rewrite (assoc_L (∪)).
    + now rewrite <- app_assoc.
Qed.

Lemma newReports_fresh (seen : gset string) (data : list OctomindTestReport.t)
    (r : OctomindTestReport.t) :
  r ∈ newReports_of seen data
  <-> (OctomindTestReport.id r ∉ seen) /\ (r ∈ data).
Proof. unfold newReports_of. now rewrite list_elem_of_filter. Qed.

Lemma newReports_all_seen (seen : gset string)
    (data : list OctomindTestReport.t) :
  (forall r, r ∈ data -> OctomindTestReport.id r ∈ seen) ->
  newReports_of seen data = [].
Proof.
  intros Hseen. destruct (newReports_of seen data) as [|r l] eqn:Hnew;
    [reflexivity|].
  assert (Hr : r ∈ newReports_of seen data) by (rewrite Hnew; left).
  apply newReports_fresh in Hr as [Hfresh Hin]. apply Hseen in Hin.
  contradiction.
Qed.

Lemma newReports_empty_seen (data : list OctomindTestReport.t) :
  newReports_of ∅ data = data.
Proof.
  unfold newReports_of. induction data as [|r l IH]; [reflexivity|].
  rewrite filter_cons_True by apply not_elem_of_empty. now rewrite IH.
Qed.

Section Pagination.
Context {W : Type} (remote : Remote W) (testTargetId : string)
        (options : option AllOptions).

Local Abbreviation limit := (maxReports_of options).

(** What one turn of the loop does with a page. *)
Lemma iteration_page (v : Vars) (c : Converter W) (w' : W)
    (page : OctomindTestReportsPage.t) :
  getTestReports remote (net c) (page_request c testTargetId options v)
    = (w', Json page) ->
  let data := OctomindTestReportsPage.data page in
  let newReports := newReports_of (seenIds v) data in
  let c1 := with_request c (page_request c testTargetId options v) w' in
  iteration remote testTargetId options v c
  = if (length newReports =? 0) && (0 <? length data)
    then (with_warning c1 duplicates_warning, Returned (Break, v))
    else if reached (length (allReports (absorbed v page))) limit
    then (c1, Returned (Break, absorbed v page))
    else if (length newReports =? 0) && OctomindTestReportsPage.hasNextPage page
    then (with_warning c1 no_progress_warning, Returned (Break, absorbed v page))
    else (c1, Returned (Next, absorbed v page)).
Proof.
  intros Hresp data newReports c1.
  unfold iteration, fetchTestReports, bind, fetch.
  fold (page_request c testTargetId options v). rewrite Hresp. simpl.
  fold data. fold newReports.
  rewrite fold_add_report. simpl.
  change (map OctomindTestReport.id newReports) with
    (map OctomindTestReport.id (newReports_of (seenIds v)
                                  (OctomindTestReportsPage.data page))).
  fold (absorbed v page). fold c1.
  destruct ((length newReports =? 0) && (0 <? length data)); [reflexivity|].
  destruct (reached _ limit); [reflexivity|].
  destruct ((length newReports =? 0) && _); reflexivity.
Qed.

(** A turn that returns has received a page and has taken all of its
    new reports in, or none when it stopped on a page of duplicates (the
    page then has no new report at all). *)
Lemma iteration_returned (v v' : Vars) (c c' : Converter W) (f : flow) :
  iteration remote testTargetId options v c = (c', Returned (f, v')) ->
  exists w' page,
    getTestReports remote (net c) (page_request c testTargetId options v)
      = (w', Json page)
    /\ net c' = w'
    /\ length (requests c') = S (length (requests c))
    /\ allReports v'
       = allReports v
           ++ newReports_of (seenIds v) (OctomindTestReportsPage.data page)
    /\ (v' = absorbed v page
        \/ (v' = v /\ f = Break
            /\ newReports_of (seenIds v) (OctomindTestReportsPage.data page) = []))
    /\ (f = Next ->
        v' = absorbed v page
        /\ reached (length (allReports v')) limit = false
        /\ (OctomindTestReportsPage.hasNextPage page = true ->
            newReports_of (seenIds v) (OctomindTestReportsPage.data page) <> [])).
Proof.
  destruct (getTestReports remote (net c) (page_request c testTargetId options v))
    as [w' resp] eqn:Hresp.
  destruct resp as [| status text | | page].
  1-3: unfold iteration, fetchTestReports, bind, fetch;
       fold (page_request c testTargetId options v); rewrite Hresp;
       simpl; discriminate.
  rewrite (iteration_page _ _ _ _ Hresp). cbv zeta.
  remember (newReports_of (seenIds v) (OctomindTestReportsPage.data page))
    as new eqn:Hnew.
  assert (Hlen : forall c0 : Converter W,
             length (requests (with_request c0
                                 (page_request c0 testTargetId options v) w'))
             = S (length (requests c0))).
  { intros c0. simpl. rewrite length_app. simpl. lia. }
  destruct ((length new =? 0) && (0 <? length _)) eqn:Hdup.
  { intros [= <- <- <-]. exists w', page. rewrite <- Hnew.
    apply andb_true_iff in Hdup as [Hnil _]. apply Nat.eqb_eq in Hnil.
    apply nil_length_inv in Hnil. rewrite Hnil, app_nil_r.
    split; [reflexivity|]. split; [reflexivity|]. split; [apply Hlen|].
    split; [reflexivity|]. split; [right; auto | discriminate]. }
  assert (Hall : allReports (absorbed v page) = allReports v ++ new)
    by (rewrite Hnew; reflexivity).
  destruct (reached _ limit) eqn:Hreached.
  { intros [= <- <- <-]. exists w', page. rewrite <- Hnew.
    split; [reflexivity|]. split; [reflexivity|]. split; [apply Hlen|].
    split; [exact Hall|]. split; [left; reflexivity | discriminate]. }
  destruct ((length new =? 0) && OctomindTestReportsPage.hasNextPage page)
    eqn:Hstall.
  { intros [= <- <- <-]. exists w', page. rewrite <- Hnew.
    split; [reflexivity|]. split; [reflexivity|]. split; [apply Hlen|].
    split; [exact Hall|]. split; [left; reflexivity | discriminate]. }
  intros [= <- <- <-]. exists w', page. rewrite <- Hnew.
  split; [reflexivity|]. split; [reflexivity|]. split; [apply Hlen|].
  split; [exact Hall|]. split; [left; reflexivity|].
  intros _. split; [reflexivity|]. split; [exact Hreached|].
  intros Hnext Hnil. rewrite Hnext, Hnil in Hstall. discriminate.
Qed.

(** A turn after which the loop goes on has recorded an id it had not
    seen and has lengthened the list of reports. *)
Lemma iteration_progress (v v' : Vars) (c c' : Converter W) :
  iteration remote testTargetId options v c = (c', Returned (Next, v')) ->
  loop_condition limit v' = true ->
  seenIds v ⊂ seenIds v'
  /\ (length (allReports v) < length (allReports v'))%nat
  /\ exists w' page r,
       getTestReports remote (net c) (page_request c testTargetId options v)
         = (w', Json page)
       /\ (r ∈ OctomindTestReportsPage.data page)
       /\ (OctomindTestReport.id r ∉ seenIds v)
       /\ (OctomindTestReport.id r ∈ seenIds v').
Proof.
  intros Hrun Hcond.
  destruct (iteration_returned _ _ _ _ _ Hrun)
    as (w' & page & Hresp & _ & _ & Hall & _ & Hnext).
  destruct (Hnext eq_refl) as (-> & _ & Hnew).
  apply andb_true_iff in Hcond as [Hflag _]. simpl in Hflag.
  specialize (Hnew Hflag).
  destruct (newReports_of (seenIds v) (OctomindTestReportsPage.data page))
    as [|r rest] eqn:Heq; [contradiction|].
  assert (Hr : r ∈ newReports_of (seenIds v) (OctomindTestReportsPage.data page))
    by (rewrite Heq; left).
  apply newReports_fresh in Hr as [Hfresh Hin].
  assert (Hrec : OctomindTestReport.id r ∈ seenIds (absorbed v page)).
  { unfold absorbed; simpl. rewrite Heq. simpl.
    apply elem_of_union_l, elem_of_union_l, elem_of_singleton. reflexivity. }
  split; [|split].
  - split.
    + unfold absorbed; simpl. apply union_subseteq_r.
    + intros Hsub. apply Hfresh, Hsub, Hrec.
  - rewrite Hall, length_app. simpl. lia.
  - exists w', page, r. repeat split; assumption.
Qed.

Lemma pagination_exit (fuel : nat) (v : Vars) (c : Converter W) :
  loop_condition limit v = false ->
  pagination fuel remote testTargetId options v c = Some (c, Returned v).
Proof.
  intros Hcond. destruct fuel; simpl; now rewrite Hcond.
Qed.

(** One unfolding of the loop while its condition holds. *)
Lemma pagination_turn (fuel : nat) (v : Vars) (c : Converter W) :
  loop_condition limit v = true ->
  pagination (S fuel) remote testTargetId options v c
  = match iteration remote testTargetId options v c with
    | (c', Returned (Next, v')) =>
        pagination fuel remote testTargetId options v' c'
    | (c', Returned (Break, v')) => Some (c', Returned v')
    | (c', Threw e) => Some (c', Threw e)
    end.
Proof. intros Hcond. simpl. now rewrite Hcond. Qed.

(** More fuel does not change the outcome of a loop that has ended. *)
Lemma pagination_more_fuel (fuel fuel' : nat) (v : Vars) (c : Converter W)
    (outcome : Converter W * result Vars) :
  pagination fuel remote testTargetId options v c = Some outcome ->
  (fuel <= fuel')%nat ->
  pagination fuel' remote testTargetId options v c = Some outcome.
Proof.
  revert fuel' v c. induction fuel as [|fuel IH]; intros fuel' v c Hrun Hle.
  - destruct (loop_condition limit v) eqn:Hcond.
    + simpl in Hrun. rewrite Hcond in Hrun. discriminate.
    + rewrite pagination_exit in Hrun by assumption.
      now rewrite pagination_exit.
  - destruct (loop_condition limit v) eqn:Hcond.
    + destruct fuel' as [|fuel']; [lia|].
      rewrite pagination_turn in * by assumption.
      destruct (iteration remote testTargetId options v c)
        as [c1 [e | [[|] v1]]]; try assumption.
      apply IH; [assumption | lia].
    + rewrite pagination_exit in Hrun by assumption.
      now rewrite pagination_exit.
Qed.

Lemma size_list_to_set_le (l : list string) :
  (size (list_to_set l : gset string) <= length l)%nat.
Proof.
  induction l as [|x l IH]; cbn [length].
  - rewrite list_to_set_nil, size_empty. lia.
  - rewrite list_to_set_cons, size_union_alt, size_singleton.
    pose proof (subseteq_size (list_to_set l ∖ {[x]}) (list_to_set l : gset string)
                  (subseteq_difference_l _ _ _ (reflexivity _))).
    lia.
Qed.

(** The loop ends within as many turns as there are ids it has not seen,
    plus one. *)
Lemma pagination_terminates_from (universe : list string) :
  serves_only remote universe ->
  forall (fuel : nat) (v : Vars) (c : Converter W),
    (size (list_to_set universe ∖ seenIds v) < fuel)%nat ->
    exists outcome,
      pagination fuel remote testTargetId options v c = Some outcome.
Proof.
  intros Hserves. induction fuel as [|fuel IH]; intros v c Hsize; [lia|].
  destruct (loop_condition limit v) eqn:Hcond;
    [|rewrite pagination_exit by assumption; eauto].
  rewrite pagination_turn by assumption.
  destruct (iteration remote testTargetId options v c)
    as [c1 [e | [[|] v1]]] eqn:Hturn; eauto.
  destruct (loop_condition limit v1) eqn:Hcond1;
    [|rewrite pagination_exit by assumption; eauto].
  apply IH.
  destruct (iteration_progress _ _ _ _ Hturn Hcond1)
    as ([Hsub _] & _ & w' & page & r & Hresp & Hin & Hfresh & Hrec).
  pose proof (Hserves _ _ _ _ Hresp r Hin) as Hu.
  assert (Hlt : list_to_set universe ∖ seenIds v1
                ⊂ list_to_set universe ∖ seenIds v).
  { split.
    - intros x Hx. apply elem_of_difference in Hx as [Hx1 Hx2].
      apply elem_of_difference. split; [assumption|].
      intros Hx3. apply Hx2, Hsub, Hx3.
    - intros Hback.
      assert (Hr : OctomindTestReport.id r ∈ list_to_set universe ∖ seenIds v1).
      { apply Hback, elem_of_difference. split; [|assumption].
        now apply elem_of_list_to_set. }
      apply elem_of_difference in Hr as [_ Hr]. contradiction. }
  apply subset_size in Hlt. lia.
Qed.

(** With a finite maximum the loop ends within that many turns, whatever
    the service serves. *)
Lemma pagination_terminates_capped (z : Z) :
  limit = Finite z ->
  forall (fuel : nat) (v : Vars) (c : Converter W),
    (z - Z.of_nat (length (allReports v)) <= Z.of_nat fuel)%Z ->
    exists outcome,
      pagination fuel remote testTargetId options v c = Some outcome.
Proof.
  intros Hmax. induction fuel as [|fuel IH]; intros v c Hsize.
  - rewrite pagination_exit; eauto.
    unfold loop_condition. rewrite Hmax. simpl.
    apply andb_false_iff. right. apply Z.ltb_ge. lia.
  - destruct (loop_condition limit v) eqn:Hcond;
      [|rewrite pagination_exit by assumption; eauto].
    rewrite pagination_turn by assumption.
    destruct (iteration remote testTargetId options v c)
      as [c1 [e | [[|] v1]]] eqn:Hturn; eauto.
    destruct (loop_condition limit v1) eqn:Hcond1;
      [|rewrite pagination_exit by assumption; eauto].
    apply IH.
    destruct (iteration_progress _ _ _ _ Hturn Hcond1) as (_ & Hlen & _).
    lia.
Qed.

(** C2: the pagination loop ends.  Every turn of the loop either stops it
    (an error, a page of duplicates, the maximum reached, an empty page
    with the continuation flag set, or the flag cleared) or records an id
    it had not seen; so against a service whose reports are drawn from a
    finite universe of ids, whatever its cursors and continuation flags,
    [fetchAllTestReports] returns within [length universe + 1] turns, and
    more fuel does not change what it returns. *)
Theorem fetchAllTestReports_terminates (universe : list string) :
  serves_only remote universe ->
  (forall (v : Vars) (c : Converter W),
      match iteration remote testTargetId options v c with
      | (_, Returned (Next, v')) =>
          loop_condition (maxReports_of options) v' = false
          \/ seenIds v ⊂ seenIds v'
      | (_, Returned (Break, _)) => True
      | (_, Threw _) => True
      end)
  /\ (forall (fuel : nat) (c : Converter W),
        (length universe < fuel)%nat ->
        exists c' outcome,
          fetchAllTestReports fuel remote testTargetId options c
          = Some (c', outcome))
  /\ (forall (fuel fuel' : nat) (c : Converter W) outcome,
        fetchAllTestReports fuel remote testTargetId options c = Some outcome ->
        (fuel <= fuel')%nat ->
        fetchAllTestReports fuel' remote testTargetId options c = Some outcome).
Proof.
  intros Hserves. split; [|split].
  - intros v c.
    destruct (iteration remote testTargetId options v c)
      as [c1 [e | [[|] v1]]] eqn:Hturn; try exact I.
    destruct (loop_condition (maxReports_of options) v1) eqn:Hcond;
      [right | left; reflexivity].
    apply (iteration_progress _ _ _ _ Hturn Hcond).
  - intros fuel c Hfuel.
    destruct (pagination_terminates_from universe Hserves fuel initial_vars c)
      as [[c' r] Hrun].
    { simpl. rewrite difference_empty_L.
      pose proof (size_list_to_set_le universe). lia. }
    unfold fetchAllTestReports, fetchAllTestReports_from. rewrite Hrun.
    destruct r; eauto.
  - intros fuel fuel' c outcome.
    unfold fetchAllTestReports, fetchAllTestReports_from.
    destruct (pagination fuel remote testTargetId options initial_vars c)
      as [[c1 r]|] eqn:Hrun; [|discriminate].
    intros Hout Hle.
    now rewrite (pagination_more_fuel _ _ _ _ _ Hrun Hle).
Qed.

Lemma below_not_reached (n : nat) (b : bound) :
  below n b = true -> reached n b = false /\ exceeds n b = false.
Proof.
  destruct b as [|z]; simpl; [auto|].
  intros Hlt. apply Z.ltb_lt in Hlt.
  split; [apply Z.leb_gt | apply Z.ltb_ge]; lia.
Qed.

Lemma trim_below (b : bound) (l : list OctomindTestReport.t) :
  below (length l) b = true -> trim b l = l.
Proof.
  intros Hbelow. unfold trim.
  now destruct (below_not_reached _ _ Hbelow) as [_ ->].
Qed.

(** A turn that receives a page with reports, all of them seen before,
    warns and leaves the loop with its variables as they were. *)
Lemma iteration_duplicates (v : Vars) (c : Converter W) (w' : W)
    (page : OctomindTestReportsPage.t) :
  getTestReports remote (net c) (page_request c testTargetId options v)
    = (w', Json page) ->
  OctomindTestReportsPage.data page <> [] ->
  (forall r, r ∈ OctomindTestReportsPage.data page ->
             OctomindTestReport.id r ∈ seenIds v) ->
  iteration remote testTargetId options v c
  = (with_warning
       (with_request c (page_request c testTargetId options v) w')
       duplicates_warning,
     Returned (Break, v)).
Proof.
  intros Hresp Hdata Hseen.
  rewrite (iteration_page _ _ _ _ Hresp). cbv zeta.
  rewrite (newReports_all_seen _ _ Hseen).
  destruct (OctomindTestReportsPage.data page); [contradiction|reflexivity].
Qed.

Lemma fetchAllTestReports_from_duplicates (v : Vars) (c : Converter W)
    (w' : W) (page : OctomindTestReportsPage.t) (fuel : nat) :
  loop_condition limit v = true ->
  getTestReports remote (net c) (page_request c testTargetId options v)
    = (w', Json page) ->
  OctomindTestReportsPage.data page <> [] ->
  (forall r, r ∈ OctomindTestReportsPage.data page ->
             OctomindTestReport.id r ∈ seenIds v) ->
  fetchAllTestReports_from (S fuel) remote testTargetId options v c
  = Some (with_warning
            (with_request c (page_request c testTargetId options v) w')
            duplicates_warning,
          Returned (allReports v)).
Proof.
  intros Hcond Hresp Hdata Hseen. unfold fetchAllTestReports_from.
  rewrite pagination_turn by assumption.
  rewrite (iteration_duplicates _ _ _ _ Hresp Hdata Hseen).
  apply andb_true_iff in Hcond as [_ Hbelow].
  now rewrite trim_below.
Qed.

(** The first turn of the loop on a page that has reports and leaves the
    count below the maximum: all of the page is taken in. *)
Lemma iteration_first_page (c : Converter W) (w1 : W)
    (p1 : OctomindTestReportsPage.t) :
  getTestReports remote (net c)
    (page_request c testTargetId options initial_vars) = (w1, Json p1) ->
  OctomindTestReportsPage.data p1 <> [] ->
  below (length (OctomindTestReportsPage.data p1)) limit = true ->
  iteration remote testTargetId options initial_vars c
  = (with_request c (page_request c testTargetId options initial_vars) w1,
     Returned (Next, absorbed initial_vars p1))
  /\ allReports (absorbed initial_vars p1) = OctomindTestReportsPage.data p1.
Proof.
  intros Hresp Hdata Hbelow.
  assert (Hall : allReports (absorbed initial_vars p1)
                 = OctomindTestReportsPage.data p1).
  { unfold absorbed; simpl. now rewrite newReports_empty_seen. }
  split; [|exact Hall].
  rewrite (iteration_page _ _ _ _ Hresp). cbv zeta.
  rewrite Hall. simpl seenIds. rewrite newReports_empty_seen.
  destruct (below_not_reached _ _ Hbelow) as [-> _].
  destruct (OctomindTestReportsPage.data p1); [contradiction|reflexivity].
Qed.

(** C3: a page that has reports, every one of them seen before, stops the
    engine at once: it returns (it does not raise) exactly the reports
    gathered so far, after one warning.  In particular, when the second
    page repeats ids of the first, the reports of the first page are
    returned. *)
Theorem duplicate_page_stops :
  (forall (v : Vars) (c : Converter W) (w' : W)
          (page : OctomindTestReportsPage.t) (fuel : nat),
      loop_condition (maxReports_of options) v = true ->
      getTestReports remote (net c) (page_request c testTargetId options v)
        = (w', Json page) ->
      OctomindTestReportsPage.data page <> [] ->
      (forall r, r ∈ OctomindTestReportsPage.data page ->
                 OctomindTestReport.id r ∈ seenIds v) ->
      exists c',
        fetchAllTestReports_from (S fuel) remote testTargetId options v c
        = Some (c', Returned (allReports v))
        /\ warnings c' = warnings c ++ [duplicates_warning]
        /\ length (requests c') = S (length (requests c)))
  /\ (forall (c : Converter W) (w1 w2 : W)
             (p1 p2 : OctomindTestReportsPage.t) (fuel : nat),
        let c1 := with_request c
                    (page_request c testTargetId options initial_vars) w1 in
        getTestReports remote (net c)
          (page_request c testTargetId options initial_vars) = (w1, Json p1) ->
        OctomindTestReportsPage.data p1 <> [] ->
        OctomindTestReportsPage.hasNextPage p1 = true ->
        below (length (OctomindTestReportsPage.data p1))
              (maxReports_of options) = true ->
        getTestReports remote w1
          (page_request c1 testTargetId options (absorbed initial_vars p1))
          = (w2, Json p2) ->
        OctomindTestReportsPage.data p2 <> [] ->
        Forall (fun r => OctomindTestReport.id r
                         ∈ map OctomindTestReport.id
                             (OctomindTestReportsPage.data p1))
               (OctomindTestReportsPage.data p2) ->
        exists c',
          fetchAllTestReports (S (S fuel)) remote testTargetId options c
          = Some (c', Returned (OctomindTestReportsPage.data p1))
          /\ warnings c' = warnings c ++ [duplicates_warning]
          /\ length (requests c') = S (S (length (requests c)))).
Proof.
  split.
  - intros v c w' page fuel Hcond Hresp Hdata Hseen.
    eexists. split;
      [apply (fetchAllTestReports_from_duplicates _ _ _ _ _ Hcond Hresp Hdata Hseen)|].
    split; [reflexivity|]. simpl. rewrite length_app. simpl. lia.
  - intros c w1 w2 p1 p2 fuel c1 Hresp1 Hdata1 Hnext1 Hbelow1 Hresp2 Hdata2 Hrep.
    destruct (iteration_first_page _ _ _ Hresp1 Hdata1 Hbelow1) as [Hturn Hall].
    assert (Hcond0 : loop_condition limit initial_vars = true).
    { unfold loop_condition. simpl.
      destruct limit as [|z]; [reflexivity|]. simpl in *.
      apply Z.ltb_lt in Hbelow1. apply Z.ltb_lt. lia. }
    assert (Hcond1 : loop_condition limit (absorbed initial_vars p1) = true).
    { unfold loop_condition. rewrite Hall. simpl hasNextPage.
      rewrite Hnext1. exact Hbelow1. }
    assert (Hseen : forall r, r ∈ OctomindTestReportsPage.data p2 ->
                      OctomindTestReport.id r
                      ∈ seenIds (absorbed initial_vars p1)).
    { intros r Hr. rewrite Forall_forall in Hrep. specialize (Hrep r Hr).
      unfold absorbed; simpl. rewrite newReports_empty_seen.
      apply elem_of_union_l, elem_of_list_to_set. exact Hrep. }
    pose proof (fetchAllTestReports_from_duplicates _ c1 _ _ fuel
                  Hcond1 Hresp2 Hdata2 Hseen) as Hrun.
    unfold fetchAllTestReports, fetchAllTestReports_from in *.
    rewrite pagination_turn by assumption. rewrite Hturn.
    fold c1. rewrite Hrun, Hall.
    eexists. split; [reflexivity|]. split; [reflexivity|].
    simpl. rewrite !length_app. simpl. lia.
Qed.

Lemma map_sublist {A B : Type} (f : A -> B) (l1 l2 : list A) :
  l1 `sublist_of` l2 -> map f l1 `sublist_of` map f l2.
Proof. induction 1; simpl; now constructor. Qed.

Lemma newReports_NoDup (seen : gset string)
    (data : list OctomindTestReport.t) :
  NoDup (map OctomindTestReport.id data) ->
  NoDup (map OctomindTestReport.id (newReports_of seen data)).
Proof.
  intros Hdata. apply (sublist_NoDup _ _ Hdata), map_sublist.
  unfold newReports_of. apply sublist_filter.
Qed.

Lemma absorbed_tracked (v : Vars) (page : OctomindTestReportsPage.t) :
  NoDup (map OctomindTestReport.id (OctomindTestReportsPage.data page)) ->
  tracked v -> tracked (absorbed v page).
Proof.
  intros Hpage [Hnodup Hseen]. unfold tracked, absorbed; simpl.
  set (new := newReports_of (seenIds v) (OctomindTestReportsPage.data page)).
  split.
  - rewrite map_app. apply NoDup_app. split; [assumption|]. split.
    + intros x Hx Hx'.
      apply (list_elem_of_fmap_1 OctomindTestReport.id) in Hx
        as (r & -> & Hr).
      apply (list_elem_of_fmap_1 OctomindTestReport.id) in Hx'
        as (r' & Heq & Hr').
      apply newReports_fresh in Hr' as [Hfresh _].
      apply Hfresh. rewrite <- Heq. now apply Hseen.
    + now apply newReports_NoDup.
  - intros r Hr. apply elem_of_app in Hr as [Hr|Hr].
    + apply elem_of_union_r. now apply Hseen.
    + apply elem_of_union_l, elem_of_list_to_set.
      now apply (list_elem_of_fmap_2 OctomindTestReport.id).
Qed.

Lemma pagination_tracked (fuel : nat) (v v' : Vars) (c c' : Converter W) :
  serves_distinct remote ->
  tracked v ->
  pagination fuel remote testTargetId options v c = Some (c', Returned v') ->
  tracked v'.
Proof.
  intros Hserves. revert v c.
  induction fuel as [|fuel IH]; intros v c Htracked Hrun.
  - destruct (loop_condition limit v) eqn:Hcond.
    + simpl in Hrun. rewrite Hcond in Hrun. discriminate.
    + rewrite pagination_exit in Hrun by assumption.
      now injection Hrun as _ <-.
  - destruct (loop_condition limit v) eqn:Hcond.
    + rewrite pagination_turn in Hrun by assumption.
      destruct (iteration remote testTargetId options v c)
        as [c1 [e | [f v1]]] eqn:Hturn; [discriminate|].
      destruct (iteration_returned _ _ _ _ _ Hturn)
        as (w' & page & Hresp & _ & _ & _ & Hcase & _).
      assert (Htracked1 : tracked v1).
      { destruct Hcase as [-> | (-> & _)]; [|assumption].
        apply absorbed_tracked; [|assumption].
        apply (Hserves _ _ _ _ Hresp). }
      destruct f.
      * now injection Hrun as _ <-.
      * apply (IH _ _ Htracked1 Hrun).
    + rewrite pagination_exit in Hrun by assumption.
      now injection Hrun as _ <-.
Qed.

Lemma trim_prefix (b : bound) (l : list OctomindTestReport.t) :
  trim b l `prefix_of` l.
Proof.
  unfold trim. destruct (exceeds (length l) b); [|reflexivity].
  destruct b as [|z]; [reflexivity|].
  unfold slice0. destruct (z <? 0)%Z; apply prefix_take.
Qed.

Lemma trim_sublist (b : bound) (l : list OctomindTestReport.t) :
  trim b l `sublist_of` l.
Proof.
  unfold trim. destruct (exceeds (length l) b); [|reflexivity].
  destruct b as [|z]; [reflexivity|].
  unfold slice0. destruct (z <? 0)%Z; apply sublist_take.
Qed.

(** Across pages no id is returned twice, provided no single page
    carries an id twice. *)
Lemma fetchAllTestReports_NoDup (fuel : nat) (c c' : Converter W)
    (reports : list OctomindTestReport.t) :
  serves_distinct remote ->
  fetchAllTestReports fuel remote testTargetId options c
    = Some (c', Returned reports) ->
  NoDup (map OctomindTestReport.id reports).
Proof.
  intros Hserves. unfold fetchAllTestReports, fetchAllTestReports_from.
  destruct (pagination fuel remote testTargetId options initial_vars c)
    as [[c1 [e|v1]]|] eqn:Hrun; try discriminate.
  intros [= <- <-].
  assert (Hinit : tracked initial_vars).
  { split; [constructor|]. intros r Hr. inversion Hr. }
  destruct (pagination_tracked _ _ _ _ _ Hserves Hinit Hrun) as [Hnodup _].
  apply (sublist_NoDup _ _ Hnodup), map_sublist, trim_sublist.
Qed.

Lemma maxReports_of_supplied (z : Z) :
  options ≫= maxReports = Some (Js.Num z) -> z <> 0%Z ->
  maxReports_of options = Finite z.
Proof.
  intros Hsupplied Hz. unfold maxReports_of. rewrite Hsupplied.
  destruct (Z.eqb_spec z 0); [contradiction|reflexivity].
Qed.

(** C4, as the code has it: when a positive maximum is supplied the loop
    always ends, and if it has gathered more reports than the maximum the
    list returned is the first [maxReports] of them, exactly that many.
    The cut is made once, after the loop: every turn of the loop appends
    all the new reports of the page it received. *)
Theorem truncation_to_max (z : Z) :
  options ≫= maxReports = Some (Js.Num z) ->
  (0 < z)%Z ->
  (forall (fuel : nat) (c : Converter W),
      (Z.to_nat z <= fuel)%nat ->
      exists c' outcome,
        pagination fuel remote testTargetId options initial_vars c
        = Some (c', outcome)
        /\ forall v',
            outcome = Returned v' ->
            (z < Z.of_nat (length (allReports v')))%Z ->
            fetchAllTestReports fuel remote testTargetId options c
            = Some (c', Returned (take (Z.to_nat z) (allReports v')))
            /\ length (take (Z.to_nat z) (allReports v')) = Z.to_nat z
            /\ take (Z.to_nat z) (allReports v') `prefix_of` allReports v')
  /\ (forall (v v' : Vars) (c c' : Converter W) (f : flow),
        iteration remote testTargetId options v c = (c', Returned (f, v')) ->
        exists w' page,
          getTestReports remote (net c) (page_request c testTargetId options v)
          = (w', Json page)
          /\ allReports v'
             = allReports v
                 ++ newReports_of (seenIds v)
                      (OctomindTestReportsPage.data page)).
Proof.
  intros Hsupplied Hpos.
  assert (Hmax : limit = Finite z)
    by (apply maxReports_of_supplied; [assumption | lia]).
  split.
  - intros fuel c Hfuel.
    destruct (pagination_terminates_capped z Hmax fuel initial_vars c)
      as [[c' outcome] Hrun]; [simpl; lia|].
    exists c', outcome. split; [exact Hrun|].
    intros v' -> Hmore.
    unfold fetchAllTestReports, fetchAllTestReports_from. rewrite Hrun.
    rewrite Hmax. unfold trim, exceeds, slice0.
    destruct (Z.ltb_spec z (Z.of_nat (length (allReports v')))); [|lia].
    destruct (Z.ltb_spec z 0); [lia|].
    split; [reflexivity|]. split; [|apply prefix_take].
    apply length_take_le. lia.
  - intros v v' c c' f Hturn.
    destruct (iteration_returned _ _ _ _ _ Hturn)
      as (w' & page & Hresp & _ & _ & Hall & _).
    exists w', page. split; assumption.
Qed.

End Pagination.

(** ** Runs against sample services *)

Lemma stubborn_serves_only (ids : list string)
    (answer : Response OctomindTestCase.t) :
  serves_only (Sample.stubborn ids answer) ids.
Proof.
  intros w req w' page [= _ <-] r Hr. simpl in Hr.
  apply (list_elem_of_fmap_1 Sample.report) in Hr as (i & -> & Hi).
  exact Hi.
Qed.

(** Two pages of twenty reports each, then no next page: forty reports in
    the order received. *)
Example two_pages_of_twenty :
  Sample.returned_ids
    (fetchAllTestReports 2
       (Sample.scripted
          [ Json (Sample.page (Sample.twenty "a") (Some "2024-01-02T00:00:00Z") true);
            Json (Sample.page (Sample.twenty "b") (Some "2024-01-01T00:00:00Z") false) ])
       "target-1" None (Sample.converter 0%nat))
  = Some (Sample.twenty "a" ++ Sample.twenty "b").
Proof. vm_compute. reflexivity. Qed.

(** A maximum of five against pages of twenty: five reports. *)
Example five_of_twenty :
  Sample.returned_ids
    (fetchAllTestReports 5
       (Sample.scripted
          [ Json (Sample.page (Sample.twenty "a") (Some "2024-01-02T00:00:00Z") true);
            Json (Sample.page (Sample.twenty "b") (Some "2024-01-01T00:00:00Z") false) ])
       "target-1" (Sample.capped 5) (Sample.converter 0%nat))
  = Some (take 5 (Sample.twenty "a")).
Proof. vm_compute. reflexivity. Qed.

(** C1 on the code: a page that carries the same report twice, both new,
    passes the filter whole, and the report is returned twice. *)
Theorem duplicate_within_page_returned :
  let remote := Sample.scripted [Json (Sample.page ["r1"; "r1"] None false)] in
  let run := fetchAllTestReports 1 remote "target-1" None
               (Sample.converter 0%nat) in
  (exists c', run = Some (c', Returned [Sample.report "r1"; Sample.report "r1"]))
  /\ Sample.returned_ids run = Some ["r1"; "r1"]
  /\ ~ NoDup ["r1"; "r1"].
Proof.
  intros remote run. split; [|split].
  - eexists. vm_compute. reflexivity.
  - vm_compute. reflexivity.
  - intros Hnodup. apply NoDup_cons in Hnodup as [Hnotin _].
    apply Hnotin. left.
Qed.

Lemma fetchAllTestReports_terminates_witness :
  let remote := Sample.stubborn ["r1"; "r2"] BadJson in
  serves_only remote ["r1"; "r2"]
  /\ exists c' outcome,
       fetchAllTestReports 3 remote "target-1" None (Sample.converter tt)
       = Some (c', outcome).
Proof.
  intros remote. split; [apply stubborn_serves_only|].
  destruct (fetchAllTestReports_terminates remote "target-1" None
              ["r1"; "r2"] (stubborn_serves_only _ _)) as (_ & Hends & _).
  apply Hends. simpl. lia.
Defined.

(** The service that sets the continuation flag on every page is left
    after the second request, with the first page's reports. *)
Example stubborn_run :
  Sample.returned_ids
    (fetchAllTestReports 3 (Sample.stubborn ["r1"; "r2"] BadJson)
       "target-1" None (Sample.converter tt))
  = Some ["r1"; "r2"].
Proof. vm_compute. reflexivity. Qed.

Lemma duplicate_page_stops_witness :
  let p1 := Sample.page ["r1"; "r2"] (Some "2024-01-02T00:00:00Z") true in
  let p2 := Sample.page ["r2"; "r1"] (Some "2024-01-01T00:00:00Z") true in
  let remote := Sample.scripted [Json p1; Json p2] in
  exists c',
    fetchAllTestReports 2 remote "target-1" None (Sample.converter 0%nat)
    = Some (c', Returned [Sample.report "r1"; Sample.report "r2"])
    /\ warnings c' = [duplicates_warning]
    /\ length (requests c') = 2%nat.
Proof.
  intros p1 p2 remote.
  destruct (duplicate_page_stops remote "target-1" None) as [_ Hsecond].
  apply (Hsecond (Sample.converter 0%nat) 1%nat 2%nat p1 p2 0%nat);
    try reflexivity; try discriminate.
  repeat constructor.
Defined.

Lemma truncation_to_max_witness :
  let remote :=
    Sample.scripted
      [Json (Sample.page ["r1"; "r2"; "r3"] (Some "2024-01-02T00:00:00Z") true)] in
  exists c',
    fetchAllTestReports 2 remote "target-1" (Sample.capped 2)
      (Sample.converter 0%nat)
    = Some (c', Returned [Sample.report "r1"; Sample.report "r2"]).
Proof.
  intros remote.
  destruct (truncation_to_max remote "target-1" (Sample.capped 2) 2
              eq_refl ltac:(lia)) as [Hcut _].
  destruct (Hcut 2%nat (Sample.converter 0%nat) ltac:(simpl; lia))
    as (c' & outcome & Hrun & Hcount).
  vm_compute in Hrun. injection Hrun as <- <-.
  destruct (Hcount _ eq_refl ltac:(simpl; lia)) as [Hfetch _].
  eexists. exact Hfetch.
Defined.

(** C4 as stated fails: a maximum of zero counts as no maximum, so the
    two reports gathered, more than zero, are returned untrimmed. *)
Lemma zero_maximum_counterexample :
  let remote := Sample.scripted [Json (Sample.page ["r1"; "r2"] None false)] in
  let c := Sample.converter 0%nat in
  (Sample.capped 0 ≫= maxReports) = Some (Js.Num 0)
  /\ (exists c' v',
        pagination 1 remote "target-1" (Sample.capped 0) initial_vars c
        = Some (c', Returned v')
        /\ length (allReports v') = 2%nat)
  /\ Sample.returned_ids
       (fetchAllTestReports 1 remote "target-1" (Sample.capped 0) c)
     = Some ["r1"; "r2"].
Proof.
  intros remote c. split; [reflexivity|]. split.
  - eexists _, _. split; [vm_compute; reflexivity | reflexivity].
  - vm_compute. reflexivity.
Qed.


(** * Further properties of the code *)

(** ** Step translator: composition *)

Lemma steps_from_app (l1 l2 : list OctomindTestStep.t) (t : Double.t) :
  steps_from (l1 ++ l2) t = steps_from l1 t ++ steps_from l2 (elapsed l1 t).
Proof.
  revert t. induction l1 as [|step rest IH]; intros t; [reflexivity|].
  simpl. now rewrite IH.
Qed.

Lemma steps_from_last (l : list OctomindTestStep.t) (t : Double.t)
    (s : AllureStep.t) :
  last (steps_from l t) = Some s -> AllureStep.stop s = elapsed l t.
Proof.
  revert t. induction l as [|step rest IH]; intros t; [discriminate|].
  destruct rest as [|step' rest'].
  - intros [= <-]. reflexivity.
  - intros Hlast. apply (IH _ Hlast).
Qed.

(** X1: translating a step list in two parts gives the same steps as
    translating it whole, when the second part starts at the time the
    first part has reached; and the last step stops at the time reached
    by adding the durations to the start one after the other, in the
    order of the steps, every sum rounded to a double (which need not be
    the start plus the sum of the durations: [steps_ten_fractions]). *)
Theorem convertSteps_app (l1 l2 : list OctomindTestStep.t) (t : Double.t) :
  convertSteps (Some (l1 ++ l2)) t
  = convertSteps (Some l1) t ++ convertSteps (Some l2) (elapsed l1 t)
  /\ (forall s, last (convertSteps (Some (l1 ++ l2)) t) = Some s ->
                AllureStep.stop s = elapsed l2 (elapsed l1 t)).
Proof.
  rewrite !convertSteps_steps_from. split; [apply steps_from_app|].
  intros s Hlast. apply steps_from_last in Hlast.
  rewrite Hlast. unfold elapsed, durations. now rewrite map_app, fold_left_app.
Qed.

(** X2: the output steps mirror the source steps one for one and in
    order: same names, statuses mapped by the status mapper, every stage
    [finished], and a status-detail block exactly on the steps that carry
    a non-empty error; none of this depends on the timestamps. *)
Theorem convertSteps_mirror (l : list OctomindTestStep.t) (t : Double.t) :
  map AllureStep.name (convertSteps (Some l) t) = map OctomindTestStep.name l
  /\ map AllureStep.status (convertSteps (Some l) t)
     = map (fun step => convertStatus (OctomindTestStep.status step)) l
  /\ Forall (fun s => AllureStep.stage s = finished) (convertSteps (Some l) t)
  /\ map (fun s => AllureStatusDetails.message <$> AllureStep.statusDetails s)
         (convertSteps (Some l) t)
     = map (fun step => if Js.truthy_str (OctomindTestStep.error step)
                        then Some (OctomindTestStep.error step) else None) l.
Proof.
  rewrite convertSteps_steps_from. revert t.
  induction l as [|step rest IH]; intros t.
  - repeat split. constructor.
  - destruct (IH (Double.add t (Double.or_zero (OctomindTestStep.duration step))))
      as (Hn & Hs & Hf & Hd).
    simpl. rewrite Hn, Hs, Hd. repeat split.
    + constructor; [reflexivity|assumption].
    + f_equal. now destruct (Js.truthy_str (OctomindTestStep.error step)).
Qed.

(** ** Record translator: labels, names and links *)

Lemma tag_labels_values (tags : list OctomindTestCaseTag.t) :
  map AllureLabel.value (tag_labels (Some tags))
  = map OctomindTestCaseTag.value
      (filter (fun tag => OctomindTestCaseTag.type tag = "TEXT") tags).
Proof.
  induction tags as [|tag rest IH]; [reflexivity|].
  simpl in *. rewrite filter_cons, map_app, IH.
  destruct (String.eqb_spec (OctomindTestCaseTag.type tag) "TEXT") as [Heq|Hne];
    destruct (decide _); try contradiction; reflexivity.
Qed.

Lemma tag_labels_named (tags : option (list OctomindTestCaseTag.t)) :
  Forall (fun lb => AllureLabel.name lb = "tag") (tag_labels tags).
Proof.
  destruct tags as [l|]; [|constructor].
  induction l as [|tag rest IH]; [constructor|].
  simpl in *. apply Forall_app. split; [|exact IH].
  destruct (String.eqb _ "TEXT"); repeat constructor.
Qed.

Lemma filter_all {A : Type} (P : A -> Prop) `{!forall x, Decision (P x)}
    (l : list A) :
  Forall P l -> filter P l = l.
Proof.
  induction 1 as [|x l Hx _ IH]; [reflexivity|].
  now rewrite filter_cons_True, IH.
Qed.

Lemma tag_labels_length (tags : list OctomindTestCaseTag.t) :
  length (tag_labels (Some tags))
  = length (filter (fun tag => OctomindTestCaseTag.type tag = "TEXT") tags).
Proof.
  rewrite <- (length_map AllureLabel.value), tag_labels_values.
  apply length_map.
Qed.

(** X3: the labels of an output result are the seven fixed ones, then a
    breakpoint and a browser label when the report has them, then one
    [tag] label per case tag of type [TEXT]: the labels named [tag] carry
    exactly the values of those tags, in their order and with their
    repetitions, and no other label is named [tag]. *)
Theorem labels_carry_text_tags (env : Env) (testResult : OctomindTestResult.t)
    (testReport : OctomindTestReport.t) (testCase : OctomindTestCase.t)
    (testTarget : OctomindTestTarget.t) :
  let out := convertTestResult env testResult testReport testCase testTarget in
  let texts :=
    filter (fun tag => OctomindTestCaseTag.type tag = "TEXT")
           (default [] (OctomindTestCase.tags testCase)) in
  take 7 (AllureTestResult.labels out)
  = fixed_labels testResult testTarget (AllureTestResult.name out)
  /\ map AllureLabel.value
       (filter (fun lb => AllureLabel.name lb = "tag")
               (AllureTestResult.labels out))
     = map OctomindTestCaseTag.value texts
  /\ length (AllureTestResult.labels out)
     = (7 + (if Js.truthy_str (OctomindTestReport.breakpoint testReport)
             then 1 else 0)
          + (if Js.truthy_str (OctomindTestReport.browserType testReport)
             then 1 else 0)
          + length texts)%nat.
Proof.
  cbv zeta. cbn [convertTestResult AllureTestResult.labels AllureTestResult.name].
  unfold labels_of.
  split; [reflexivity|]. split.
  - rewrite !filter_app, (filter_all _ _ (tag_labels_named _)).
    replace (map OctomindTestCaseTag.value _)
      with (map AllureLabel.value (tag_labels (OctomindTestCase.tags testCase)))
      by (destruct (OctomindTestCase.tags testCase);
          [apply tag_labels_values | reflexivity]).
    destruct (OctomindTestReport.breakpoint testReport) as [[|a b]|];
      destruct (OctomindTestReport.browserType testReport) as [[|a' b']|];
      reflexivity.
  - rewrite !length_app.
    replace (length (filter _ _))
      with (length (tag_labels (OctomindTestCase.tags testCase)))
      by (destruct (OctomindTestCase.tags testCase);
          [apply tag_labels_length | reflexivity]).
    destruct (OctomindTestReport.breakpoint testReport) as [[|a b]|];
      destruct (OctomindTestReport.browserType testReport) as [[|a' b']|];
      simpl; lia.
Qed.

(** X4: the display name of an output result is the first non-empty of
    the case description, the case name and the result's case id, so it
    is not empty as soon as the result's case id is not; the full name is
    the application name, a dot and that display name. *)
Theorem display_name_non_empty (env : Env) (testResult : OctomindTestResult.t)
    (testReport : OctomindTestReport.t) (testCase : OctomindTestCase.t)
    (testTarget : OctomindTestTarget.t) :
  OctomindTestResult.testCaseId testResult <> EmptyString ->
  let out := convertTestResult env testResult testReport testCase testTarget in
  AllureTestResult.name out <> EmptyString
  /\ AllureTestResult.fullName out
     = OctomindTestTarget.app testTarget +:+ "." +:+ AllureTestResult.name out
  /\ (Js.truthy_str (OctomindTestCase.description testCase) = true ->
      Some (AllureTestResult.name out) = OctomindTestCase.description testCase)
  /\ (Js.truthy_str (OctomindTestCase.description testCase) = false ->
      OctomindTestCase.name testCase <> EmptyString ->
      AllureTestResult.name out = OctomindTestCase.name testCase)
  /\ (Js.truthy_str (OctomindTestCase.description testCase) = false ->
      OctomindTestCase.name testCase = EmptyString ->
      AllureTestResult.name out = OctomindTestResult.testCaseId testResult).
Proof.
  intros Hid. cbv zeta.
  cbn [convertTestResult AllureTestResult.name AllureTestResult.fullName].
  unfold testName_of.
  destruct (OctomindTestCase.description testCase) as [[|a d]|];
    destruct (OctomindTestCase.name testCase) as [|b n];
    simpl; repeat split; try discriminate; try congruence.
Qed.

Lemma display_name_non_empty_witness :
  let out := convertTestResult Sample.env
               (Sample.test_result None None None)
               (Sample.report "report-1")
               (synthetic_case "case-1") Sample.test_target in
  AllureTestResult.name out = "case-1"
  /\ AllureTestResult.fullName out = "MyApp.case-1".
Proof.
  intros out.
  destruct (display_name_non_empty Sample.env
              (Sample.test_result None None None) (Sample.report "report-1")
              (synthetic_case "case-1") Sample.test_target)
    as (_ & Hfull & _ & Hname & _); [discriminate|].
  split; [apply Hname; [reflexivity|discriminate] | exact Hfull].
Defined.

(** X5: the links of an output result start with the navigation link to
    the report, built from the result's target id and the report's id;
    a trace link follows when the result has a non-empty trace URL, then
    a [tms] link when the case has a non-empty external id, and there is
    no other link. *)
Theorem links_shape (env : Env) (testResult : OctomindTestResult.t)
    (testReport : OctomindTestReport.t) (testCase : OctomindTestCase.t)
    (testTarget : OctomindTestTarget.t) :
  let out := convertTestResult env testResult testReport testCase testTarget in
  exists rest,
    AllureTestResult.links out = navigation_link testResult testReport :: rest
    /\ length rest
       = ((if Js.truthy_str (OctomindTestResult.traceUrl testResult)
           then 1 else 0)
          + (if Js.truthy_str (OctomindTestCase.externalId testCase)
             then 1 else 0))%nat
    /\ (Js.truthy_str (OctomindTestResult.traceUrl testResult) = true ->
        AllureLink.url <$> head rest = OctomindTestResult.traceUrl testResult)
    /\ (Js.truthy_str (OctomindTestCase.externalId testCase) = true ->
        AllureLink.name <$> last rest = OctomindTestCase.externalId testCase
        /\ AllureLink.type <$> last rest = Some "tms")
    /\ (Js.truthy_str (OctomindTestCase.externalId testCase) = false ->
        Forall (fun l => AllureLink.type l = "link")
               (AllureTestResult.links out)).
Proof.
  cbv zeta. cbn [convertTestResult AllureTestResult.links]. unfold links_of.
  eexists. split; [reflexivity|].
  destruct (OctomindTestResult.traceUrl testResult) as [[|a u]|];
    destruct (OctomindTestCase.externalId testCase) as [[|b e]|];
    simpl; repeat split; try discriminate; repeat constructor.
Qed.

(** ** Case cache: what lookups keep *)

Section CacheKeeps.
Context {W : Type} (remote : Remote W).

Lemma fetchTestCase_keeps (testTargetId testCaseId : string) (c : Converter W) :
  let c' := (fetchTestCase remote testTargetId testCaseId c).1 in
  testCaseCache c ⊆ testCaseCache c'
  /\ apiKey c' = apiKey c /\ apiBaseUrl c' = apiBaseUrl c
  /\ warnings c' = warnings c.
Proof.
  unfold fetchTestCase.
  destruct (testCaseCache c !! cacheKey_of testTargetId testCaseId) eqn:Hlookup;
    [simpl; auto|].
  unfold bind, fetch, cache_set, ret, throw.
  destruct (getTestCase remote (net c) _) as [w' [| status text | | body]];
    simpl; repeat split; try reflexivity;
    now apply insert_subseteq.
Qed.

(** X6: a cache entry, once there, stays: whatever lookups follow and
    however they end, every entry of the cache is still there with the
    same case, and the converter's key and base URL are untouched. *)
Theorem cache_entries_stay (pairs : list (string * string)) (c : Converter W) :
  testCaseCache c ⊆ testCaseCache (after_lookups remote pairs c)
  /\ (forall k cached,
        testCaseCache c !! k = Some cached ->
        testCaseCache (after_lookups remote pairs c) !! k = Some cached)
  /\ apiKey (after_lookups remote pairs c) = apiKey c
  /\ apiBaseUrl (after_lookups remote pairs c) = apiBaseUrl c.
Proof.
  assert (Hall : testCaseCache c ⊆ testCaseCache (after_lookups remote pairs c)
                 /\ apiKey (after_lookups remote pairs c) = apiKey c
                 /\ apiBaseUrl (after_lookups remote pairs c) = apiBaseUrl c).
  { revert c. induction pairs as [|[t k] rest IH]; intros c; [auto|].
    unfold after_lookups in *. simpl.
    destruct (fetchTestCase_keeps t k c) as (Hsub & Hkey & Hbase & _).
    destruct (IH (fetchTestCase remote t k c).1) as (Hsub' & Hkey' & Hbase').
    split; [etrans; eassumption|]. split; congruence. }
  destruct Hall as (Hsub & Hkey & Hbase).
  split; [exact Hsub|]. split; [|split; assumption].
  intros k cached Hk. eapply lookup_weaken; eassumption.
Qed.

(** X7: a lookup that raises has sent its one request and has cached
    nothing, so the next lookup of the pair asks the service again. *)
Theorem failed_lookup_caches_nothing (testTargetId testCaseId : string)
    (c c' : Converter W) (e : Error) :
  fetchTestCase remote testTargetId testCaseId c = (c', Threw e) ->
  testCaseCache c' = testCaseCache c
  /\ testCaseCache c !! cacheKey_of testTargetId testCaseId = None
  /\ requests c' = requests c ++ [testCase_request c testTargetId testCaseId]
  /\ (e = FetchRejected \/ e = JsonRejected)
  /\ requests (fetchTestCase remote testTargetId testCaseId c').1
     = requests c' ++ [testCase_request c' testTargetId testCaseId].
Proof.
  unfold fetchTestCase at 1.
  destruct (testCaseCache c !! cacheKey_of testTargetId testCaseId) eqn:Hlookup;
    [discriminate|].
  unfold bind, fetch, cache_set, ret, throw.
  destruct (getTestCase remote (net c) _) as [w' [| status text | | body]] eqn:Hresp;
    simpl; intros [= <- <-]; simpl.
  all: split; [reflexivity|]; split; [reflexivity|]; split; [reflexivity|];
       split; [auto|].
  all: unfold fetchTestCase; simpl; rewrite Hlookup;
       unfold bind, fetch, cache_set, ret, throw; simpl;
       destruct (getTestCase remote w' _) as [w2 [| s2 t2 | | b2]];
       reflexivity.
Qed.

End CacheKeeps.

Lemma failed_lookup_caches_nothing_witness :
  let remote := Sample.stubborn [] NetworkError in
  let c := Sample.converter tt in
  let c' := (fetchTestCase remote "target-1" "case-1" c).1 in
  testCaseCache c' = testCaseCache c
  /\ length (requests c') = 1%nat
  /\ length (requests (fetchTestCase remote "target-1" "case-1" c').1) = 2%nat.
Proof.
  intros remote c c'.
  destruct (failed_lookup_caches_nothing remote "target-1" "case-1" c c'
              FetchRejected eq_refl) as (Hcache & _ & Hreq & _ & Hagain).
  split; [exact Hcache|]. split; [now rewrite Hreq|].
  now rewrite Hagain, Hreq.
Defined.

Lemma append_colon_inj (t1 t2 c1 c2 : string) :
  colon_free t1 = true -> colon_free t2 = true ->
  t1 +:+ ":" +:+ c1 = t2 +:+ ":" +:+ c2 ->
  t1 = t2 /\ c1 = c2.
Proof.
  revert t2. induction t1 as [|a t1 IH]; intros [|b t2] H1 H2 Heq.
  - change (String ":" c1 = String ":" c2) in Heq. now injection Heq as ->.
  - change (String ":" c1 = String b (t2 +:+ ":" +:+ c2)) in Heq.
    injection Heq as <- _. discriminate.
  - change (String a (t1 +:+ ":" +:+ c1) = String ":" c2) in Heq.
    injection Heq as -> _. discriminate.
  - change (String a (t1 +:+ ":" +:+ c1) = String b (t2 +:+ ":" +:+ c2)) in Heq.
    injection Heq as <- Heq.
    cbn [colon_free] in H1, H2.
    apply andb_true_iff in H1 as [_ H1]. apply andb_true_iff in H2 as [_ H2].
    destruct (IH t2 H1 H2 Heq) as [-> ->]. auto.
Qed.

(** X8: the cache key and the text hashed into the history id are the
    same string, target id, a colon, case id.  When the target ids hold
    no colon, two pairs with the same key are the same pair, so distinct
    pairs never share a cache entry; with a colon in a target id they
    can. *)
Theorem cache_key_injective (t1 t2 c1 c2 : string) :
  colon_free t1 = true -> colon_free t2 = true ->
  (cacheKey_of t1 c1 = cacheKey_of t2 c2 -> t1 = t2 /\ c1 = c2)
  /\ generateHistoryId t1 c1 = MD5.hexdigest (cacheKey_of t1 c1)
  /\ cacheKey_of "a:b" "c" = cacheKey_of "a" "b:c".
Proof.
  intros H1 H2. split; [apply append_colon_inj; assumption|].
  split; reflexivity.
Qed.

Lemma cache_key_injective_witness :
  colon_free "target-1" = true
  /\ cacheKey_of "target-1" "case:1" = "target-1:case:1"
  /\ generateHistoryId "target-1" "case:1"
     = MD5.hexdigest (cacheKey_of "target-1" "case:1").
Proof.
  split; [reflexivity|]. split; [reflexivity|].
  exact (proj1 (proj2 (cache_key_injective "target-1" "target-1"
                         "case:1" "case:1" eq_refl eq_refl))).
Defined.

(** ** Pagination engine: bounds, failures and the last page *)

Section PaginationBounds.
Context {W : Type} (remote : Remote W) (testTargetId : string)
        (options : option AllOptions).

Local Abbreviation limit := (maxReports_of options).

(** What a turn comes to when the page request fails. *)
Lemma iteration_failed (v : Vars) (c : Converter W) (w' : W)
    (resp : Response OctomindTestReportsPage.t) :
  getTestReports remote (net c) (page_request c testTargetId options v)
    = (w', resp) ->
  (forall page, resp <> Json page) ->
  iteration remote testTargetId options v c
  = (with_request c (page_request c testTargetId options v) w',
     Threw match resp with
           | NotOk status statusText =>
               HttpError "Failed to fetch test reports" status statusText
           | BadJson => JsonRejected
           | _ => FetchRejected
           end).
Proof.
  intros Hresp Hfail.
  unfold iteration, fetchTestReports, bind, fetch.
  fold (page_request c testTargetId options v). rewrite Hresp.
  destruct resp as [| status text | | page]; try reflexivity.
  now destruct (Hfail page).
Qed.

(** Every turn of the loop sends one request, however it ends. *)
Lemma iteration_one_request (v : Vars) (c : Converter W) :
  length (requests (iteration remote testTargetId options v c).1)
  = S (length (requests c)).
Proof.
  assert (Hsent : forall w' (c0 : Converter W),
             length (requests (with_request c0
                                 (page_request c0 testTargetId options v) w'))
             = S (length (requests c0))).
  { intros w' c0. simpl. rewrite length_app. simpl. lia. }
  destruct (getTestReports remote (net c) (page_request c testTargetId options v))
    as [w' resp] eqn:Hresp.
  destruct resp as [| status text | | page].
  1-3: rewrite (iteration_failed _ _ _ _ Hresp) by discriminate; apply Hsent.
  rewrite (iteration_page _ _ _ _ _ _ _ Hresp). cbv zeta.
  repeat match goal with |- context [if ?b then _ else _] => destruct b end;
    apply Hsent.
Qed.

Lemma pagination_requests_capped (z : Z) :
  limit = Finite z ->
  forall (fuel : nat) (v : Vars) (c c' : Converter W) (out : result Vars),
    pagination fuel remote testTargetId options v c = Some (c', out) ->
    (Z.of_nat (length (requests c'))
     <= Z.of_nat (length (requests c))
        + Z.max 0 (z - Z.of_nat (length (allReports v))))%Z.
Proof.
  intros Hmax. induction fuel as [|fuel IH]; intros v c c' out Hrun.
  - destruct (loop_condition limit v) eqn:Hcond.
    + simpl in Hrun. rewrite Hcond in Hrun. discriminate.
    + rewrite pagination_exit in Hrun by assumption.
      injection Hrun as <- _. lia.
  - destruct (loop_condition limit v) eqn:Hcond.
    + rewrite pagination_turn in Hrun by assumption.
      pose proof (iteration_one_request v c) as Hone.
      assert (Hroom : (Z.of_nat (length (allReports v)) < z)%Z).
      { apply andb_true_iff in Hcond as [_ Hbelow].
        rewrite Hmax in Hbelow. now apply Z.ltb_lt in Hbelow. }
      destruct (iteration remote testTargetId options v c)
        as [c1 [e | [[|] v1]]] eqn:Hturn; simpl in Hone.
      * injection Hrun as <- _. lia.
      * injection Hrun as <- _. lia.
      * destruct (loop_condition limit v1) eqn:Hcond1.
        -- destruct (iteration_progress _ _ _ _ _ _ _ Hturn Hcond1)
             as (_ & Hlen & _).
           specialize (IH _ _ _ _ Hrun). lia.
        -- rewrite pagination_exit in Hrun by assumption.
           injection Hrun as <- _. lia.
    + rewrite pagination_exit in Hrun by assumption.
      injection Hrun as <- _. lia.
Qed.

(** X9: a supplied maximum other than zero bounds what is returned: the
    list [fetchAllTestReports] returns never holds more reports than the
    maximum (none at all when the maximum is negative). *)
Theorem returned_at_most_max (z : Z) (fuel : nat) (c c' : Converter W)
    (reports : list OctomindTestReport.t) :
  options ≫= maxReports = Some (Js.Num z) ->
  z <> 0%Z ->
  fetchAllTestReports fuel remote testTargetId options c
    = Some (c', Returned reports) ->
  (length reports <= Z.to_nat z)%nat.
Proof.
  intros Hsupplied Hz.
  pose proof (maxReports_of_supplied _ _ Hsupplied Hz) as Hmax.
  unfold fetchAllTestReports, fetchAllTestReports_from.
  destruct (pagination fuel remote testTargetId options initial_vars c)
    as [[c1 [e|v1]]|] eqn:Hrun; try discriminate.
  intros [= <- <-]. rewrite Hmax.
  destruct (Z.ltb_spec z 0) as [Hneg|Hpos].
  - rewrite pagination_exit in Hrun.
    + injection Hrun as _ <-. unfold trim, slice0. simpl.
      repeat case_match; rewrite ?take_nil; simpl; lia.
    + unfold loop_condition. rewrite Hmax. simpl.
      apply Z.ltb_ge. lia.
  - unfold trim, exceeds, slice0.
    destruct (Z.ltb_spec z (Z.of_nat (length (allReports v1)))).
    + destruct (Z.ltb_spec z 0); [lia|]. rewrite length_take. lia.
    + lia.
Qed.

(** X10: a supplied positive maximum bounds the traffic: the engine sends
    at most that many page requests, whatever the service answers. *)
Theorem requests_at_most_max (z : Z) (fuel : nat) (c c' : Converter W)
    (out : result (list OctomindTestReport.t)) :
  options ≫= maxReports = Some (Js.Num z) ->
  (0 < z)%Z ->
  fetchAllTestReports fuel remote testTargetId options c = Some (c', out) ->
  (length (requests c') <= length (requests c) + Z.to_nat z)%nat.
Proof.
  intros Hsupplied Hz.
  assert (Hmax : limit = Finite z)
    by (apply maxReports_of_supplied; [assumption|lia]).
  unfold fetchAllTestReports, fetchAllTestReports_from.
  destruct (pagination fuel remote testTargetId options initial_vars c)
    as [[c1 r]|] eqn:Hrun; [|discriminate].
  pose proof (pagination_requests_capped z Hmax _ _ _ _ _ Hrun) as Hle.
  simpl in Hle. destruct r; intros [= <- _]; lia.
Qed.

Lemma pagination_served (P : OctomindTestReport.t -> Prop) :
  serves_where remote P ->
  forall (fuel : nat) (v v' : Vars) (c c' : Converter W),
    Forall P (allReports v) ->
    pagination fuel remote testTargetId options v c = Some (c', Returned v') ->
    Forall P (allReports v').
Proof.
  intros Hserves. induction fuel as [|fuel IH]; intros v v' c c' HP Hrun.
  - destruct (loop_condition limit v) eqn:Hcond.
    + simpl in Hrun. rewrite Hcond in Hrun. discriminate.
    + rewrite pagination_exit in Hrun by assumption.
      now injection Hrun as _ <-.
  - destruct (loop_condition limit v) eqn:Hcond.
    + rewrite pagination_turn in Hrun by assumption.
      destruct (iteration remote testTargetId options v c)
        as [c1 [e | [f v1]]] eqn:Hturn; [discriminate|].
      destruct (iteration_returned _ _ _ _ _ _ _ _ Hturn)
        as (w' & page & Hresp & _ & _ & Hall & _).
      assert (HP1 : Forall P (allReports v1)).
      { rewrite Hall. apply Forall_app. split; [assumption|].
        apply Forall_forall. intros r Hr.
        apply newReports_fresh in Hr as [_ Hr].
        apply (Hserves _ _ _ _ Hresp r Hr). }
      destruct f.
      * now injection Hrun as _ <-.
      * apply (IH _ _ _ _ HP1 Hrun).
    + rewrite pagination_exit in Hrun by assumption.
      now injection Hrun as _ <-.
Qed.

(** X11: the engine returns nothing of its own making: every report it
    returns was served in some page, so whatever holds of all the reports
    the service serves holds of all the reports returned. *)
Theorem returned_were_served (P : OctomindTestReport.t -> Prop)
    (fuel : nat) (c c' : Converter W) (reports : list OctomindTestReport.t) :
  serves_where remote P ->
  fetchAllTestReports fuel remote testTargetId options c
    = Some (c', Returned reports) ->
  Forall P reports.
Proof.
  intros Hserves. unfold fetchAllTestReports, fetchAllTestReports_from.
  destruct (pagination fuel remote testTargetId options initial_vars c)
    as [[c1 [e|v1]]|] eqn:Hrun; try discriminate.
  intros [= <- <-].
  assert (Hnone : Forall P (allReports initial_vars)) by constructor.
  pose proof (pagination_served P Hserves _ _ _ _ _ Hnone Hrun) as HP.
  rewrite Forall_forall in *. intros r Hr. apply HP.
  eapply elem_of_sublist; [exact Hr | apply trim_sublist].
Qed.

(** X12: an empty page with the continuation flag set stops the engine:
    it warns that there is no progress and returns (it does not raise)
    the reports gathered so far, having sent that one request. *)
Theorem empty_page_with_flag_stops (v : Vars) (c : Converter W) (w' : W)
    (page : OctomindTestReportsPage.t) (fuel : nat) :
  loop_condition (maxReports_of options) v = true ->
  getTestReports remote (net c) (page_request c testTargetId options v)
    = (w', Json page) ->
  OctomindTestReportsPage.data page = [] ->
  OctomindTestReportsPage.hasNextPage page = true ->
  exists c',
    fetchAllTestReports_from (S fuel) remote testTargetId options v c
    = Some (c', Returned (allReports v))
    /\ warnings c' = warnings c ++ [no_progress_warning]
    /\ requests c' = requests c ++ [page_request c testTargetId options v].
Proof.
  intros Hcond Hresp Hdata Hnext.
  unfold fetchAllTestReports_from.
  rewrite pagination_turn by assumption.
  rewrite (iteration_page _ _ _ _ _ _ _ Hresp). cbv zeta.
  assert (Hall : allReports (absorbed v page) = allReports v).
  { unfold absorbed; simpl. rewrite Hdata. apply app_nil_r. }
  rewrite Hall, Hdata, Hnext. simpl.
  apply andb_true_iff in Hcond as [_ Hbelow].
  destruct (below_not_reached _ _ Hbelow) as [-> _].
  rewrite Hall, trim_below by assumption.
  eexists. split; [reflexivity|]. split; reflexivity.
Qed.

(** X13: a page with the continuation flag cleared is the last one asked
    for: unless it is a page of duplicates only, its new reports are
    appended and the list, cut to the maximum if it exceeds it, is
    returned without a warning. *)
Theorem last_page_ends (v : Vars) (c : Converter W) (w' : W)
    (page : OctomindTestReportsPage.t) (fuel : nat) :
  loop_condition (maxReports_of options) v = true ->
  getTestReports remote (net c) (page_request c testTargetId options v)
    = (w', Json page) ->
  OctomindTestReportsPage.hasNextPage page = false ->
  (newReports_of (seenIds v) (OctomindTestReportsPage.data page) <> []
   \/ OctomindTestReportsPage.data page = []) ->
  exists c',
    fetchAllTestReports_from (S fuel) remote testTargetId options v c
    = Some (c', Returned
                  (trim (maxReports_of options)
                     (allReports v
                        ++ newReports_of (seenIds v)
                             (OctomindTestReportsPage.data page))))
    /\ warnings c' = warnings c
    /\ requests c' = requests c ++ [page_request c testTargetId options v].
Proof.
  intros Hcond Hresp Hnext Hfresh.
  unfold fetchAllTestReports_from.
  rewrite pagination_turn by assumption.
  rewrite (iteration_page _ _ _ _ _ _ _ Hresp). cbv zeta.
  assert (Hdup : (length (newReports_of (seenIds v)
                            (OctomindTestReportsPage.data page)) =? 0)
                 && (0 <? length (OctomindTestReportsPage.data page)) = false).
  { destruct Hfresh as [Hnew | ->]; [|apply andb_false_r].
    destruct (newReports_of _ _); [contradiction|reflexivity]. }
  rewrite Hdup, Hnext, andb_false_r.
  change (allReports (absorbed v page))
    with (allReports v ++ newReports_of (seenIds v)
                            (OctomindTestReportsPage.data page)).
  destruct (reached _ _).
  - eexists. split; [reflexivity|]. split; reflexivity.
  - rewrite pagination_exit.
    + eexists. split; [reflexivity|]. split; reflexivity.
    + unfold loop_condition, absorbed; simpl. now rewrite Hnext.
Qed.

(** X14: a page request that fails is fatal: whatever has been gathered,
    the engine raises, with the status of the response when the service
    answered outside 2xx, and returns no report. *)
Theorem page_failure_is_fatal (v : Vars) (c : Converter W) (w' : W)
    (resp : Response OctomindTestReportsPage.t) (fuel : nat) :
  loop_condition (maxReports_of options) v = true ->
  getTestReports remote (net c) (page_request c testTargetId options v)
    = (w', resp) ->
  (forall page, resp <> Json page) ->
  exists c' e,
    fetchAllTestReports_from (S fuel) remote testTargetId options v c
    = Some (c', Threw e)
    /\ (forall status statusText,
          resp = NotOk status statusText ->
          e = HttpError "Failed to fetch test reports" status statusText)
    /\ (resp = NetworkError -> e = FetchRejected)
    /\ (resp = BadJson -> e = JsonRejected)
    /\ warnings c' = warnings c
    /\ testCaseCache c' = testCaseCache c.
Proof.
  intros Hcond Hresp Hfail.
  unfold fetchAllTestReports_from.
  rewrite pagination_turn by assumption.
  rewrite (iteration_failed _ _ _ _ Hresp Hfail).
  eexists _, _. split; [reflexivity|].
  repeat split; try reflexivity; intros; subst; reflexivity.
Qed.

End PaginationBounds.

(** ** Pagination engine: nothing is left out *)

Lemma newReports_all_fresh (seen : gset string)
    (data : list OctomindTestReport.t) :
  (forall r, r ∈ data -> OctomindTestReport.id r ∉ seen) ->
  newReports_of seen data = data.
Proof.
  intros Hfresh. unfold newReports_of. apply filter_all.
  now apply Forall_forall.
Qed.

Lemma scripted_answer (done rest : list OctomindTestReportsPage.t)
    (p : OctomindTestReportsPage.t) (req : Request) :
  getTestReports (Sample.scripted (map Json (done ++ p :: rest)))
    (length done) req
  = (S (length done), Json p).
Proof.
  simpl. f_equal. rewrite map_app. simpl.
  rewrite <- (length_map Json done). apply nth_middle.
Qed.

Section Enumeration.
Context (testTargetId : string) (options : option AllOptions).
Hypothesis unlimited : maxReports_of options = Infinity.

(** A turn on a page of reports not seen before, with no maximum. *)
Lemma iteration_fresh_page {W : Type} (remote : Remote W) (v : Vars)
    (c : Converter W) (w' : W) (page : OctomindTestReportsPage.t) :
  getTestReports remote (net c) (page_request c testTargetId options v)
    = (w', Json page) ->
  (forall r, r ∈ OctomindTestReportsPage.data page ->
             OctomindTestReport.id r ∉ seenIds v) ->
  OctomindTestReportsPage.data page <> []
  \/ OctomindTestReportsPage.hasNextPage page = false ->
  iteration remote testTargetId options v c
  = (with_request c (page_request c testTargetId options v) w',
     Returned (Next, absorbed v page))
  /\ allReports (absorbed v page)
     = allReports v ++ OctomindTestReportsPage.data page.
Proof.
  intros Hresp Hfresh Hshape.
  assert (Hall : allReports (absorbed v page)
                 = allReports v ++ OctomindTestReportsPage.data page).
  { unfold absorbed; simpl. now rewrite newReports_all_fresh. }
  split; [|exact Hall].
  rewrite (iteration_page _ _ _ _ _ _ _ Hresp). cbv zeta.
  rewrite newReports_all_fresh by assumption. rewrite unlimited. simpl.
  destruct (OctomindTestReportsPage.data page) as [|r l]; [|reflexivity].
  destruct Hshape as [Hdata | ->]; [contradiction|reflexivity].
Qed.

Lemma scripted_enumeration (pages : list OctomindTestReportsPage.t)
    (last : OctomindTestReportsPage.t) :
  Forall (fun p => OctomindTestReportsPage.hasNextPage p = true
                   /\ OctomindTestReportsPage.data p <> []) pages ->
  OctomindTestReportsPage.hasNextPage last = false ->
  forall (done : list OctomindTestReportsPage.t) (v : Vars)
         (c : Converter nat) (fuel : nat),
    net c = length done ->
    hasNextPage v = true ->
    (forall x, x ∈ seenIds v -> x ∈ map OctomindTestReport.id (allReports v)) ->
    NoDup (map OctomindTestReport.id
             (allReports v
                ++ concat (map OctomindTestReportsPage.data (pages ++ [last])))) ->
    (length pages < fuel)%nat ->
    exists c' v',
      pagination fuel
        (Sample.scripted (map Json (done ++ pages ++ [last])))
        testTargetId options v c
      = Some (c', Returned v')
      /\ allReports v'
         = allReports v
             ++ concat (map OctomindTestReportsPage.data (pages ++ [last]))
      /\ warnings c' = warnings c
      /\ length (requests c') = (length (requests c) + S (length pages))%nat.
Proof.
  intros Hpages Hlast.
  induction Hpages as [|p pages [Hflag Hdata] _ IH];
    intros done v c fuel Hnet Hnext Hseen Hnodup Hfuel.
  - destruct fuel as [|fuel]; [lia|].
    simpl app in *. rewrite app_nil_r in Hnodup.
    assert (Hcond : loop_condition (maxReports_of options) v = true)
      by (unfold loop_condition; now rewrite Hnext, unlimited).
    assert (Hfresh : forall r, r ∈ OctomindTestReportsPage.data last ->
                               OctomindTestReport.id r ∉ seenIds v).
    { intros r Hr Hin. rewrite map_app in Hnodup.
      apply NoDup_app in Hnodup as (_ & Hdisj & _).
      apply (Hdisj _ (Hseen _ Hin)).
      now apply (list_elem_of_fmap_2 OctomindTestReport.id). }
    destruct (iteration_fresh_page (Sample.scripted (map Json (done ++ [last])))
                v c (S (length done)) last) as [Hturn Hall]; auto.
    { rewrite Hnet. apply scripted_answer. }
    rewrite pagination_turn, Hturn, pagination_exit by
      (try assumption; unfold loop_condition, absorbed; simpl; now rewrite Hlast).
    eexists _, _. split; [reflexivity|]. rewrite Hall, app_nil_r.
    split; [reflexivity|]. split; [reflexivity|].
    simpl. rewrite length_app. simpl. lia.
  - destruct fuel as [|fuel]; [simpl in Hfuel; lia|].
    assert (Hcond : loop_condition (maxReports_of options) v = true)
      by (unfold loop_condition; now rewrite Hnext, unlimited).
    simpl app in Hnodup. simpl concat in Hnodup. simpl map in Hnodup.
    assert (Hfresh : forall r, r ∈ OctomindTestReportsPage.data p ->
                               OctomindTestReport.id r ∉ seenIds v).
    { intros r Hr Hin. rewrite map_app in Hnodup.
      apply NoDup_app in Hnodup as (_ & Hdisj & _).
      apply (Hdisj _ (Hseen _ Hin)).
      rewrite map_app. apply elem_of_app. left.
      now apply (list_elem_of_fmap_2 OctomindTestReport.id). }
    destruct (iteration_fresh_page
                (Sample.scripted (map Json (done ++ (p :: pages) ++ [last])))
                v c (S (length done)) p) as [Hturn Hall]; auto.
    { rewrite Hnet. apply scripted_answer. }
    rewrite pagination_turn, Hturn by assumption.
    destruct (IH (done ++ [p]) (absorbed v p)
                (with_request c (page_request c testTargetId options v)
                   (S (length done)))
                fuel)
      as (c' & v' & Hrun & Hall' & Hwarn & Hreq).
    + simpl. rewrite length_app. simpl. lia.
    + exact Hflag.
    + intros x Hx. rewrite Hall, map_app.
      unfold absorbed in Hx; simpl in Hx.
      rewrite newReports_all_fresh in Hx by assumption.
      apply elem_of_union in Hx as [Hx|Hx].
      * apply elem_of_app. right. now apply elem_of_list_to_set in Hx.
      * apply elem_of_app. left. now apply Hseen.
    + rewrite Hall, <- app_assoc. exact Hnodup.
    + simpl in Hfuel. lia.
    + rewrite <- app_assoc in Hrun. simpl app in Hrun.
      exists c', v'. split; [exact Hrun|].
      rewrite Hall', Hall, <- app_assoc.
      split; [reflexivity|]. split; [exact Hwarn|].
      rewrite Hreq. simpl. rewrite length_app. simpl. lia.
Qed.

(** X15: nothing is left out and nothing is reordered.  Against a service
    that serves a finite run of pages, all but the last with the
    continuation flag set and at least one report, the last with the flag
    cleared, no id occurring twice, and with no maximum supplied, the
    engine returns exactly the reports of all the pages in the order
    served, sends one request per page and warns of nothing. *)
Theorem scripted_pages_all_returned (pages : list OctomindTestReportsPage.t)
    (last : OctomindTestReportsPage.t) (c : Converter nat) (fuel : nat) :
  Forall (fun p => OctomindTestReportsPage.hasNextPage p = true
                   /\ OctomindTestReportsPage.data p <> []) pages ->
  OctomindTestReportsPage.hasNextPage last = false ->
  NoDup (map OctomindTestReport.id
           (concat (map OctomindTestReportsPage.data (pages ++ [last])))) ->
  net c = 0%nat ->
  (length pages < fuel)%nat ->
  exists c',
    fetchAllTestReports fuel (Sample.scripted (map Json (pages ++ [last])))
      testTargetId options c
    = Some (c', Returned
                  (concat (map OctomindTestReportsPage.data (pages ++ [last]))))
    /\ warnings c' = warnings c
    /\ length (requests c') = (length (requests c) + S (length pages))%nat.
Proof.
  intros Hpages Hlast Hnodup Hnet Hfuel.
  destruct (scripted_enumeration pages last Hpages Hlast [] initial_vars c fuel)
    as (c' & v' & Hrun & Hall & Hwarn & Hreq); try assumption; try reflexivity.
  { intros x Hx. now apply not_elem_of_empty in Hx. }
  simpl app in Hrun. simpl in Hall.
  unfold fetchAllTestReports, fetchAllTestReports_from.
  rewrite Hrun, Hall, unlimited.
  exists c'. split; [reflexivity|]. split; assumption.
Qed.

End Enumeration.

(** ** Pagination engine: runs that show the hypotheses can be met *)

Lemma stubborn_serves_target (ids : list string)
    (answer : Response OctomindTestCase.t) :
  serves_where (Sample.stubborn ids answer)
    (fun r => OctomindTestReport.testTargetId r = "target-1").
Proof.
  intros w req w' page [= _ <-] r Hr. simpl in Hr.
  apply (list_elem_of_fmap_1 Sample.report) in Hr as (i & -> & _).
  reflexivity.
Qed.

Lemma three_reports_capped_two :
  exists c',
    fetchAllTestReports 2
      (Sample.scripted
         [Json (Sample.page ["r1"; "r2"; "r3"] (Some "2024-01-02T00:00:00Z") true)])
      "target-1" (Sample.capped 2) (Sample.converter 0%nat)
    = Some (c', Returned [Sample.report "r1"; Sample.report "r2"]).
Proof. eexists. vm_compute. reflexivity. Qed.

Lemma returned_at_most_max_witness :
  exists c' reports,
    fetchAllTestReports 2
      (Sample.scripted
         [Json (Sample.page ["r1"; "r2"; "r3"] (Some "2024-01-02T00:00:00Z") true)])
      "target-1" (Sample.capped 2) (Sample.converter 0%nat)
    = Some (c', Returned reports)
    /\ (length reports <= 2)%nat.
Proof.
  destruct three_reports_capped_two as [c' Hrun].
  exists c', [Sample.report "r1"; Sample.report "r2"].
  split; [exact Hrun|].
  exact (returned_at_most_max _ "target-1" (Sample.capped 2) 2 _ _ _ _
           eq_refl ltac:(lia) Hrun).
Defined.

Lemma requests_at_most_max_witness :
  exists c' out,
    fetchAllTestReports 2
      (Sample.scripted
         [Json (Sample.page ["r1"; "r2"; "r3"] (Some "2024-01-02T00:00:00Z") true)])
      "target-1" (Sample.capped 2) (Sample.converter 0%nat)
    = Some (c', out)
    /\ (length (requests c') <= 2)%nat.
Proof.
  destruct three_reports_capped_two as [c' Hrun].
  exists c', (Returned [Sample.report "r1"; Sample.report "r2"]).
  split; [exact Hrun|].
  exact (requests_at_most_max _ "target-1" (Sample.capped 2) 2 _ _ _ _
           eq_refl ltac:(lia) Hrun).
Defined.

Lemma stubborn_returns_two :
  exists c',
    fetchAllTestReports 3 (Sample.stubborn ["r1"; "r2"] BadJson)
      "target-1" None (Sample.converter tt)
    = Some (c', Returned [Sample.report "r1"; Sample.report "r2"]).
Proof. eexists. vm_compute. reflexivity. Qed.

Lemma returned_were_served_witness :
  exists c' reports,
    fetchAllTestReports 3 (Sample.stubborn ["r1"; "r2"] BadJson)
      "target-1" None (Sample.converter tt)
    = Some (c', Returned reports)
    /\ Forall (fun r => OctomindTestReport.testTargetId r = "target-1") reports.
Proof.
  destruct stubborn_returns_two as [c' Hrun].
  exists c', [Sample.report "r1"; Sample.report "r2"].
  split; [exact Hrun|].
  exact (returned_were_served _ _ _ _ _ _ _ _
           (stubborn_serves_target _ _) Hrun).
Defined.

Lemma empty_page_with_flag_stops_witness :
  exists c',
    fetchAllTestReports 1
      (Sample.scripted [Json (Sample.page [] (Some "2024-01-02T00:00:00Z") true)])
      "target-1" None (Sample.converter 0%nat)
    = Some (c', Returned [])
    /\ warnings c' = [no_progress_warning].
Proof.
  destruct (empty_page_with_flag_stops
              (Sample.scripted
                 [Json (Sample.page [] (Some "2024-01-02T00:00:00Z") true)])
              "target-1" None initial_vars (Sample.converter 0%nat) 1%nat
              (Sample.page [] (Some "2024-01-02T00:00:00Z") true) 0%nat
              eq_refl eq_refl eq_refl eq_refl)
    as (c' & Hrun & Hwarn & _).
  exists c'. split; [exact Hrun | exact Hwarn].
Defined.

Lemma last_page_ends_witness :
  exists c',
    fetchAllTestReports 1
      (Sample.scripted [Json (Sample.page ["r1"] None false)])
      "target-1" None (Sample.converter 0%nat)
    = Some (c', Returned [Sample.report "r1"])
    /\ warnings c' = [].
Proof.
  destruct (last_page_ends
              (Sample.scripted [Json (Sample.page ["r1"] None false)])
              "target-1" None initial_vars (Sample.converter 0%nat) 1%nat
              (Sample.page ["r1"] None false) 0%nat
              eq_refl eq_refl eq_refl)
    as (c' & Hrun & Hwarn & _).
  { left. vm_compute. discriminate. }
  exists c'. split; [exact Hrun | exact Hwarn].
Defined.

Lemma page_failure_is_fatal_witness :
  exists c',
    fetchAllTestReports 1
      (Sample.scripted [NotOk 500 "Internal Server Error"])
      "target-1" None (Sample.converter 0%nat)
    = Some (c', Threw (HttpError "Failed to fetch test reports" 500
                         "Internal Server Error")).
Proof.
  destruct (page_failure_is_fatal
              (Sample.scripted [NotOk 500 "Internal Server Error"])
              "target-1" None initial_vars (Sample.converter 0%nat) 1%nat
              (NotOk 500 "Internal Server Error") 0%nat
              eq_refl eq_refl ltac:(discriminate))
    as (c' & e & Hrun & Hstatus & _).
  exists c'. now rewrite <- (Hstatus _ _ eq_refl).
Defined.

Lemma scripted_pages_all_returned_witness :
  let p1 := Sample.page ["r1"; "r2"] (Some "2024-01-02T00:00:00Z") true in
  let p2 := Sample.page ["r3"] None false in
  exists c',
    fetchAllTestReports 2 (Sample.scripted [Json p1; Json p2])
      "target-1" None (Sample.converter 0%nat)
    = Some (c', Returned [Sample.report "r1"; Sample.report "r2";
                          Sample.report "r3"])
    /\ length (requests c') = 2%nat.
Proof.
  intros p1 p2.
  destruct (scripted_pages_all_returned "target-1" None eq_refl [p1] p2
              (Sample.converter 0%nat) 2%nat)
    as (c' & Hrun & _ & Hreq); try reflexivity.
  - repeat constructor. discriminate.
  - vm_compute. repeat constructor; intros Hin;
      repeat (apply elem_of_cons in Hin as [Hin|Hin]; [discriminate|]);
      now apply elem_of_nil in Hin.
  - simpl; lia.
  - exists c'. split; [exact Hrun | exact Hreq].
Defined.

(** ** Single-report conversion *)

Lemma list_ascii_of_append (s1 s2 : string) :
  list_ascii_of_string (s1 +:+ s2)
  = list_ascii_of_string s1 ++ list_ascii_of_string s2.
Proof.
  induction s1 as [|a s1 IH]; [reflexivity|].
  change (String a s1 +:+ s2) with (String a (s1 +:+ s2)).
  simpl. now rewrite IH.
Qed.

Lemma append_inv_tail (s1 s2 suffix : string) :
  s1 +:+ suffix = s2 +:+ suffix -> s1 = s2.
Proof.
  intros Heq. apply (f_equal list_ascii_of_string) in Heq.
  rewrite !list_ascii_of_append in Heq. apply app_inv_tail in Heq.
  apply (f_equal string_of_list_ascii) in Heq.
  now rewrite !string_of_list_ascii_of_string in Heq.
Qed.

Lemma result_name_not_container_name (u1 u2 : string) :
  u1 +:+ "-result.json" <> u2 +:+ "-container.json".
Proof.
  intros Heq. apply (f_equal list_ascii_of_string) in Heq.
  rewrite !list_ascii_of_append in Heq.
  apply (f_equal (fun l => take 6 (rev l))) in Heq.
  rewrite !rev_app_distr in Heq.
  rewrite !take_app_le in Heq by (simpl; lia).
  discriminate.
Qed.

Section SingleReport.
Context {W : Type} (host : Host) (remote : Remote W)
        (testReport : OctomindTestReport.t) (testTarget : OctomindTestTarget.t)
        (outputDir : string).

Lemma fetchTestCase_returned_cached (testTargetId testCaseId : string)
    (c c' : Converter W) (testCase : OctomindTestCase.t) :
  fetchTestCase remote testTargetId testCaseId c = (c', Returned testCase) ->
  testCaseCache c' !! cacheKey_of testTargetId testCaseId = Some testCase
  /\ (length (requests c') <= S (length (requests c)))%nat.
Proof.
  intros Hrun.
  destruct (testCaseCache c !! cacheKey_of testTargetId testCaseId)
    as [cached|] eqn:Hlookup.
  - rewrite (fetchTestCase_hit remote _ _ _ _ Hlookup) in Hrun.
    injection Hrun as <- <-. split; [assumption|lia].
  - destruct (fetchTestCase_miss_returned remote _ _ _ _ _ Hlookup Hrun)
      as [-> ->].
    split; [apply lookup_insert_eq|]. rewrite length_app. simpl. lia.
Qed.

(** What the loop over the results has done when it returns. *)
Lemma convert_results_done (results : list OctomindTestResult.t) :
  forall (uuids out : list string) (s s' : Session W),
    convert_results host remote testReport testTarget outputDir results uuids s
      = (s', Done out) ->
    out = uuids ++ draws host (uuids_drawn s) (length results)
    /\ uuids_drawn s' = (uuids_drawn s + length results)%nat
    /\ dirs s' = dirs s
    /\ (results = [] \/ outputDir ∈ dirs s)
    /\ testCaseCache (this s) ⊆ testCaseCache (this s')
    /\ (forall r, r ∈ results ->
          is_Some (testCaseCache (this s')
                     !! cacheKey_of (OctomindTestReport.testTargetId testReport)
                          (OctomindTestResult.testCaseId r)))
    /\ (length (requests (this s'))
        <= length (requests (this s)) + length results)%nat
    /\ (forall name, named_after_uuid outputDir name (files s) ->
                     named_after_uuid outputDir name (files s'))
    /\ (forall u, u ∈ draws host (uuids_drawn s) (length results) ->
          named_after_uuid outputDir (u +:+ "-result.json") (files s'))
    /\ (forall dir name, dir <> outputDir ->
          files s' !! (dir, name) = files s !! (dir, name)).
Proof.
  induction results as [|r rest IH]; intros uuids out s s' Hrun.
  - injection Hrun as <- <-. unfold draws. simpl.
    rewrite app_nil_r, Nat.add_0_r.
    repeat split; auto; try lia.
    + intros r Hr. now apply elem_of_nil in Hr.
    + intros u Hu. now apply elem_of_nil in Hu.
  - simpl in Hrun. unfold and_then at 1, lift in Hrun.
    destruct (fetchTestCase remote (OctomindTestReport.testTargetId testReport)
                (OctomindTestResult.testCaseId r) (this s))
      as [c1 [e|testCase]] eqn:Hcase; [discriminate|].
    unfold and_then at 1, convertTestResult_on in Hrun. cbn [this dirs files
      uuids_drawn clock_reads] in Hrun.
    unfold and_then at 1, writeFile in Hrun. cbn [this dirs files
      uuids_drawn clock_reads] in Hrun.
    destruct (decide (outputDir ∈ dirs s)) as [Hdir|Hdir]; [|discriminate].
    cbn [convertTestResult AllureTestResult.uuid randomUUID] in Hrun.
    apply IH in Hrun
      as (Hout & Hdrawn & Hdirs & _ & Hcache & Hcached & Hreq & Hkeep & Hfiles & Hother).
    cbn [this dirs files uuids_drawn clock_reads] in *.
    destruct (fetchTestCase_returned_cached _ _ _ _ _ Hcase) as [Hkey Hone].
    pose proof (fetchTestCase_keeps remote
                  (OctomindTestReport.testTargetId testReport)
                  (OctomindTestResult.testCaseId r) (this s)) as Hgrow.
    rewrite Hcase in Hgrow. destruct Hgrow as (Hgrow & _).
    assert (Hfirst : forall disk,
               named_after_uuid outputDir
                 (uuid_at host (uuids_drawn s) +:+ "-result.json")
                 (<[(outputDir, uuid_at host (uuids_drawn s) +:+ "-result.json")
                    := ResultFile
                         (convertTestResult
                            {| randomUUID := uuid_at host (uuids_drawn s);
                               Date_now := now_at host (clock_reads s);
                               Date_getTime := getTime_of host |}
                            r testReport testCase testTarget)]> disk)).
    { intros disk. eexists. split; [apply lookup_insert_eq|reflexivity]. }
    split; [|split; [|split; [|split; [|split; [|split; [|split; [|split; [|split]]]]]]]].
    + rewrite Hout, <- app_assoc. reflexivity.
    + rewrite Hdrawn. simpl. lia.
    + exact Hdirs.
    + right. exact Hdir.
    + etrans; eassumption.
    + intros r' Hr'. apply elem_of_cons in Hr' as [->|Hr'].
      * exists testCase. eapply lookup_weaken; eassumption.
      * now apply Hcached.
    + simpl. lia.
    + intros name Hnamed. apply Hkeep.
      destruct (decide (name = uuid_at host (uuids_drawn s) +:+ "-result.json"))
        as [->|Hne]; [apply Hfirst|].
      destruct Hnamed as (x & Hx & Hname). exists x. split; [|exact Hname].
      rewrite lookup_insert_ne; [exact Hx|]. intros [= Heq]. now apply Hne.
    + intros u Hu. unfold draws in Hu. simpl in Hu.
      apply elem_of_cons in Hu as [->|Hu].
      * apply Hkeep, Hfirst.
      * apply Hfiles. exact Hu.
    + intros dir name Hne. rewrite Hother by assumption.
      apply lookup_insert_ne. intros [= Heq _]. now apply Hne.
Qed.

(** The loop over results whose cases are all cached: no request. *)
Lemma convert_results_warm (results : list OctomindTestResult.t) :
  forall (uuids : list string) (s : Session W),
    (forall r, r ∈ results ->
       is_Some (testCaseCache (this s)
                  !! cacheKey_of (OctomindTestReport.testTargetId testReport)
                       (OctomindTestResult.testCaseId r))) ->
    (results = [] \/ outputDir ∈ dirs s) ->
    exists s',
      convert_results host remote testReport testTarget outputDir results uuids s
      = (s', Done (uuids ++ draws host (uuids_drawn s) (length results)))
      /\ this s' = this s /\ dirs s' = dirs s.
Proof.
  induction results as [|r rest IH]; intros uuids s Hcached Hdir.
  - exists s. unfold draws. simpl. rewrite app_nil_r. auto.
  - destruct Hdir as [Hnil|Hdir]; [discriminate|].
    destruct (Hcached r) as [cached Hkey]; [left|].
    simpl. unfold and_then at 1, lift.
    rewrite (fetchTestCase_hit remote _ _ _ _ Hkey).
    unfold and_then at 1, convertTestResult_on.
    cbn [this dirs files uuids_drawn clock_reads].
    unfold and_then at 1, writeFile.
    cbn [this dirs files uuids_drawn clock_reads].
    destruct (decide (outputDir ∈ dirs s)) as [_|Hno]; [|contradiction].
    cbn [convertTestResult AllureTestResult.uuid randomUUID].
    match goal with
    | |- exists s', convert_results _ _ _ _ _ _ ?acc ?s3 = _ /\ _ =>
        destruct (IH acc s3) as (s' & Hrun & Hthis & Hdirs)
    end.
    + intros r' Hr'. apply Hcached. now right.
    + right. exact Hdir.
    + exists s'. cbn [this dirs files uuids_drawn clock_reads] in *.
      rewrite Hrun, <- app_assoc. auto.
Qed.

(** X16: when [convertTestReportToAllure] returns, it returns one
    identifier per result of the report, in the order of the results and
    in the order they were drawn; for each of them the output directory
    holds a result file named after it whose record carries it; no file
    outside the output directory has changed, and at most one test-case
    request per result was sent. *)
Theorem convertTestReportToAllure_done (s s' : Session W)
    (uuids : list string) :
  convertTestReportToAllure host remote testReport testTarget outputDir s
    = (s', Done uuids) ->
  uuids = draws host (uuids_drawn s)
            (length (OctomindTestReport.testResults testReport))
  /\ length uuids = length (OctomindTestReport.testResults testReport)
  /\ (forall u, u ∈ uuids ->
        exists r, files s' !! (outputDir, u +:+ "-result.json")
                  = Some (ResultFile r)
                  /\ AllureTestResult.uuid r = u)
  /\ (forall dir name, dir <> outputDir ->
        files s' !! (dir, name) = files s !! (dir, name))
  /\ (length (requests (this s'))
      <= length (requests (this s))
         + length (OctomindTestReport.testResults testReport))%nat.
Proof.
  intros Hrun. apply convert_results_done in Hrun
    as (Hout & _ & _ & _ & _ & _ & Hreq & _ & Hfiles & Hother).
  simpl in Hout. subst uuids.
  split; [reflexivity|]. split; [unfold draws; now rewrite length_map, length_seq|].
  split; [|split; assumption].
  intros u Hu. destruct (Hfiles u Hu) as (r & Hr & Hname).
  exists r. split; [exact Hr|]. symmetry. eapply append_inv_tail, Hname.
Qed.

(** X17: the cache makes a second conversion of a report free of
    requests: once [convertTestReportToAllure] has returned, converting
    the same report again returns as many identifiers and leaves the
    converter, its cache and the list of requests sent as they were. *)
Theorem second_conversion_sends_nothing (s s1 : Session W)
    (uuids : list string) :
  convertTestReportToAllure host remote testReport testTarget outputDir s
    = (s1, Done uuids) ->
  exists s2,
    convertTestReportToAllure host remote testReport testTarget outputDir s1
    = (s2, Done (draws host (uuids_drawn s1)
                   (length (OctomindTestReport.testResults testReport))))
    /\ this s2 = this s1
    /\ requests (this s2) = requests (this s1).
Proof.
  intros Hrun. apply convert_results_done in Hrun
    as (_ & _ & Hdirs & Hdir & _ & Hcached & _).
  destruct (convert_results_warm (OctomindTestReport.testResults testReport)
              [] s1 Hcached) as (s2 & Hrun2 & Hthis & _).
  { destruct Hdir as [Hnil|Hdir]; [now left|right]. now rewrite Hdirs. }
  exists s2. split; [exact Hrun2|]. split; [exact Hthis|]. now rewrite Hthis.
Qed.

End SingleReport.

Section WholeRun.
Context {W : Type} (host : Host) (service : Service W)
        (testTargetId testReportId outputDir : string).

Lemma fetchTestTarget_outcome (c : Converter W) :
  let req := target_request c testTargetId in
  fetchTestTarget service testTargetId c
  = (with_request c req (getTestTarget service (net c) req).1,
     match (getTestTarget service (net c) req).2 with
     | Json target => Returned target
     | BadJson => Threw JsonRejected
     | NotOk status statusText =>
         Threw (HttpError "Failed to fetch test target" status statusText)
     | NetworkError => Threw FetchRejected
     end).
Proof.
  cbv zeta. unfold fetchTestTarget, bind, fetch.
  fold (target_request c testTargetId).
  destruct (getTestTarget service (net c) (target_request c testTargetId))
    as [w' [| status text | | target]]; reflexivity.
Qed.

Lemma fetchTestReport_outcome (c : Converter W) :
  let req := report_request c testTargetId testReportId in
  fetchTestReport service testTargetId testReportId c
  = (with_request c req (getTestReport service (net c) req).1,
     match (getTestReport service (net c) req).2 with
     | Json report => Returned report
     | BadJson => Threw JsonRejected
     | NotOk status statusText =>
         Threw (HttpError "Failed to fetch test report" status statusText)
     | NetworkError => Threw FetchRejected
     end).
Proof.
  cbv zeta. unfold fetchTestReport, bind, fetch.
  fold (report_request c testTargetId testReportId).
  destruct (getTestReport service (net c)
              (report_request c testTargetId testReportId))
    as [w' [| status text | | report]]; reflexivity.
Qed.

(** X18: a failed fetch of the target or of the report is fatal and
    comes before anything is written: [convertAndWrite] fails with the
    error of the fetch (naming the status when the service answered
    outside 2xx), the disk and its directories are as they were, no
    identifier was drawn, and after a failed target fetch the report was
    not asked for. *)
Theorem convertAndWrite_fetch_failure (s : Session W) :
  (forall w' resp,
      getTestTarget service (net (this s))
        (target_request (this s) testTargetId) = (w', resp) ->
      (forall target, resp <> Json target) ->
      exists s' e,
        convertAndWrite host service testTargetId testReportId outputDir s
        = (s', Failed (RemoteFailure e))
        /\ files s' = files s /\ dirs s' = dirs s
        /\ uuids_drawn s' = uuids_drawn s
        /\ length (requests (this s')) = S (length (requests (this s)))
        /\ (forall status statusText,
              resp = NotOk status statusText ->
              e = HttpError "Failed to fetch test target" status statusText))
  /\ (forall w1 target w2 resp,
        getTestTarget service (net (this s))
          (target_request (this s) testTargetId) = (w1, Json target) ->
        getTestReport service w1
          (report_request (this s) testTargetId testReportId) = (w2, resp) ->
        (forall report, resp <> Json report) ->
        exists s' e,
          convertAndWrite host service testTargetId testReportId outputDir s
          = (s', Failed (RemoteFailure e))
          /\ files s' = files s /\ dirs s' = dirs s
          /\ uuids_drawn s' = uuids_drawn s
          /\ (forall status statusText,
                resp = NotOk status statusText ->
                e = HttpError "Failed to fetch test report" status statusText)).
Proof.
  split.
  - intros w' resp Hresp Hfail.
    unfold convertAndWrite, and_then at 1, lift.
    rewrite fetchTestTarget_outcome. cbv zeta. rewrite Hresp.
    destruct resp as [| status text | | target];
      try (now destruct (Hfail target));
      (eexists _, _; split; [reflexivity|]; cbn;
       repeat split; try reflexivity;
       try (rewrite length_app; simpl; lia);
       try (intros ? ? [= <- <-]; reflexivity);
       try discriminate).
  - intros w1 target w2 resp Htarget Hresp Hfail.
    unfold convertAndWrite, and_then at 1, lift.
    rewrite fetchTestTarget_outcome. cbv zeta. rewrite Htarget.
    unfold and_then at 1, lift. cbn [this dirs files uuids_drawn clock_reads snd fst].
    rewrite fetchTestReport_outcome. cbv zeta.
    change (report_request (with_request _ _ _) testTargetId testReportId)
      with (report_request (this s) testTargetId testReportId).
    change (net (with_request (this s) (target_request (this s) testTargetId) w1))
      with w1.
    rewrite Hresp.
    destruct resp as [| status text | | report];
      try (now destruct (Hfail report));
      (eexists _, _; split; [reflexivity|]; cbn;
       repeat split; try reflexivity;
       try (intros ? ? [= <- <-]; reflexivity);
       try discriminate).
Qed.

(** X19: when [convertAndWrite] returns, the service has served a target
    and a report, the output directory exists and holds one container
    file, named after the container's identifier, whose name is that of
    the report and whose children are the identifiers of the results in
    the order of the report's results; each child has its result file
    in the same directory, and the container's identifier was drawn after
    theirs. *)
Theorem convertAndWrite_done (s s' : Session W) :
  convertAndWrite host service testTargetId testReportId outputDir s
    = (s', Done tt) ->
  exists w1 target w2 report container,
    getTestTarget service (net (this s))
      (target_request (this s) testTargetId) = (w1, Json target)
    /\ getTestReport service w1
         (report_request (this s) testTargetId testReportId) = (w2, Json report)
    /\ outputDir ∈ dirs s'
    /\ files s' !! (outputDir, AllureContainer.uuid container +:+ "-container.json")
       = Some (ContainerFile container)
    /\ AllureContainer.name container
       = "Test Report " +:+ OctomindTestReport.id report
    /\ AllureContainer.children container
       = draws host (uuids_drawn s)
           (length (OctomindTestReport.testResults report))
    /\ AllureContainer.uuid container
       = uuid_at host (uuids_drawn s
                       + length (OctomindTestReport.testResults report))
    /\ (forall u, u ∈ AllureContainer.children container ->
          exists r, files s' !! (outputDir, u +:+ "-result.json")
                    = Some (ResultFile r)
                    /\ AllureTestResult.uuid r = u)
    /\ (forall dir name, dir <> outputDir ->
          files s' !! (dir, name) = files s !! (dir, name)).
Proof.
  unfold convertAndWrite, and_then at 1, lift.
  rewrite fetchTestTarget_outcome. cbv zeta.
  destruct (getTestTarget service (net (this s))
              (target_request (this s) testTargetId))
    as [w1 [| st1 tx1 | | target]] eqn:Htarget; try discriminate.
  unfold and_then at 1, lift.
  cbn [this dirs files uuids_drawn clock_reads snd fst].
  rewrite fetchTestReport_outcome. cbv zeta.
  change (report_request (with_request _ _ _) testTargetId testReportId)
    with (report_request (this s) testTargetId testReportId).
  change (net (with_request (this s) (target_request (this s) testTargetId) w1))
    with w1.
  destruct (getTestReport service w1
              (report_request (this s) testTargetId testReportId))
    as [w2 [| st2 tx2 | | report]] eqn:Hreport; try discriminate.
  unfold and_then at 1, ensureDir.
  cbn [this dirs files uuids_drawn clock_reads snd fst].
  unfold and_then at 1.
  match goal with
  | |- context [convertTestReportToAllure _ _ _ _ _ ?s3] =>
      destruct (convertTestReportToAllure host (remote_of service) report
                  target outputDir s3) as [s4 [f|uuids]] eqn:Hconv;
        [discriminate|]
  end.
  apply convert_results_done in Hconv
    as (Hout & Hdrawn & Hdirs & _ & _ & _ & _ & _ & Hfiles & Hother).
  cbn [this dirs files uuids_drawn clock_reads] in *.
  unfold and_then at 1, convertToContainer_on, writeFile.
  cbn [this dirs files uuids_drawn clock_reads].
  destruct (decide (outputDir ∈ dirs s4)) as [Hdir|Hdir]; [|discriminate].
  cbn [convertToContainer AllureContainer.uuid randomUUID].
  intros [= <-]. cbn [this dirs files uuids_drawn clock_reads].
  exists w1, target, w2, report.
  eexists. split; [first [reflexivity | exact Htarget]|].
  split; [first [reflexivity | exact Hreport]|].
  split; [exact Hdir|].
  split; [apply lookup_insert_eq|].
  split; [reflexivity|].
  simpl in Hout. subst uuids.
  split; [reflexivity|].
  split; [cbn; now rewrite Hdrawn|].
  split.
  - intros u Hu. cbn in Hu. destruct (Hfiles u Hu) as (r & Hr & Hname).
    exists r. split.
    + rewrite lookup_insert_ne; [exact Hr|].
      intros [= Heq]. symmetry in Heq.
      now apply result_name_not_container_name in Heq.
    + symmetry. eapply append_inv_tail, Hname.
  - intros dir name Hne. rewrite lookup_insert_ne.
    + now apply Hother.
    + intros [= Heq _]. now apply Hne.
Qed.

End WholeRun.

(** ** Single-report runs on the sample machine *)

Lemma sample_conversion :
  exists s',
    convertTestReportToAllure Desk.host
      (Sample.stubborn [] (NotOk 404 "Not Found"))
      Desk.two_results Sample.test_target "out" (Desk.session_with_dir "out")
    = (s', Done ["uuid-a"; "uuid-b"]).
Proof. eexists. vm_compute. reflexivity. Qed.

Lemma convertTestReportToAllure_done_witness :
  exists s',
    convertTestReportToAllure Desk.host
      (Sample.stubborn [] (NotOk 404 "Not Found"))
      Desk.two_results Sample.test_target "out" (Desk.session_with_dir "out")
    = (s', Done ["uuid-a"; "uuid-b"])
    /\ (length (requests (this s')) <= 2)%nat
    /\ exists r, files s' !! ("out", "uuid-b-result.json") = Some (ResultFile r)
                 /\ AllureTestResult.uuid r = "uuid-b".
Proof.
  destruct sample_conversion as [s' Hrun]. exists s'.
  destruct (convertTestReportToAllure_done _ _ _ _ _ _ _ _ Hrun)
    as (_ & _ & Hfiles & _ & Hreq).
  split; [exact Hrun|]. split; [exact Hreq|].
  apply (Hfiles "uuid-b"). right. left.
Defined.

Lemma second_conversion_sends_nothing_witness :
  exists s1 s2 uuids,
    convertTestReportToAllure Desk.host
      (Sample.stubborn [] (NotOk 404 "Not Found"))
      Desk.two_results Sample.test_target "out" (Desk.session_with_dir "out")
    = (s1, Done ["uuid-a"; "uuid-b"])
    /\ convertTestReportToAllure Desk.host
         (Sample.stubborn [] (NotOk 404 "Not Found"))
         Desk.two_results Sample.test_target "out" s1
       = (s2, Done uuids)
    /\ requests (this s2) = requests (this s1).
Proof.
  destruct sample_conversion as [s1 Hrun].
  destruct (second_conversion_sends_nothing _ _ _ _ _ _ _ _ Hrun)
    as (s2 & Hrun2 & _ & Hreq).
  exists s1, s2. eexists. split; [exact Hrun|]. split; [exact Hrun2|exact Hreq].
Defined.

Lemma convertAndWrite_fetch_failure_witness :
  exists s',
    convertAndWrite Desk.host
      (Desk.service (NotOk 404 "Not Found") (Json Desk.two_results)
         (NotOk 404 "Not Found"))
      "target-1" "report-1" "out" Desk.session
    = (s', Failed (RemoteFailure
                     (HttpError "Failed to fetch test target" 404 "Not Found")))
    /\ files s' = files Desk.session
    /\ length (requests (this s')) = 1%nat.
Proof.
  destruct (convertAndWrite_fetch_failure Desk.host
              (Desk.service (NotOk 404 "Not Found") (Json Desk.two_results)
                 (NotOk 404 "Not Found"))
              "target-1" "report-1" "out" Desk.session) as [Htarget _].
  destruct (Htarget tt (NotOk 404 "Not Found") eq_refl ltac:(discriminate))
    as (s' & e & Hrun & Hfiles & _ & _ & Hreq & Hstatus).
  exists s'. rewrite <- (Hstatus _ _ eq_refl).
  split; [exact Hrun|]. split; [exact Hfiles | exact Hreq].
Defined.

Lemma sample_run :
  exists s',
    convertAndWrite Desk.host
      (Desk.service (Json Sample.test_target) (Json Desk.two_results)
         (NotOk 404 "Not Found"))
      "target-1" "report-1" "out" Desk.session
    = (s', Done tt).
Proof. eexists. vm_compute. reflexivity. Qed.

Lemma convertAndWrite_done_witness :
  exists s' container,
    convertAndWrite Desk.host
      (Desk.service (Json Sample.test_target) (Json Desk.two_results)
         (NotOk 404 "Not Found"))
      "target-1" "report-1" "out" Desk.session
    = (s', Done tt)
    /\ files s' !! ("out", "uuid-c-container.json") = Some (ContainerFile container)
    /\ AllureContainer.children container = ["uuid-a"; "uuid-b"]
    /\ AllureContainer.name container = "Test Report report-1".
Proof.
  destruct sample_run as [s' Hrun].
  destruct (convertAndWrite_done _ _ _ _ _ _ _ Hrun)
    as (w1 & target & w2 & report & container
        & _ & Hreport & _ & Hfile & Hname & Hchildren & Huuid & _).
  injection Hreport as _ <-.
  exists s', container. split; [exact Hrun|].
  rewrite Huuid in Hfile. split; [exact Hfile|].
  split; [exact Hchildren | exact Hname].
Defined.

(** ** Command line *)

Module Cli_facts.
Import Cli.

Lemma given_cons (f : flag) (arg : string) (rest : list string) :
  given f rest -> given f (arg :: rest).
Proof. intros (a & Ha & Hf). exists a. split; [now right|exact Hf]. Qed.

Lemma given_here (f : flag) (arg : string) (rest : list string) :
  flag_of arg = Some f -> given f (arg :: rest).
Proof. intros Hf. exists arg. split; [left|exact Hf]. Qed.

Lemma kept_refl (args : list string) (o : t) : kept args o o.
Proof. repeat split; now left. Qed.

Lemma kept_cons (arg : string) (rest : list string) (o o' : t) :
  kept rest o o' -> kept (arg :: rest) o o'.
Proof.
  intros (H1 & H2 & H3 & H4 & H5 & H6 & H7 & H8).
  repeat split;
    match goal with
    | H : _ \/ given ?g _ |- _ \/ given ?g _ =>
        destruct H as [H|H]; [now left | right; now apply given_cons]
    end.
Qed.

Lemma kept_assign (parseInt : option string -> Js.number) (f : flag)
    (value : option string) (args : list string) (o o' : t) :
  given f args ->
  kept args (assign parseInt f value o) o' ->
  kept args o o'.
Proof.
  intros Hgiven (H1 & H2 & H3 & H4 & H5 & H6 & H7 & H8).
  destruct f; simpl in *; repeat split; solve [assumption | now right].
Qed.

(** A variable of the loop changes only when its flag is among the
    arguments; the help is shown only when asked for. *)
Lemma parse_changes (parseInt : option string -> Js.number) (n : nat) :
  forall (args : list string) (o : t),
    (length args <= n)%nat ->
    match parse parseInt args o with
    | HelpShown => given Help args
    | Parsed o' => kept args o o'
    end.
Proof.
  induction n as [|n IH]; intros args o Hlen.
  - destruct args; [|simpl in Hlen; lia]. apply kept_refl.
  - destruct args as [|arg rest]; [apply kept_refl|].
    simpl in Hlen.
    assert (Hskip : forall f, given f (arg :: rest) ->
               match parse parseInt rest (assign parseInt f None o) with
               | HelpShown => given Help (arg :: rest)
               | Parsed o' => kept (arg :: rest) o o'
               end).
    { intros f Hf.
      specialize (IH rest (assign parseInt f None o) ltac:(lia)).
      destruct (parse parseInt rest _); [now apply given_cons|].
      apply (kept_assign parseInt f None); [exact Hf|].
      apply kept_cons. exact IH. }
    assert (Hread : forall f, given f (arg :: rest) ->
               match match rest with
                     | [] => Parsed (assign parseInt f None o)
                     | value :: rest' =>
                         parse parseInt rest' (assign parseInt f (Some value) o)
                     end with
               | HelpShown => given Help (arg :: rest)
               | Parsed o' => kept (arg :: rest) o o'
               end).
    { intros f Hf. destruct rest as [|value rest'].
      - apply (kept_assign parseInt f None); [exact Hf|]. apply kept_refl.
      - specialize (IH rest' (assign parseInt f (Some value) o)
                      ltac:(simpl in Hlen; lia)).
        destruct (parse parseInt rest' _);
          [now apply given_cons, given_cons|].
        apply (kept_assign parseInt f (Some value)); [exact Hf|].
        apply kept_cons, kept_cons. exact IH. }
    cbn [parse]. destruct (flag_of arg) as [f|] eqn:Hflag.
    + pose proof (given_here f arg rest Hflag) as Hhere.
      destruct f;
        [ exact (Hread ApiKey Hhere) | exact (Hread TestTargetId Hhere)
        | exact (Hread TestReportId Hhere) | exact (Hread OutputDir Hhere)
        | exact (Hskip Batch Hhere) | exact (Hread MaxReports Hhere)
        | exact (Hread EnvironmentId Hhere) | exact (Hskip Debug Hhere)
        | exact Hhere ].
    + specialize (IH rest o ltac:(lia)).
      destruct (parse parseInt rest o); [now apply given_cons|].
      now apply kept_cons.
Qed.

End Cli_facts.

Lemma truthy_default (o : option string) :
  Js.truthy_str o = true -> default EmptyString o <> EmptyString.
Proof. destruct o as [[|a s]|]; simpl; congruence. Qed.

(** X20: the conversion only starts on arguments that name what it
    needs.  A batch conversion starts only when flags for the API key,
    the target and the batch mode are among the arguments, a
    single-report conversion only when flags for the API key, the target
    and the report are; the key, the target id and the report id handed
    on are never empty; the output directory is the default unless its
    flag is given, the maximum is absent unless its flag is given, and
    the help is shown only when the help flag is among the arguments. *)
Theorem launch_requires_flags (parseInt : option string -> Js.number)
    (OCTOMIND_API_URL : option string) (args : list string) :
  match Cli.main_arguments parseInt OCTOMIND_API_URL args with
  | Cli.ExitHelp => Cli.given Cli.Help args
  | Cli.ExitUsage _ => True
  | Cli.LaunchBatch key base target dir max environment verbose =>
      key <> EmptyString /\ target <> EmptyString
      /\ Cli.given Cli.ApiKey args /\ Cli.given Cli.TestTargetId args
      /\ Cli.given Cli.Batch args
      /\ base = default "https://app.octomind.dev/api" OCTOMIND_API_URL
      /\ (~ Cli.given Cli.OutputDir args -> dir = Some "./allure-results")
      /\ (~ Cli.given Cli.MaxReports args -> max = None)
      /\ (~ Cli.given Cli.EnvironmentId args -> environment = None)
  | Cli.LaunchSingle key base target report dir =>
      key <> EmptyString /\ target <> EmptyString /\ report <> EmptyString
      /\ Cli.given Cli.ApiKey args /\ Cli.given Cli.TestTargetId args
      /\ Cli.given Cli.TestReportId args
      /\ base = default "https://app.octomind.dev/api" OCTOMIND_API_URL
      /\ (~ Cli.given Cli.OutputDir args -> dir = Some "./allure-results")
  end.
Proof.
  unfold Cli.main_arguments.
  pose proof (Cli_facts.parse_changes parseInt (length args) args Cli.start
                (Nat.le_refl _)) as Hkept.
  destruct (Cli.parse parseInt args Cli.start) as [|o]; [exact Hkept|].
  destruct Hkept as (Hkey & Htarget & Hreport & Hdir & Hbatch & Hmax & Henv & _).
  destruct (Js.truthy_str (Cli.apiKey o)) eqn:Tkey; [|exact I].
  destruct (Js.truthy_str (Cli.testTargetId o)) eqn:Ttarget; [|exact I].
  assert (Gkey : Cli.given Cli.ApiKey args).
  { destruct Hkey as [Heq|]; [|assumption]. rewrite Heq in Tkey. discriminate. }
  assert (Gtarget : Cli.given Cli.TestTargetId args).
  { destruct Htarget as [Heq|]; [|assumption].
    rewrite Heq in Ttarget. discriminate. }
  assert (Gdir : ~ Cli.given Cli.OutputDir args ->
                 Cli.outputDir o = Some "./allure-results").
  { intros Hno. destruct Hdir as [Heq|]; [exact Heq|contradiction]. }
  simpl negb. cbn [orb].
  destruct (Cli.batchMode o) eqn:Tbatch;
    destruct (Js.truthy_str (Cli.testReportId o)) eqn:Treport;
    cbn [andb negb]; try exact I.
  - repeat split; try assumption; try (now apply truthy_default).
    + destruct Hbatch as [Heq|]; [|assumption].
      rewrite Heq in Tbatch. discriminate.
    + intros Hno. destruct Hmax as [Heq|]; [exact Heq|contradiction].
    + intros Hno. destruct Henv as [Heq|]; [exact Heq|contradiction].
  - repeat split; try assumption; try (now apply truthy_default).
    destruct Hreport as [Heq|]; [|assumption].
    rewrite Heq in Treport. discriminate.
Qed.

(** The two invocations of the usage text, and two that are turned away. *)
Example main_arguments_samples :
  let parseInt := fun _ : option string => Js.Num 10 in
  Cli.main_arguments parseInt None
    ["--api-key"; "secret"; "--test-target-id"; "target-1";
     "--test-report-id"; "report-1"; "--output-dir"; "./allure-results"]
  = Cli.LaunchSingle "secret" "https://app.octomind.dev/api" "target-1"
      "report-1" (Some "./allure-results")
  /\ Cli.main_arguments parseInt None
       ["-k"; "secret"; "-t"; "target-1"; "--batch"; "--max-reports"; "10"]
     = Cli.LaunchBatch "secret" "https://app.octomind.dev/api" "target-1"
         (Some "./allure-results") (Some (Js.Num 10)) None false
  /\ (exists errors,
        Cli.main_arguments parseInt None
          ["-k"; "secret"; "-t"; "target-1"; "-b"; "-r"; "report-1"]
        = Cli.ExitUsage errors)
  /\ (exists errors,
        Cli.main_arguments parseInt None ["-t"; "target-1"; "-b"; "-k"]
        = Cli.ExitUsage errors).
Proof. repeat split; eexists; reflexivity. Qed.
